(** * The chat server's message, conversation and group store

    A shallow embedding of the HTTP handlers of the chat server
    (the Hono application serving [/make-server-b85e5461/...]) over its
    key-value store, and the properties of the conversation index, the
    group directory, the message listings and the cascading deletes. *)

From stdpp Require Import gmap strings list fin_maps sorting pretty.
From Stdlib Require Import ZArith Lia.

Local Open Scope string_scope.
Local Open Scope Z_scope.

(** ** JavaScript values the handlers compute with *)

(** [!x] for a string that may be absent: [undefined], [null] and the
    empty string are falsy, every other string is truthy. *)
Definition truthy (x : option string) : bool :=
  match x with
  | Some s => negb (String.eqb s "")
  | None => false
  end.

(** [a || b] on such values. *)
Definition js_or (a b : option string) : option string :=
  if truthy a then a else b.

(** The string a template literal prints for [x] ([null] prints as
    ["null"], [undefined] as ["undefined"]; the handlers only print values
    they have checked to be truthy). *)
Definition js_str (x : option string) : string :=
  match x with
  | Some s => s
  | None => "null"
  end.

(** [Array.prototype.includes] on an array of strings. *)
Definition includes (l : list string) (x : string) : bool :=
  bool_decide (x ∈ l).

(** [Array.prototype.push]: the array with [x] appended. *)
Definition push (l : list string) (x : string) : list string := (l ++ [x])%list.

(** [String.prototype.startsWith]. *)
Definition startsWith (s p : string) : bool := String.prefix p s.

(** [Array.prototype.sort] with a comparator: the engine's sort is stable,
    and for a comparator that is a total preorder the result is the stable
    sorted arrangement, computed here by insertion from the right. [cmp a b]
    is the comparator's number: negative puts [a] first, positive [b]. *)
Section JsSort.
Context {A : Type} (cmp : A → A → Z).

Fixpoint sort_insert (x : A) (l : list A) : list A :=
  match l with
  | [] => [x]
  | y :: l' => if cmp x y <=? 0 then x :: y :: l' else y :: sort_insert x l'
  end.

Fixpoint sort (l : list A) : list A :=
  match l with
  | [] => []
  | x :: l' => sort_insert x (sort l')
  end.
End JsSort.

(** ** Records *)

Module Profile.
Record t := mk { id : string; email : string; name : string }.
End Profile.

Module Message.
Record t := mk {
  id : string;
  fromUserId : string;
  toUserId : option string;
  groupId : option string;
  text : string;
  timestamp : Z
}.
End Message.

Module Group.
Record t := mk {
  id : string;
  name : string;
  memberIds : list string;
  createdBy : string;
  createdAt : Z
}.
End Group.

(** ** The key-value store *)

(** Modelled from the spec: [kv_store.tsx] ([kv.get], [kv.set], [kv.del],
    [kv.getByPrefix]) is not among the sources. The spec describes it as a
    flat string-keyed durable map with get, set, delete and prefix scan.
    The server writes under five key prefixes, no one a prefix of another,
    each holding one shape of record: [user:ID] a profile,
    [conversations:ID] an object [{userIds}], [user_groups:ID] an object
    [{groupIds}], [group:ID] a group and [message:ID] a message. The store
    is the product of these five keyspaces, each a finite map from the part
    of the key after the prefix; a prefix scan of a keyspace returns its
    values in the map's key order. *)
Record Store := mkStore {
  users : gmap string Profile.t;
  conversations : gmap string (list string);
  user_groups : gmap string (list string);
  groups : gmap string Group.t;
  messages : gmap string Message.t
}.

Definition empty_store : Store := mkStore ∅ ∅ ∅ ∅ ∅.

Definition with_users (f : gmap string Profile.t → gmap string Profile.t) (s : Store) :=
  mkStore (f (users s)) (conversations s) (user_groups s) (groups s) (messages s).
Definition with_conversations (f : gmap string (list string) → gmap string (list string)) (s : Store) :=
  mkStore (users s) (f (conversations s)) (user_groups s) (groups s) (messages s).
Definition with_user_groups (f : gmap string (list string) → gmap string (list string)) (s : Store) :=
  mkStore (users s) (conversations s) (f (user_groups s)) (groups s) (messages s).
Definition with_groups (f : gmap string Group.t → gmap string Group.t) (s : Store) :=
  mkStore (users s) (conversations s) (user_groups s) (f (groups s)) (messages s).
Definition with_messages (f : gmap string Message.t → gmap string Message.t) (s : Store) :=
  mkStore (users s) (conversations s) (user_groups s) (groups s) (f (messages s)).

(** Modelled from the spec: [kv.getByPrefix(p)], the prefix scan, gives the
    values stored under the keys of one keyspace. *)
Definition getByPrefix {V : Type} (m : gmap string V) : list V :=
  (map_to_list m).*2.

(** ** Requests and responses *)

(** The identity [supabase.auth.getUser] resolves a bearer token to. *)
Module AuthUser.
Record t := mk { id : string; email : string }.
End AuthUser.

(** [!user?.id] *)
Definition no_user_id (user : option AuthUser.t) : bool :=
  match user with
  | Some u => String.eqb (AuthUser.id u) ""
  | None => true
  end.

Module ConvEntry.
Inductive t :=
| dm (id name email latestMessage : string) (timestamp : Z)
| group (id name : string) (memberCount : nat) (latestMessage : string) (timestamp : Z).

Definition timestamp (e : t) : Z :=
  match e with
  | dm _ _ _ _ ts => ts
  | group _ _ _ _ ts => ts
  end.

(** The entry is the direct conversation with [userId]. *)
Definition is_dm_with (userId : string) (e : t) : bool :=
  match e with
  | dm id _ _ _ _ => bool_decide (id = userId)
  | group _ _ _ _ _ => false
  end.
End ConvEntry.

Inductive Body :=
| error_body (error : string)
| success_body (message : string)
| message_body (message : Message.t)
| group_body (group : Group.t)
| user_body (user : Profile.t)
| messages_body (messages : list Message.t)
| conversations_body (conversations : list ConvEntry.t).

Record Response := json { body : Body; status : Z }.

Definition internal_error : Response := json (error_body "Internal server error") 500.
Definition unauthorized : Response := json (error_body "Unauthorized") 401.

(** ** POST /send-message *)

Module SendBody.
Record t := mk { toUserId : option string; groupId : option string; text : option string }.
End SendBody.

(** [userGroupsData?.groupIds || []]: the groups in a user's group index. *)
Definition listGroups (s : Store) (userId : string) : list string :=
  default [] (user_groups s !! userId).

(** [convData?.userIds || []]: the peers in a user's conversation index. *)
Definition listPeers (s : Store) (userId : string) : list string :=
  default [] (conversations s !! userId).

(** The direct branch of the handler's index update: both entries are read
    first, then each is written if it lacks the other user. *)
Definition update_conversations (userId toUserId : string) (s : Store) : Store :=
  let senderConvKey := userId in
  let receiverConvKey := toUserId in
  let senderConv := default [] (conversations s !! senderConvKey) in
  let receiverConv := default [] (conversations s !! receiverConvKey) in
  let s :=
    if negb (includes senderConv toUserId)
    then with_conversations <[senderConvKey := push senderConv toUserId]> s
    else s in
  if negb (includes receiverConv userId)
  then with_conversations <[receiverConvKey := push receiverConv userId]> s
  else s.

(** The handler's arguments are the identity the token resolves to, the
    parsed JSON body ([None] when [c.req.json()] throws) and the value of
    [Date.now()]. *)
Definition send_message (user : option AuthUser.t) (req : option SendBody.t)
    (now : Z) (s : Store) : Store * Response :=
  match user with
  | Some u =>
    if no_user_id user then (s, unauthorized) else
    match req with
    | None => (s, internal_error)
    | Some r =>
      let toUserId := SendBody.toUserId r in
      let groupId := SendBody.groupId r in
      let text := SendBody.text r in
      if (negb (truthy toUserId) && negb (truthy groupId)) || negb (truthy text)
      then (s, json (error_body "Recipient/group and message text are required") 400)
      else
        let timestamp := now in
        let messageId :=
          AuthUser.id u +:+ ":" +:+ js_str (js_or groupId toUserId) +:+ ":" +:+ pretty timestamp in
        let message :=
          Message.mk messageId (AuthUser.id u) (js_or toUserId None) (js_or groupId None)
                     (js_str text) timestamp in
        let s := with_messages <[messageId := message]> s in
        let s :=
          if truthy groupId then s
          else update_conversations (AuthUser.id u) (js_str toUserId) s in
        (s, json (message_body message) 200)
    end
  | None => (s, unauthorized)
  end.

(** ** GET /messages/:targetId *)

(** The filter of the direct branch: [m] was sent from [a] to [b] or from
    [b] to [a]. *)
Definition between (a b : string) (m : Message.t) : bool :=
  (bool_decide (Message.fromUserId m = a) && bool_decide (Message.toUserId m = Some b))
  || (bool_decide (Message.fromUserId m = b) && bool_decide (Message.toUserId m = Some a)).

(** The filter of the group branch. *)
Definition in_group (g : string) (m : Message.t) : bool :=
  bool_decide (Message.groupId m = Some g).

Definition ascending (a b : Message.t) : Z := Message.timestamp a - Message.timestamp b.
Definition descending (a b : Message.t) : Z := Message.timestamp b - Message.timestamp a.

(** The two branches of the handler, as functions of the scanned messages. *)
Definition listForGroup (groupId : string) (allMessages : list Message.t) : list Message.t :=
  sort ascending (List.filter (in_group groupId) allMessages).

Definition listForDirect (userId targetId : string) (allMessages : list Message.t)
    : list Message.t :=
  sort ascending (List.filter (between userId targetId) allMessages).

Definition get_messages (user : option AuthUser.t) (targetId : string) (s : Store) : Response :=
  match user with
  | Some u =>
    if no_user_id user then unauthorized else
    let isGroup := startsWith targetId "group_" in
    let allMessages := getByPrefix (messages s) in
    let messages :=
      if isGroup
      then listForGroup targetId allMessages
      else listForDirect (AuthUser.id u) targetId allMessages in
    json (messages_body messages) 200
  | None => unauthorized
  end.

(** ** GET /conversations *)

(** [latestMessage?.text || ''] and [latestMessage?.timestamp || 0] for
    [latestMessage = l[0]]. *)
Definition latest_text (l : list Message.t) : string :=
  match l with
  | m :: _ => Message.text m
  | [] => ""
  end.

Definition latest_timestamp (l : list Message.t) : Z :=
  match l with
  | m :: _ => Message.timestamp m
  | [] => 0
  end.

Definition dm_entry (me : string) (s : Store) (userId : string) : option ConvEntry.t :=
  match users s !! userId with
  | Some userData =>
    let allMessages := getByPrefix (messages s) in
    let userMessages := sort descending (List.filter (between me userId) allMessages) in
    Some (ConvEntry.dm userId (Profile.name userData) (Profile.email userData)
            (latest_text userMessages) (latest_timestamp userMessages))
  | None => None
  end.

Definition group_entry (s : Store) (groupId : string) : option ConvEntry.t :=
  match groups s !! groupId with
  | Some groupData =>
    let allMessages := getByPrefix (messages s) in
    let groupMessages := sort descending (List.filter (in_group groupId) allMessages) in
    Some (ConvEntry.group groupId (Group.name groupData) (length (Group.memberIds groupData))
            (latest_text groupMessages) (latest_timestamp groupMessages))
  | None => None
  end.

Definition by_recency (a b : ConvEntry.t) : Z := ConvEntry.timestamp b - ConvEntry.timestamp a.

Definition get_conversations (user : option AuthUser.t) (s : Store) : Response :=
  match user with
  | Some u =>
    if no_user_id user then unauthorized else
    let userIds := default [] (conversations s !! AuthUser.id u) in
    let conversations := omap (dm_entry (AuthUser.id u) s) userIds in
    let groupIds := default [] (user_groups s !! AuthUser.id u) in
    let conversations := (conversations ++ omap (group_entry s) groupIds)%list in
    json (conversations_body (sort by_recency conversations)) 200
  | None => unauthorized
  end.

(** ** POST /create-group *)

Module CreateGroupBody.
(** [memberIds] is [None] when the field is missing, falsy or not an array. *)
Record t := mk { name : option string; memberIds : option (list string) }.
End CreateGroupBody.

(** [[user.id, ...memberIds.filter(id => id !== user.id)]] *)
Definition allMemberIds (creator : string) (memberIds : list string) : list string :=
  creator :: List.filter (λ id, negb (bool_decide (id = creator))) memberIds.

(** One turn of the loop that adds the group to a member's group list. *)
Definition add_member_group (groupId : string) (s : Store) (memberId : string) : Store :=
  let memberGroups := default [] (user_groups s !! memberId) in
  if negb (includes memberGroups groupId)
  then with_user_groups <[memberId := push memberGroups groupId]> s
  else s.

(** [now_id] and [now] are the two readings of [Date.now()], [rnd] is
    [Math.random().toString(36).substr(2, 9)]. *)
Definition create_group (user : option AuthUser.t) (req : option CreateGroupBody.t)
    (now_id : Z) (rnd : string) (now : Z) (s : Store) : Store * Response :=
  match user with
  | Some u =>
    if no_user_id user then (s, unauthorized) else
    match req with
    | None => (s, internal_error)
    | Some r =>
      match CreateGroupBody.memberIds r with
      | Some memberIds =>
        if negb (truthy (CreateGroupBody.name r))
        then (s, json (error_body "Group name and members are required") 400)
        else
          let groupId := "group_" +:+ pretty now_id +:+ "_" +:+ rnd in
          let timestamp := now in
          let allMemberIds := allMemberIds (AuthUser.id u) memberIds in
          let group :=
            Group.mk groupId (js_str (CreateGroupBody.name r)) allMemberIds (AuthUser.id u) timestamp in
          let s := with_groups <[groupId := group]> s in
          let s := foldl (add_member_group groupId) s allMemberIds in
          (s, json (group_body group) 200)
      | None => (s, json (error_body "Group name and members are required") 400)
      end
    end
  | None => (s, unauthorized)
  end.

(** ** Administrators *)

Definition lower_ascii (c : Ascii.ascii) : Ascii.ascii :=
  let n := Ascii.N_of_ascii c in
  if ((65 <=? n) && (n <=? 90))%N then Ascii.ascii_of_N (n + 32) else c.

(** [String.prototype.toLowerCase], on the letters A to Z. *)
Fixpoint toLowerCase (s : string) : string :=
  match s with
  | EmptyString => EmptyString
  | String c s' => String (lower_ascii c) (toLowerCase s')
  end.

Definition ADMIN_EMAILS : list string := ["lichengantv@gmail.com"].

Definition isAdmin (email : string) : bool := includes ADMIN_EMAILS (toLowerCase email).

Definition admin_only : Response := json (error_body "Unauthorized - Admin only") 403.

(** [!user?.id || !isAdmin(user.email || '')] *)
Definition not_admin (user : option AuthUser.t) : bool :=
  no_user_id user ||
  match user with
  | Some u => negb (isAdmin (AuthUser.email u))
  | None => true
  end.

(** ** The cascade of a user deletion *)

(** One turn of the loop that removes the user from the groups. *)
Definition remove_from_group (userId : string) (s : Store) (group : Group.t) : Store :=
  if includes (Group.memberIds group) userId
  then
    let group :=
      Group.mk (Group.id group) (Group.name group)
        (List.filter (λ id, negb (bool_decide (id = userId))) (Group.memberIds group))
        (Group.createdBy group) (Group.createdAt group) in
    with_groups <[Group.id group := group]> s
  else s.

(** One turn of the loop that deletes the messages from or to the user. *)
Definition delete_user_message (userId : string) (s : Store) (message : Message.t) : Store :=
  if bool_decide (Message.fromUserId message = userId)
     || bool_decide (Message.toUserId message = Some userId)
  then with_messages (delete (Message.id message)) s
  else s.

(** The writes both deletion handlers make once the identity provider has
    deleted the account. *)
Definition delete_user_data (userId : string) (s : Store) : Store :=
  let s := with_users (delete userId) s in
  let s := with_conversations (delete userId) s in
  let s := with_user_groups (delete userId) s in
  let allGroups := getByPrefix (groups s) in
  let s := foldl (remove_from_group userId) s allGroups in
  let allMessages := getByPrefix (messages s) in
  foldl (delete_user_message userId) s allMessages.

(** ** DELETE /admin/user/:userId *)

(** [deleteError] is the error of [supabase.auth.admin.deleteUser], [None]
    when the identity provider deleted the account. *)
Definition admin_delete_user (user : option AuthUser.t) (userIdToDelete : string)
    (deleteError : option string) (s : Store) : Store * Response :=
  match user with
  | Some u =>
    if not_admin user then (s, admin_only) else
    if bool_decide (userIdToDelete = AuthUser.id u)
    then (s, json (error_body "Cannot delete your own account") 400)
    else
      match users s !! userIdToDelete with
      | None => (s, json (error_body "User not found") 404)
      | Some userData =>
        if isAdmin (Profile.email userData)
        then (s, json (error_body "Cannot delete another admin account") 400)
        else
          match deleteError with
          | Some message => (s, json (error_body message) 400)
          | None =>
            (delete_user_data userIdToDelete s, json (success_body "User deleted successfully") 200)
          end
      end
  | None => (s, admin_only)
  end.

(** ** DELETE /user/account *)

(** [req] is the body's [password]; [signInError] tells whether
    [signInWithPassword] refused it. *)
Definition delete_account (user : option AuthUser.t) (req : option (option string))
    (signInError : bool) (deleteError : option string) (s : Store) : Store * Response :=
  match user with
  | Some u =>
    if no_user_id user then (s, unauthorized) else
    match req with
    | None => (s, internal_error)
    | Some password =>
      if negb (truthy password)
      then (s, json (error_body "Password is required to delete account") 400)
      else if signInError
      then (s, json (error_body "Password is incorrect") 400)
      else
        match deleteError with
        | Some message => (s, json (error_body message) 400)
        | None =>
          (delete_user_data (AuthUser.id u) s, json (success_body "Account deleted successfully") 200)
        end
    end
  | None => (s, unauthorized)
  end.

(** ** DELETE /admin/group/:groupId *)

(** One turn of the loop that removes the group from a member's group list. *)
Definition remove_member_group (groupId : string) (s : Store) (memberId : string) : Store :=
  match user_groups s !! memberId with
  | Some memberGroups =>
    with_user_groups
      <[memberId := List.filter (λ id, negb (bool_decide (id = groupId))) memberGroups]> s
  | None => s
  end.

(** One turn of the loop that deletes the group's messages. *)
Definition delete_group_message (groupId : string) (s : Store) (message : Message.t) : Store :=
  if in_group groupId message
  then with_messages (delete (Message.id message)) s
  else s.

Definition admin_delete_group (user : option AuthUser.t) (groupId : string)
    (s : Store) : Store * Response :=
  match user with
  | Some u =>
    if not_admin user then (s, admin_only) else
    match groups s !! groupId with
    | None => (s, json (error_body "Group not found") 404)
    | Some groupData =>
      let s := with_groups (delete groupId) s in
      let s := foldl (remove_member_group groupId) s (Group.memberIds groupData) in
      let allMessages := getByPrefix (messages s) in
      let s := foldl (delete_group_message groupId) s allMessages in
      (s, json (success_body "Group deleted successfully") 200)
    end
  | None => (s, admin_only)
  end.

(** ** POST /reset-password *)

Definition reset_sent : Response :=
  json (success_body "If an account exists, a password reset email has been sent") 200.

(** [req] is the body's [email]. [origin] is what reading
    [window.location.origin] gives, [None] when the runtime has no such
    global and the read throws, which the handler's [catch] answers.
    [resetError] is the error of [supabase.auth.resetPasswordForEmail],
    [None] when it reports none. Whether an account has the address reaches
    the handler through [resetError] only: the handler reads nothing else. *)
Definition reset_password (req : option (option string)) (origin : option string)
    (resetError : option string) : Response :=
  match req with
  | None => internal_error
  | Some email =>
    if negb (truthy email) then json (error_body "Email is required") 400
    else
      match origin with
      | None => internal_error
      | Some redirectTo =>
        match resetError with
        | Some _ => reset_sent
        | None => reset_sent
        end
      end
  end.

(** ** POST /signup *)

Module SignupBody.
Record t := mk { email : option string; password : option string; name : option string }.
End SignupBody.

(** [created] is the answer of [supabase.auth.admin.createUser]: an error
    message or the id of the new account. *)
Definition signup (req : option SignupBody.t) (created : string + string)
    (s : Store) : Store * Response :=
  match req with
  | None => (s, internal_error)
  | Some r =>
    if negb (truthy (SignupBody.email r)) || negb (truthy (SignupBody.password r))
       || negb (truthy (SignupBody.name r))
    then (s, json (error_body "Email, password, and name are required") 400)
    else
      match created with
      | inl message => (s, json (error_body message) 400)
      | inr id =>
        let user :=
          Profile.mk id (js_str (SignupBody.email r)) (js_str (SignupBody.name r)) in
        (with_users <[id := user]> s, json (user_body user) 200)
      end
  end.

(** The condition under which the user deletion deletes a message. *)
Definition from_or_to (userId : string) (m : Message.t) : bool :=
  bool_decide (Message.fromUserId m = userId)
  || bool_decide (Message.toUserId m = Some userId).

(** ** Stores and callers used as examples *)

Definition u1 : AuthUser.t := AuthUser.mk "u1" "u1@example.com".
Definition u2 : AuthUser.t := AuthUser.mk "u2" "u2@example.com".
Definition u3 : AuthUser.t := AuthUser.mk "u3" "u3@example.com".
Definition admin : AuthUser.t := AuthUser.mk "a0" "LichengAntv@gmail.com".

Definition signup_of (u : AuthUser.t) (name : string) (s : Store) : Store :=
  (signup (Some (SignupBody.mk (Some (AuthUser.email u)) (Some "secret") (Some name)))
          (inr (AuthUser.id u)) s).1.

(** The three users and the administrator have signed up. *)
Definition registered : Store :=
  signup_of admin "Root" (signup_of u3 "Cy" (signup_of u2 "Bo" (signup_of u1 "Al" empty_store))).

Definition team : option CreateGroupBody.t :=
  Some (CreateGroupBody.mk (Some "Team") (Some ["u2"; "u3"])).

Definition direct (to text : string) : option SendBody.t :=
  Some (SendBody.mk (Some to) None (Some text)).

Definition to_group (group text : string) : option SendBody.t :=
  Some (SendBody.mk None (Some group) (Some text)).

(** The store after u1 has created the group Team with u2 and u3, and
    direct and group messages have been sent. *)
Definition chatted : Store :=
  (send_message (Some u3) (direct "u2" "psst") 2004
  (send_message (Some u2) (to_group "group_1000_k3x9" "ok") 2003
  (send_message (Some u1) (to_group "group_1000_k3x9" "all") 2002
  (send_message (Some u2) (direct "u1" "yo") 2001
  (send_message (Some u1) (direct "u2" "hi") 2000
  (create_group (Some u1) team 1000 "k3x9" 1000 registered).1).1).1).1).1).1.

(** The same store after a second account with the administrator's address
    has signed up. *)
Definition two_admins : Store :=
  signup_of (AuthUser.mk "a1" "lichengantv@gmail.com") "Twin" chatted.

(** Ordered by a key, ascending. *)
Definition key_le {A} (key : A → Z) (a b : A) : Prop := key a ≤ key b.

(** ** Well-formed stores *)

(** What every store the handlers build satisfies: a message sits under the
    key made of its own id, a group under its own id, which starts with
    [group_], and the two index keyspaces hold lists without repetition. *)
Record wf_store (s : Store) : Prop := mk_wf {
  wf_message_key : ∀ k m, messages s !! k = Some m → Message.id m = k;
  wf_group_key : ∀ k g, groups s !! k = Some g →
    Group.id g = k ∧ startsWith k "group_" = true;
  wf_conversations : ∀ u l, conversations s !! u = Some l → NoDup l;
  wf_user_groups : ∀ u l, user_groups s !! u = Some l → NoDup l
}.

(** One request that may write to the store. The profile-name and password
    updates are left out: the first only replaces the name inside the
    caller's own user record, the second writes nothing. *)
Inductive step : Store → Store → Prop :=
| step_signup req created s :
    step s (signup req created s).1
| step_create_group user req now_id rnd now s :
    step s (create_group user req now_id rnd now s).1
| step_send_message user req now s :
    step s (send_message user req now s).1
| step_admin_delete_user user userId deleteError s :
    step s (admin_delete_user user userId deleteError s).1
| step_delete_account user req signInError deleteError s :
    step s (delete_account user req signInError deleteError s).1
| step_admin_delete_group user groupId s :
    step s (admin_delete_group user groupId s).1.

Definition reachable (s : Store) : Prop := rtc step empty_store s.

(** ** The read-side handlers *)

(** The answer of a handler whose success body is of type [A]:
    [c.json(payload)], or [c.json({ error }, status)]. *)
Inductive Reply (A : Type) :=
| replied (payload : A)
| refused (error : string) (status : Z).
Arguments replied {A} payload.
Arguments refused {A} error status.

(** *** GET /users *)

Definition get_users (user : option AuthUser.t) (s : Store) : Reply (list Profile.t) :=
  match user with
  | Some u =>
    if no_user_id user then refused "Unauthorized" 401 else
    let allUsers := getByPrefix (users s) in
    let users :=
      map (λ u', Profile.mk (Profile.id u') (Profile.email u') (Profile.name u'))
          (List.filter (λ u', negb (bool_decide (Profile.id u' = AuthUser.id u))) allUsers) in
    replied users
  | None => refused "Unauthorized" 401
  end.

(** *** GET /user/:userId *)

Definition get_user (user : option AuthUser.t) (userId : string) (s : Store) : Response :=
  match user with
  | Some u =>
    if no_user_id user then unauthorized else
    match users s !! userId with
    | None => json (error_body "User not found") 404
    | Some userData => json (user_body userData) 200
    end
  | None => unauthorized
  end.

(** *** GET /admin/check *)

Definition admin_check (user : option AuthUser.t) : Reply bool :=
  match user with
  | Some u =>
    if no_user_id user then refused "Unauthorized" 401
    else replied (isAdmin (AuthUser.email u))
  | None => refused "Unauthorized" 401
  end.

(** *** GET /admin/users *)

(** A user as [supabase.auth.admin.listUsers] reports it. *)
Module AuthRecord.
Record t := mk { id : string; created_at : option string; last_sign_in_at : option string }.
End AuthRecord.

Module UserRow.
Record t := mk {
  id : string;
  name : string;
  email : string;
  createdAt : option string;
  lastSignIn : option string;
  isAdmin : bool
}.
End UserRow.

(** [authUsers] is the provider's list, [None] when it gives no data. *)
Definition admin_users (user : option AuthUser.t) (authUsers : option (list AuthRecord.t))
    (s : Store) : Reply (list UserRow.t) :=
  if not_admin user then refused "Unauthorized - Admin only" 403 else
  let allUsers := getByPrefix (users s) in
  let usersWithDetails :=
    map (λ u,
      let authUser :=
        match authUsers with
        | Some l => List.find (λ au, bool_decide (AuthRecord.id au = Profile.id u)) l
        | None => None
        end in
      UserRow.mk (Profile.id u) (Profile.name u) (Profile.email u)
        (authUser ≫= AuthRecord.created_at) (authUser ≫= AuthRecord.last_sign_in_at)
        (isAdmin (Profile.email u))) allUsers in
  replied usersWithDetails.

(** *** GET /admin/stats *)

Module Stats.
Record t := mk {
  totalUsers : nat;
  totalMessages : nat;
  totalGroups : nat;
  directMessages : nat;
  groupMessages : nat
}.
End Stats.

Definition admin_stats (user : option AuthUser.t) (s : Store) : Reply Stats.t :=
  if not_admin user then refused "Unauthorized - Admin only" 403 else
  let allUsers := getByPrefix (users s) in
  let allMessages := getByPrefix (messages s) in
  let allGroups := getByPrefix (groups s) in
  replied (Stats.mk (length allUsers) (length allMessages) (length allGroups)
             (length (List.filter (λ m, truthy (Message.toUserId m)) allMessages))
             (length (List.filter (λ m, truthy (Message.groupId m)) allMessages))).

(** *** GET /admin/groups *)

Module GroupRow.
Record t := mk {
  id : string;
  name : string;
  memberCount : nat;
  createdBy : string;
  createdAt : Z;
  messageCount : nat
}.
End GroupRow.

(** [creatorData?.name || 'Unknown'] *)
Definition creator_name (s : Store) (createdBy : string) : string :=
  js_str (js_or (Profile.name <$> users s !! createdBy) (Some "Unknown")).

Definition group_row (s : Store) (group : Group.t) : GroupRow.t :=
  let allMessages := getByPrefix (messages s) in
  let groupMessages :=
    List.filter (λ m, bool_decide (Message.groupId m = Some (Group.id group))) allMessages in
  GroupRow.mk (Group.id group) (Group.name group) (length (Group.memberIds group))
    (creator_name s (Group.createdBy group)) (Group.createdAt group) (length groupMessages).

Definition admin_groups (user : option AuthUser.t) (s : Store) : Reply (list GroupRow.t) :=
  if not_admin user then refused "Unauthorized - Admin only" 403 else
  let allGroups := getByPrefix (groups s) in
  replied (map (group_row s) allGroups).

(** ** PUT /user/profile *)

(** [trim] stands for [String.prototype.trim]; [req] is the body's [name];
    [updateError] is the error of [supabase.auth.admin.updateUserById],
    [None] when it reports none. The success body carries the trimmed
    name. *)
Definition update_profile (trim : string → string) (user : option AuthUser.t)
    (req : option (option string)) (updateError : option string) (s : Store)
    : Store * Reply string :=
  match user with
  | Some u =>
    if no_user_id user then (s, refused "Unauthorized" 401) else
    match req with
    | None => (s, refused "Internal server error" 500)
    | Some name =>
      if negb (truthy name) || String.eqb (trim (js_str name)) ""
      then (s, refused "Name is required" 400)
      else
        match updateError with
        | Some message => (s, refused message 400)
        | None =>
          let s :=
            match users s !! AuthUser.id u with
            | Some userData =>
              with_users
                <[AuthUser.id u :=
                    Profile.mk (Profile.id userData) (Profile.email userData)
                               (trim (js_str name))]> s
            | None => s
            end in
          (s, replied (trim (js_str name)))
        end
    end
  | None => (s, refused "Unauthorized" 401)
  end.

(** ** More of what the stores the handlers build satisfy *)

(** Every stored message names a recipient or a group. *)
Definition targets_ok (s : Store) : Prop :=
  ∀ k m, messages s !! k = Some m →
    truthy (Message.toUserId m) = true ∨ truthy (Message.groupId m) = true.

(** Every member of a stored group has the group in their group index. *)
Definition members_indexed (s : Store) : Prop :=
  ∀ k g u, groups s !! k = Some g → u ∈ Group.memberIds g → k ∈ listGroups s u.

(** Ordered by a key, descending. *)
Definition key_ge {A} (key : A → Z) (a b : A) : Prop := key b ≤ key a.

(** The string has no colon (the character of code 58). *)
Fixpoint colon_free (s : string) : bool :=
  match s with
  | EmptyString => true
  | String c s' => negb (Ascii.eqb c (Ascii.ascii_of_N 58)) && colon_free s'
  end.

(** The group as the user deletion rewrites it: [userId] filtered out of
    [memberIds]. *)
Definition without_member (userId : string) (group : Group.t) : Group.t :=
  Group.mk (Group.id group) (Group.name group)
    (List.filter (λ id, negb (bool_decide (id = userId))) (Group.memberIds group))
    (Group.createdBy group) (Group.createdAt group).

(** An instance of [trim] for the examples: it strips the space character
    at both ends. *)
Fixpoint strip_spaces (s : string) : string :=
  match s with
  | String c s' => if Ascii.eqb c (Ascii.ascii_of_N 32) then strip_spaces s' else s
  | EmptyString => EmptyString
  end.

Definition trim_spaces (s : string) : string :=
  String.rev (strip_spaces (String.rev (strip_spaces s))).

(** ** PUT /user/password *)

(** A password is kept as the list of its UTF-16 code units, since the
    handler and the form measure its [length] and the strength meter tests
    it with regular expressions over code units. *)
Module PasswordBody.
Record t := mk { currentPassword : option (list N); newPassword : option (list N) }.
End PasswordBody.

(** [!x] for a password that may be absent. *)
Definition no_password (x : option (list N)) : bool :=
  match x with
  | Some (_ :: _) => false
  | _ => true
  end.

(** [signInError] tells whether [signInWithPassword] refused the current
    password, [updateError] is the error of [updateUserById]. The handler
    does not use the store. *)
Definition change_password (user : option AuthUser.t) (req : option PasswordBody.t)
    (signInError : bool) (updateError : option string) : Reply string :=
  match user with
  | Some u =>
    if no_user_id user then refused "Unauthorized" 401 else
    match req with
    | None => refused "Internal server error" 500
    | Some r =>
      if no_password (PasswordBody.currentPassword r) || no_password (PasswordBody.newPassword r)
      then refused "Current password and new password are required" 400
      else if (length (default [] (PasswordBody.newPassword r)) <? 6)%nat
      then refused "New password must be at least 6 characters" 400
      else if signInError then refused "Current password is incorrect" 400
      else
        match updateError with
        | Some message => refused message 400
        | None => replied "Password updated successfully"
        end
    end
  | None => refused "Unauthorized" 401
  end.

(** ** The account settings screen *)

Module Strength.
Record t := mk { strength : nat; label : string; color : string }.
End Strength.

(** [/[a-z]/], [/[A-Z]/] and [/\d/] on one code unit. *)
Definition is_lower (c : N) : bool := ((97 <=? c) && (c <=? 122))%N.
Definition is_upper (c : N) : bool := ((65 <=? c) && (c <=? 90))%N.
Definition is_digit (c : N) : bool := ((48 <=? c) && (c <=? 57))%N.

(** [passwordStrength] *)
Definition passwordStrength (password : list N) : Strength.t :=
  match password with
  | [] => Strength.mk 0 "" ""
  | _ =>
    let strength := 0%nat in
    let strength := if (6 <=? length password)%nat then S strength else strength in
    let strength := if (10 <=? length password)%nat then S strength else strength in
    let strength :=
      if existsb is_lower password && existsb is_upper password then S strength
      else strength in
    let strength := if existsb is_digit password then S strength else strength in
    let strength :=
      if existsb (λ c, negb (is_lower c || is_upper c || is_digit c)) password
      then S strength else strength in
    if (strength <=? 2)%nat then Strength.mk strength "Weak" "text-red-600"
    else if (strength <=? 3)%nat then Strength.mk strength "Fair" "text-yellow-600"
    else if (strength <=? 4)%nat then Strength.mk strength "Good" "text-blue-600"
    else Strength.mk strength "Strong" "text-green-600"
  end.

(** [handleChangePassword], up to the request: the message of the toast, or
    the body that is sent. *)
Definition handleChangePassword (currentPassword newPassword confirmPassword : list N)
    : string + PasswordBody.t :=
  if no_password (Some currentPassword) || no_password (Some newPassword)
     || no_password (Some confirmPassword)
  then inl "All password fields are required"
  else if negb (bool_decide (newPassword = confirmPassword))
  then inl "New passwords do not match"
  else if (length newPassword <? 6)%nat
  then inl "New password must be at least 6 characters"
  else if bool_decide (currentPassword = newPassword)
  then inl "New password must be different from current password"
  else inr (PasswordBody.mk (Some currentPassword) (Some newPassword)).

(** [handleDeleteAccount], up to the request: the message of the toast, or
    the body's [password]. *)
Definition handleDeleteAccount (deletePassword : string) : string + option string :=
  if negb (truthy (Some deletePassword)) then inl "Password is required to delete account"
  else inr (Some deletePassword).

(** ** The group dialog *)

(** [handleToggleUser]: the next selection. *)
Definition handleToggleUser (userId : string) (prev : list string) : list string :=
  if includes prev userId
  then List.filter (λ id, negb (bool_decide (id = userId))) prev
  else (prev ++ [userId])%list.

(** The selection after the users of [clicks] have been toggled in turn,
    from the empty selection the dialog opens with. *)
Definition selection_after (clicks : list string) : list string :=
  foldl (λ prev userId, handleToggleUser userId prev) [] clicks.

(** [handleCreateGroup], up to the request: the error shown, or the body
    that is sent. *)
Definition handleCreateGroup (groupName : string) (selectedUsers : list string)
    : string + CreateGroupBody.t :=
  if (length selectedUsers =? 0)%nat then inl "Please select at least one member"
  else inr (CreateGroupBody.mk (Some groupName) (Some selectedUsers)).

(** ** The chat window *)

Inductive ChatType := dm_chat | group_chat.

(** [sendMessage], up to the request: nothing when the text is empty once
    trimmed or a send is under way, else the body that is sent. *)
Definition sendMessage (trim : string → string) (chatType : ChatType) (targetId : string)
    (newMessage : string) (sending : bool) : option SendBody.t :=
  if String.eqb (trim newMessage) "" || sending then None
  else
    let messageText := newMessage in
    Some match chatType with
         | group_chat => SendBody.mk None (Some targetId) (Some messageText)
         | dm_chat => SendBody.mk (Some targetId) None (Some messageText)
         end.

(** ** The application's screens *)

Module App.
Inductive Screen := login | signup | forgotPassword | chatList | chatWindow | admin | settings.

Record AuthState := mkAuth {
  accessToken : option string;
  userId : option string;
  userName : option string;
  userEmail : option string;
  isAdmin : bool
}.

Record ChatState := mkChat {
  targetId : option string;
  targetName : option string;
  chatType : option ChatType
}.

Record State := mkState { screen : Screen; auth : AuthState; chat : ChatState }.

(** What [App] returns. *)
Inductive View :=
| LoginPage
| SignUpPage
| ForgotPassword
| AdminPanel
| AccountSettings
| ChatListAlone
| ChatListAndWindow
| Nothing.

Definition signed_out : AuthState := mkAuth None None None None false.
Definition no_chat : ChatState := mkChat None None None.
Definition initial : State := mkState login signed_out no_chat.

Definition render (st : State) : View :=
  let a := auth st in
  match screen st with
  | login => LoginPage
  | signup => SignUpPage
  | forgotPassword => ForgotPassword
  | admin => if truthy (accessToken a) && isAdmin a then AdminPanel else Nothing
  | settings =>
    if truthy (accessToken a) && truthy (userId a) && truthy (userName a)
       && truthy (userEmail a)
    then AccountSettings else Nothing
  | chatList =>
    if truthy (accessToken a) && truthy (userId a) && truthy (userName a)
    then ChatListAlone else Nothing
  | chatWindow =>
    if truthy (accessToken a) && truthy (userId a) && truthy (targetId (chat st))
       && truthy (targetName (chat st))
       && match chatType (chat st) with Some _ => true | None => false end
    then ChatListAndWindow else Nothing
  end.

(** [handleLogin], with the admin check's answer and the address of the
    session ([session?.user?.email]) as arguments. *)
Definition handleLogin (token id name : string) (isAdmin : bool)
    (sessionEmail : option string) (st : State) : State :=
  let userEmail := js_or sessionEmail (Some "") in
  mkState chatList (mkAuth (Some token) (Some id) (Some name) userEmail isAdmin) (chat st).

Definition handleSelectChat (id name : string) (type : ChatType) (st : State) : State :=
  mkState chatWindow (auth st) (mkChat (Some id) (Some name) (Some type)).

Definition handleBackToList (st : State) : State := mkState chatList (auth st) no_chat.

Definition handleOpenAdmin (st : State) : State := mkState admin (auth st) (chat st).

Definition handleOpenSettings (st : State) : State := mkState settings (auth st) (chat st).

Definition handleNameUpdate (newName : string) (st : State) : State :=
  let a := auth st in
  mkState (screen st)
          (mkAuth (accessToken a) (userId a) (Some newName) (userEmail a) (isAdmin a))
          (chat st).

Definition handleLogout (st : State) : State := mkState login signed_out (chat st).
End App.

(** [checkIsAdmin] of the application: [response] is the answer of
    GET /admin/check, [None] when the request throws. *)
Definition checkIsAdmin (response : option (Reply bool)) : bool :=
  match response with
  | Some (replied isAdmin) => isAdmin || false
  | _ => false
  end.

(** [handleUpdateProfile] of the settings screen, up to the request: the
    message of the toast, or the body's [name]. [userName] is the name the
    screen was opened with. *)
Definition handleUpdateProfile (trim : string → string) (name userName : string)
    : string + option string :=
  if negb (truthy (Some name)) || String.eqb (trim name) ""
  then inl "Name cannot be empty"
  else if String.eqb (trim name) userName then inl "Name is unchanged"
  else inr (Some (trim name)).

(** ** Facts about the JavaScript helpers *)

Lemma includes_true l x : includes l x = true ↔ x ∈ l.
Proof. unfold includes. by rewrite bool_decide_eq_true. Qed.

Lemma includes_false l x : includes l x = false ↔ x ∉ l.
Proof. unfold includes. by rewrite bool_decide_eq_false. Qed.

Lemma truthy_Some x : truthy x = true → ∃ v, x = Some v ∧ v ≠ "".
Proof.
  destruct x as [v|]; simpl; [|done].
  destruct (String.eqb_spec v ""); [done|]. eauto.
Qed.

Lemma truthy_Some_ne v : v ≠ "" → truthy (Some v) = true.
Proof. intros Hv. simpl. by destruct (String.eqb_spec v ""). Qed.

Lemma no_user_id_false u : AuthUser.id u ≠ "" → no_user_id (Some u) = false.
Proof. intros Hu. simpl. by destruct (String.eqb_spec (AuthUser.id u) ""). Qed.

Lemma push_NoDup l x : NoDup l → x ∉ l → NoDup (push l x).
Proof.
  intros Hl Hx. unfold push. apply NoDup_app. split_and!; [done| |apply NoDup_singleton].
  intros y Hy ->%list_elem_of_singleton. done.
Qed.

Lemma elem_of_filter_bool {A} (f : A → bool) (l : list A) x :
  x ∈ List.filter f l ↔ x ∈ l ∧ f x = true.
Proof. rewrite !list_elem_of_In. apply filter_In. Qed.

Lemma NoDup_filter_bool {A} (f : A → bool) (l : list A) :
  NoDup l → NoDup (List.filter f l).
Proof.
  induction 1 as [|x l Hx Hl IH]; simpl; [constructor|].
  destruct (f x); [|done]. constructor; [|done].
  rewrite elem_of_filter_bool. by intros [? _].
Qed.

Lemma filter_bool_idemp {A} (f : A → bool) (l : list A) :
  List.filter f (List.filter f l) = List.filter f l.
Proof.
  induction l as [|x l IH]; simpl; [done|].
  destruct (f x) eqn:Hx; simpl; [|done]. by rewrite Hx, IH.
Qed.

Lemma filter_bool_Permutation {A} (f : A → bool) (l1 l2 : list A) :
  l1 ≡ₚ l2 → List.filter f l1 ≡ₚ List.filter f l2.
Proof.
  induction 1 as [|x l1 l2 _ IH|x y l|l1 l2 l3 _ IH1 _ IH2]; simpl.
  - done.
  - destruct (f x); [by constructor|done].
  - destruct (f x), (f y); try done. apply perm_swap.
  - by etrans.
Qed.

(** *** The sort *)

Section SortFacts.
Context {A : Type} (cmp : A → A → Z).

Lemma sort_insert_Permutation x l : sort_insert cmp x l ≡ₚ x :: l.
Proof.
  induction l as [|y l IH]; simpl; [done|].
  case_match; [done|]. rewrite IH. apply perm_swap.
Qed.

Lemma sort_Permutation l : sort cmp l ≡ₚ l.
Proof.
  induction l as [|x l IH]; simpl; [done|].
  by rewrite sort_insert_Permutation, IH.
Qed.

Lemma elem_of_sort x l : x ∈ sort cmp l ↔ x ∈ l.
Proof. by rewrite sort_Permutation. Qed.

Lemma sort_nil_inv l : l = [] → sort cmp l = [].
Proof. by intros ->. Qed.

(** For a comparator that is the difference of a key, the result is
    ordered by that key. *)
Context (key : A → Z).

Lemma sort_insert_ascending x l :
  (∀ a b, cmp a b = key a - key b) →
  StronglySorted (key_le key) l → StronglySorted (key_le key) (sort_insert cmp x l).
Proof.
  intros Hcmp. induction 1 as [|y l Hl IH Hy]; simpl.
  { repeat constructor. }
  rewrite Hcmp. destruct (Z.leb_spec (key x - key y) 0) as [Hle|Hgt].
  - constructor; [by constructor|]. constructor; [unfold key_le; lia|].
    eapply Forall_impl; [exact Hy|]. unfold key_le. intros; lia.
  - constructor; [done|].
    rewrite sort_insert_Permutation. constructor; [unfold key_le; lia|done].
Qed.

Lemma sort_ascending l :
  (∀ a b, cmp a b = key a - key b) → StronglySorted (key_le key) (sort cmp l).
Proof.
  intros Hcmp. induction l as [|x l IH]; simpl; [constructor|].
  by apply sort_insert_ascending.
Qed.
End SortFacts.

(** *** The prefix scan *)

Lemma elem_of_getByPrefix {V} (m : gmap string V) v :
  v ∈ getByPrefix m ↔ ∃ k, m !! k = Some v.
Proof.
  unfold getByPrefix. rewrite list_elem_of_fmap. split.
  - intros [[k v'] [-> Hkv]]. exists k. by apply elem_of_map_to_list.
  - intros [k Hk]. exists (k, v). split; [done|]. by apply elem_of_map_to_list.
Qed.

Lemma getByPrefix_empty {V} : getByPrefix (∅ : gmap string V) = [].
Proof. unfold getByPrefix. by rewrite map_to_list_empty. Qed.

Lemma getByPrefix_singleton {V} k (v : V) : getByPrefix ({[k := v]} : gmap string V) = [v].
Proof. unfold getByPrefix. by rewrite map_to_list_singleton. Qed.

(** *** The conversation index *)

Lemma update_conversations_other a b s u :
  u ≠ a → u ≠ b → conversations (update_conversations a b s) !! u = conversations s !! u.
Proof.
  intros Ha Hb. unfold update_conversations.
  repeat case_match; simpl; by rewrite ?lookup_insert_ne.
Qed.

Lemma update_conversations_sender a b s :
  ∃ l, conversations (update_conversations a b s) !! a = Some l ∧ b ∈ l
       ∧ (NoDup (listPeers s a) → NoDup l).
Proof.
  unfold update_conversations, listPeers.
  destruct (includes (default [] (conversations s !! a)) b) eqn:Hab;
    destruct (includes (default [] (conversations s !! b)) a) eqn:Hba; simpl.
  - apply includes_true in Hab. destruct (conversations s !! a) as [l|] eqn:Hl; simpl in *.
    + eauto.
    + by apply elem_of_nil in Hab.
  - apply includes_true in Hab. apply includes_false in Hba.
    destruct (decide (b = a)) as [->|Hne]; [done|].
    rewrite lookup_insert_ne by done.
    destruct (conversations s !! a) as [l|] eqn:Hl; simpl in *.
    + eauto.
    + by apply elem_of_nil in Hab.
  - apply includes_false in Hab. rewrite lookup_insert_eq.
    eexists; split_and!; [done|unfold push; set_solver|].
    intros. by apply push_NoDup.
  - apply includes_false in Hab. apply includes_false in Hba.
    destruct (decide (b = a)) as [->|Hne].
    + rewrite lookup_insert_eq.
      eexists; split_and!; [done|unfold push; set_solver|]. intros. by apply push_NoDup.
    + rewrite lookup_insert_ne, lookup_insert_eq by done.
      eexists; split_and!; [done|unfold push; set_solver|]. intros. by apply push_NoDup.
Qed.

Lemma update_conversations_receiver a b s :
  ∃ l, conversations (update_conversations a b s) !! b = Some l ∧ a ∈ l
       ∧ (NoDup (listPeers s b) → NoDup l).
Proof.
  unfold update_conversations, listPeers.
  destruct (includes (default [] (conversations s !! b)) a) eqn:Hba; simpl.
  - apply includes_true in Hba.
    destruct (includes (default [] (conversations s !! a)) b) eqn:Hab; simpl.
    + destruct (conversations s !! b) as [l|] eqn:Hl; simpl in *; [eauto|].
      by apply elem_of_nil in Hba.
    + apply includes_false in Hab.
      destruct (decide (a = b)) as [->|Hne]; [done|].
      rewrite lookup_insert_ne by done.
      destruct (conversations s !! b) as [l|] eqn:Hl; simpl in *; [eauto|].
      by apply elem_of_nil in Hba.
  - apply includes_false in Hba. rewrite lookup_insert_eq.
    eexists; split_and!; [done|unfold push; set_solver|]. intros. by apply push_NoDup.
Qed.

Lemma listPeers_insert k l s u :
  listPeers (with_conversations <[k := l]> s) u = if decide (k = u) then l else listPeers s u.
Proof.
  unfold listPeers. cbn [conversations with_conversations]. rewrite lookup_insert.
  by case_decide.
Qed.

(** Each of the two entries gets the other user appended if it lacks it,
    and is as before if it has it, also when the two users are one. *)
Lemma update_conversations_peers a b s :
  listPeers (update_conversations a b s) a
  = (if includes (listPeers s a) b then listPeers s a else push (listPeers s a) b)
  ∧ listPeers (update_conversations a b s) b
    = (if includes (listPeers s b) a then listPeers s b else push (listPeers s b) a).
Proof.
  unfold update_conversations. fold (listPeers s a). fold (listPeers s b).
  destruct (includes (listPeers s a) b) eqn:Hab; cbn [negb];
    destruct (includes (listPeers s b) a) eqn:Hba; cbn [negb];
    rewrite ?listPeers_insert; repeat case_decide; subst; try done; congruence.
Qed.

Lemma update_conversations_id a b s :
  b ∈ listPeers s a → a ∈ listPeers s b → update_conversations a b s = s.
Proof.
  unfold update_conversations, listPeers. intros Hab%includes_true Hba%includes_true.
  by rewrite Hab, Hba.
Qed.

Lemma update_conversations_frame a b s :
  users (update_conversations a b s) = users s
  ∧ user_groups (update_conversations a b s) = user_groups s
  ∧ groups (update_conversations a b s) = groups s
  ∧ messages (update_conversations a b s) = messages s.
Proof. unfold update_conversations. by repeat case_match. Qed.

(** *** What a direct send does *)

Lemma send_message_direct s a B g txt now :
  AuthUser.id a ≠ "" → B ≠ "" → truthy g = false → truthy txt = true →
  ∃ m, send_message (Some a) (Some (SendBody.mk (Some B) g txt)) now s
       = (update_conversations (AuthUser.id a) B
            (with_messages <[Message.id m := m]> s), json (message_body m) 200)
       ∧ Message.fromUserId m = AuthUser.id a ∧ Message.toUserId m = Some B
       ∧ Message.groupId m = None ∧ Some (Message.text m) = txt
       ∧ Message.timestamp m = now
       ∧ Message.id m = AuthUser.id a +:+ ":" +:+ B +:+ ":" +:+ pretty now.
Proof.
  intros Ha HB Hg Htxt. unfold send_message.
  rewrite (no_user_id_false a Ha). simpl SendBody.toUserId. simpl SendBody.groupId.
  simpl SendBody.text. rewrite Hg, Htxt, (truthy_Some_ne B HB). simpl negb. simpl orb.
  cbv iota. unfold js_or. rewrite Hg, (truthy_Some_ne B HB). simpl js_str.
  exists (Message.mk (AuthUser.id a +:+ ":" +:+ B +:+ ":" +:+ pretty now) (AuthUser.id a)
            (Some B) None (js_str txt) now).
  split; [reflexivity|]. simpl.
  destruct (truthy_Some _ Htxt) as (v & -> & _). done.
Qed.

(** ** The conversation index is symmetric *)

(** C1. After a direct message from A to B is sent with success, B is in A's
    conversation index entry and A is in B's; each of the two entries is as
    before if it had the other user and has it appended otherwise, so an
    entry that had no repetition has none afterwards; and a further direct
    send between the two, in either direction, leaves the whole index as it
    is. *)
Theorem C1_direct_send_index_symmetric (s : Store) (a b : AuthUser.t)
    (g txt : option string) (now : Z) :
  AuthUser.id a ≠ "" → AuthUser.id b ≠ "" → truthy g = false → truthy txt = true →
  let A := AuthUser.id a in
  let B := AuthUser.id b in
  let r := send_message (Some a) (Some (SendBody.mk (Some B) g txt)) now s in
  status r.2 = 200
  ∧ B ∈ listPeers r.1 A ∧ A ∈ listPeers r.1 B
  ∧ listPeers r.1 A
    = (if includes (listPeers s A) B then listPeers s A else push (listPeers s A) B)
  ∧ listPeers r.1 B
    = (if includes (listPeers s B) A then listPeers s B else push (listPeers s B) A)
  ∧ (NoDup (listPeers s A) → NoDup (listPeers r.1 A))
  ∧ (NoDup (listPeers s B) → NoDup (listPeers r.1 B))
  ∧ (∀ g' txt' now', truthy g' = false → truthy txt' = true →
       conversations (send_message (Some a) (Some (SendBody.mk (Some B) g' txt')) now' r.1).1
       = conversations r.1)
  ∧ (∀ g' txt' now', truthy g' = false → truthy txt' = true →
       conversations (send_message (Some b) (Some (SendBody.mk (Some A) g' txt')) now' r.1).1
       = conversations r.1).
Proof.
  intros Ha Hb Hg Htxt. cbv zeta.
  destruct (send_message_direct s a (AuthUser.id b) g txt now Ha Hb Hg Htxt) as (m & Hr & _).
  rewrite Hr. cbn [fst snd status].
  set (s0 := with_messages <[Message.id m := m]> s).
  destruct (update_conversations_sender (AuthUser.id a) (AuthUser.id b) s0)
    as (lA & HlA & HBA & HndA).
  destruct (update_conversations_receiver (AuthUser.id a) (AuthUser.id b) s0)
    as (lB & HlB & HAB & HndB).
  destruct (update_conversations_peers (AuthUser.id a) (AuthUser.id b) s0) as [HeqA HeqB].
  assert (HpA : listPeers (update_conversations (AuthUser.id a) (AuthUser.id b) s0)
                  (AuthUser.id a) = lA)
    by (unfold listPeers; by rewrite HlA).
  assert (HpB : listPeers (update_conversations (AuthUser.id a) (AuthUser.id b) s0)
                  (AuthUser.id b) = lB)
    by (unfold listPeers; by rewrite HlB).
  rewrite HpA, HpB in *. split_and!; try done.
  - intros g' txt' now' Hg' Htxt'.
    destruct (send_message_direct (update_conversations (AuthUser.id a) (AuthUser.id b) s0)
                a (AuthUser.id b) g' txt' now' Ha Hb Hg' Htxt') as (m' & -> & _).
    cbn [fst]. rewrite update_conversations_id; [done| |].
    + unfold listPeers. cbn [conversations with_messages]. by rewrite HlA.
    + unfold listPeers. cbn [conversations with_messages]. by rewrite HlB.
  - intros g' txt' now' Hg' Htxt'.
    destruct (send_message_direct (update_conversations (AuthUser.id a) (AuthUser.id b) s0)
                b (AuthUser.id a) g' txt' now' Hb Ha Hg' Htxt') as (m' & -> & _).
    cbn [fst]. rewrite update_conversations_id; [done| |].
    + unfold listPeers. cbn [conversations with_messages]. by rewrite HlB.
    + unfold listPeers. cbn [conversations with_messages]. by rewrite HlA.
Qed.

Lemma C1_direct_send_index_symmetric_witness :
  let r := send_message (Some u1) (Some (SendBody.mk (Some "u2") None (Some "hi"))) 1000 registered in
  status r.2 = 200
  ∧ "u2" ∈ listPeers r.1 "u1" ∧ "u1" ∈ listPeers r.1 "u2"
  ∧ listPeers r.1 "u1" = ["u2"] ∧ listPeers r.1 "u2" = ["u1"].
Proof.
  pose proof (C1_direct_send_index_symmetric registered u1 u2 None (Some "hi") 1000) as H.
  simpl in H. specialize (H ltac:(done) ltac:(done) eq_refl eq_refl).
  destruct H as (H1 & H2 & H3 & _).
  split; [exact H1|]. split; [exact H2|]. split; [exact H3|].
  split; vm_compute; reflexivity.
Defined.

(** *** Loops over the store *)

(** A loop whose turns leave a part of the store alone leaves it alone. *)
Lemma foldl_frame {X B} (f : Store → X → Store) (proj : Store → B) :
  (∀ s x, proj (f s x) = proj s) → ∀ l s, proj (foldl f s l) = proj s.
Proof.
  intros Hf l. induction l as [|x l IH]; intros s; simpl; [done|].
  by rewrite IH, Hf.
Qed.

(** A loop whose turns keep a property of the store, for the items it is
    run on, keeps it. *)
Lemma foldl_invariant {X} (f : Store → X → Store) (I : Store → Prop) (Q : X → Prop) :
  (∀ s x, Q x → I s → I (f s x)) → ∀ l s, Forall Q l → I s → I (foldl f s l).
Proof.
  intros Hf l. induction l as [|x l IH]; intros s Hl Hs; simpl; [done|].
  inversion Hl; subst. apply IH; [done|]. by apply Hf.
Qed.

Lemma add_member_group_frame groupId s memberId :
  users (add_member_group groupId s memberId) = users s
  ∧ conversations (add_member_group groupId s memberId) = conversations s
  ∧ groups (add_member_group groupId s memberId) = groups s
  ∧ messages (add_member_group groupId s memberId) = messages s.
Proof. unfold add_member_group. by case_match. Qed.

(** *** What a group creation does *)

Lemma allMemberIds_creator_once (creator : string) (memberIds : list string) :
  creator ∉ List.filter (λ id, negb (bool_decide (id = creator))) memberIds.
Proof.
  rewrite elem_of_filter_bool. intros [_ H].
  by rewrite bool_decide_eq_true_2 in H.
Qed.

Lemma create_group_ok s u name M now_id rnd now :
  AuthUser.id u ≠ "" → truthy name = true →
  let g := Group.mk ("group_" +:+ pretty now_id +:+ "_" +:+ rnd) (js_str name)
             (allMemberIds (AuthUser.id u) M) (AuthUser.id u) now in
  create_group (Some u) (Some (CreateGroupBody.mk name (Some M))) now_id rnd now s
  = (foldl (add_member_group (Group.id g)) (with_groups <[Group.id g := g]> s)
       (Group.memberIds g),
     json (group_body g) 200).
Proof.
  intros Hu Hname. unfold create_group. rewrite (no_user_id_false u Hu).
  cbn [CreateGroupBody.memberIds CreateGroupBody.name]. by rewrite Hname.
Qed.

(** ** Group creation *)

(** C3, as the code has it. The group stored by create-group for creator C
    and request list M has as members C followed by M without every
    occurrence of C, so C is first and occurs once; the other ids are kept
    as the request has them, so the list is free of repetition exactly when
    M without C is. *)
Theorem C3_created_group_members (s : Store) (u : AuthUser.t) (name : option string)
    (M : list string) (now_id : Z) (rnd : string) (now : Z) :
  AuthUser.id u ≠ "" → truthy name = true →
  let C := AuthUser.id u in
  let r := create_group (Some u) (Some (CreateGroupBody.mk name (Some M))) now_id rnd now s in
  ∃ g, r.2 = json (group_body g) 200
       ∧ groups r.1 !! Group.id g = Some g
       ∧ Group.createdBy g = C
       ∧ Group.memberIds g = C :: List.filter (λ id, negb (bool_decide (id = C))) M
       ∧ head (Group.memberIds g) = Some C
       ∧ (C ∉ tail (Group.memberIds g))
       ∧ (∀ x, x ∈ Group.memberIds g ↔ x = C ∨ x ∈ M)
       ∧ (NoDup (Group.memberIds g)
          ↔ NoDup (List.filter (λ id, negb (bool_decide (id = C))) M))
       ∧ (NoDup M → NoDup (Group.memberIds g)).
Proof.
  intros Hu Hname. cbv zeta. rewrite (create_group_ok s u name M now_id rnd now Hu Hname).
  cbv zeta. eexists. cbn [fst snd]. split; [reflexivity|].
  cbn [Group.id Group.memberIds Group.createdBy]. unfold allMemberIds. cbn [head tail].
  split_and!; try done.
  - rewrite (foldl_frame _ groups); [|intros; apply add_member_group_frame].
    cbn [groups with_groups]. by rewrite lookup_insert_eq.
  - apply allMemberIds_creator_once.
  - intros x. rewrite elem_of_cons, elem_of_filter_bool.
    destruct (decide (x = AuthUser.id u)) as [->|Hne]; [split; intros _; by left|].
    rewrite bool_decide_eq_false_2 by done. cbn [negb]. tauto.
  - rewrite NoDup_cons. pose proof (allMemberIds_creator_once (AuthUser.id u) M). tauto.
  - intros HM. apply NoDup_cons. split; [apply allMemberIds_creator_once|].
    by apply NoDup_filter_bool.
Qed.

Lemma C3_created_group_members_witness :
  let r := create_group (Some u1) (Some (CreateGroupBody.mk (Some "Team") (Some ["u2"; "u3"])))
             1000 "k3x9" 1001 registered in
  ∃ g, r.2 = json (group_body g) 200
       ∧ groups r.1 !! Group.id g = Some g
       ∧ Group.memberIds g = ["u1"; "u2"; "u3"].
Proof.
  destruct (C3_created_group_members registered u1 (Some "Team") ["u2"; "u3"] 1000 "k3x9" 1001)
    as (g & H1 & H2 & _ & H3 & _); [done|reflexivity|].
  exists g. split; [exact H1|]. split; [exact H2|]. exact H3.
Defined.

(** C3, as the spec has it, fails: a request list with a repeated id gives a
    member list with that id repeated. *)
Lemma C3_counterexample :
  let r := create_group (Some u1) (Some (CreateGroupBody.mk (Some "Team") (Some ["u2"; "u2"])))
             1000 "k3x9" 1001 registered in
  ∃ g, groups r.1 !! "group_1000_k3x9" = Some g
       ∧ Group.memberIds g = ["u1"; "u2"; "u2"]
       ∧ ¬ NoDup (Group.memberIds g).
Proof.
  eexists. split; [vm_compute; reflexivity|]. cbn [Group.memberIds].
  split; [reflexivity|].
  rewrite !NoDup_cons. intros (_ & H & _). apply H. by left.
Qed.

(** *** Entries of the conversation list *)

Lemma filter_dm_entries me s u l :
  NoDup l → u ∈ l →
  List.filter (ConvEntry.is_dm_with u) (omap (dm_entry me s) l)
  = match dm_entry me s u with Some e => [e] | None => [] end.
Proof.
  assert (Hother : ∀ l', u ∉ l' →
    List.filter (ConvEntry.is_dm_with u) (omap (dm_entry me s) l') = []).
  { induction l' as [|x l' IH]; intros Hu; [done|].
    apply not_elem_of_cons in Hu as [Hx Hu]. simpl.
    unfold dm_entry at 1. destruct (users s !! x); simpl; [|by apply IH].
    rewrite bool_decide_eq_false_2 by done. by apply IH. }
  induction 1 as [|x l Hx Hl IH]; intros Hu; [by apply elem_of_nil in Hu|].
  apply elem_of_cons in Hu as [->|Hu].
  - simpl. destruct (dm_entry me s x) as [e|] eqn:He; [|by apply Hother].
    simpl. unfold dm_entry in He. destruct (users s !! x); [|done].
    injection He as <-. simpl. rewrite bool_decide_eq_true_2 by done.
    by rewrite Hother.
  - assert (x ≠ u) by (intros ->; done). simpl.
    unfold dm_entry at 1. destruct (users s !! x); simpl; [|by apply IH].
    rewrite bool_decide_eq_false_2 by done. by apply IH.
Qed.

Lemma filter_group_entries s u l :
  List.filter (ConvEntry.is_dm_with u) (omap (group_entry s) l) = [].
Proof.
  induction l as [|x l IH]; [done|]. simpl.
  unfold group_entry at 1. by destruct (groups s !! x).
Qed.

(** ** The first direct message *)

(** C4. User u1, sending [{toUserId: "u2", text: "hi"}] at time 1000 into a
    store without messages, in which u2 is a registered user and u1's
    conversation index entry has no repetition, stores the message with id
    [u1:u2:1000], sender u1, recipient u2, no group and timestamp 1000; the
    messages u1 then lists for u2 are that one message, and u1's
    conversation list has one direct entry for u2, which shows "hi". *)
Theorem C4_first_direct_message (s : Store) (email : string) (p : Profile.t) :
  messages s = ∅ → users s !! "u2" = Some p → NoDup (listPeers s "u1") →
  let caller := AuthUser.mk "u1" email in
  let m := Message.mk "u1:u2:1000" "u1" (Some "u2") None "hi" 1000 in
  let r := send_message (Some caller) (Some (SendBody.mk (Some "u2") None (Some "hi"))) 1000 s in
  r.2 = json (message_body m) 200
  ∧ messages r.1 = {[ "u1:u2:1000" := m ]}
  ∧ get_messages (Some caller) "u2" r.1 = json (messages_body [m]) 200
  ∧ ∃ l, get_conversations (Some caller) r.1 = json (conversations_body l) 200
         ∧ List.filter (ConvEntry.is_dm_with "u2") l
           = [ConvEntry.dm "u2" (Profile.name p) (Profile.email p) "hi" 1000].
Proof.
  intros Hempty Hp Hnd. cbv zeta.
  set (caller := AuthUser.mk "u1" email).
  set (m := Message.mk "u1:u2:1000" "u1" (Some "u2") None "hi" 1000).
  assert (Hr : send_message (Some caller) (Some (SendBody.mk (Some "u2") None (Some "hi"))) 1000 s
               = (update_conversations "u1" "u2" (with_messages <["u1:u2:1000" := m]> s),
                  json (message_body m) 200)) by reflexivity.
  rewrite Hr. cbn [fst snd]. clear Hr.
  set (s0 := with_messages <["u1:u2:1000" := m]> s).
  set (s' := update_conversations "u1" "u2" s0).
  destruct (update_conversations_frame "u1" "u2" s0) as (Hus & Hug & Hgr & Hms).
  fold s' in Hus, Hug, Hgr, Hms.
  assert (Hmsgs : messages s' = {[ "u1:u2:1000" := m ]}).
  { rewrite Hms. subst s0. cbn [messages with_messages]. by rewrite Hempty, insert_empty. }
  assert (Hall : getByPrefix (messages s') = [m]).
  { rewrite Hmsgs. apply getByPrefix_singleton. }
  split_and!; [done|done| |].
  - unfold get_messages. cbn [no_user_id caller AuthUser.id]. rewrite Hall. reflexivity.
  - destruct (update_conversations_sender "u1" "u2" s0) as (lA & HlA & Hin & HndA).
    fold s' in HlA.
    assert (NoDup lA) as HndlA.
    { apply HndA. unfold listPeers. subst s0. cbn [conversations with_messages]. exact Hnd. }
    exists (sort by_recency
              (omap (dm_entry "u1" s') lA
               ++ omap (group_entry s') (default [] (user_groups s' !! "u1")))%list).
    split.
    { unfold get_conversations. cbn [no_user_id caller AuthUser.id].
      change (String.eqb "u1" "") with false. cbv iota. by rewrite HlA. }
    apply Permutation_singleton_r.
    rewrite (filter_bool_Permutation _ _ _ (sort_Permutation by_recency _)).
    rewrite List.filter_app, filter_group_entries, app_nil_r.
    rewrite (filter_dm_entries "u1" s' "u2" lA HndlA Hin).
    unfold dm_entry. rewrite Hus. subst s0. cbn [users with_messages]. rewrite Hp.
    rewrite Hall. reflexivity.
Qed.

Lemma C4_first_direct_message_witness :
  let m := Message.mk "u1:u2:1000" "u1" (Some "u2") None "hi" 1000 in
  let r := send_message (Some u1) (direct "u2" "hi") 1000 registered in
  r.2 = json (message_body m) 200
  ∧ messages r.1 = {[ "u1:u2:1000" := m ]}
  ∧ get_messages (Some u1) "u2" r.1 = json (messages_body [m]) 200
  ∧ get_conversations (Some u1) r.1
    = json (conversations_body [ConvEntry.dm "u2" "Bo" "u2@example.com" "hi" 1000]) 200.
Proof.
  destruct (C4_first_direct_message registered "u1@example.com"
              (Profile.mk "u2" "u2@example.com" "Bo"))
    as (H1 & H2 & H3 & _);
    [vm_compute; reflexivity|vm_compute; reflexivity|vm_compute; constructor|].
  split; [exact H1|]. split; [exact H2|]. split; [exact H3|].
  vm_compute. reflexivity.
Defined.

(** *** Loops that delete messages *)

Section DeleteLoop.
Context (P : Message.t → bool) (f : Store → Message.t → Store).
Context (Hf : ∀ s m, f s m = if P m then with_messages (delete (Message.id m)) s else s).

Lemma delete_loop_frame l s :
  users (foldl f s l) = users s ∧ conversations (foldl f s l) = conversations s
  ∧ user_groups (foldl f s l) = user_groups s ∧ groups (foldl f s l) = groups s.
Proof.
  split_and!; apply foldl_frame; intros s0 m; rewrite Hf; by destruct (P m).
Qed.

Lemma delete_loop_lookup l s k :
  messages (foldl f s l) !! k
  = if existsb (λ m, P m && bool_decide (Message.id m = k)) l then None
    else messages s !! k.
Proof.
  revert s. induction l as [|m l IH]; intros s; simpl; [done|].
  rewrite IH, Hf. destruct (P m) eqn:HP; simpl; [|done].
  destruct (existsb _ l); [by rewrite orb_true_r|]. rewrite orb_false_r.
  case_bool_decide as Hk.
  - subst k. apply lookup_delete_eq.
  - by apply lookup_delete_ne.
Qed.

(** Run on the scan of a store whose messages sit under their ids, the loop
    deletes the messages [P] selects and no other. *)
Lemma delete_loop_scan s0 s :
  (∀ k m, messages s0 !! k = Some m → Message.id m = k) →
  messages s = messages s0 →
  messages (foldl f s (getByPrefix (messages s0)))
  = filter (λ kv, P kv.2 = false) (messages s0).
Proof.
  intros Hwf Hs. apply map_eq. intros k. rewrite delete_loop_lookup, Hs.
  destruct (existsb _ _) eqn:Hex.
  - apply existsb_exists in Hex as (m & Hm & HPm).
    apply andb_true_iff in HPm as [HPm Hk]. apply bool_decide_eq_true in Hk.
    apply list_elem_of_In, elem_of_getByPrefix in Hm as [k' Hk'].
    pose proof (Hwf _ _ Hk') as Hid. subst k. rewrite Hid in *. symmetry.
    apply map_lookup_filter_None. right. intros m' Hm'. simpl.
    rewrite Hk' in Hm'. injection Hm' as <-. by rewrite HPm.
  - destruct (messages s0 !! k) as [m|] eqn:Hm; symmetry.
    + apply map_lookup_filter_Some. split; [done|]. simpl.
      destruct (P m) eqn:HPm; [|done].
      assert (existsb (λ m, P m && bool_decide (Message.id m = k))
                (getByPrefix (messages s0)) = true) as Hex'; [|congruence].
      apply existsb_exists. exists m. split.
      * apply list_elem_of_In, elem_of_getByPrefix. eauto.
      * rewrite HPm. simpl. apply bool_decide_eq_true. eauto.
    + apply map_lookup_filter_None. by left.
Qed.
End DeleteLoop.

Lemma remove_from_group_frame userId s group :
  users (remove_from_group userId s group) = users s
  ∧ conversations (remove_from_group userId s group) = conversations s
  ∧ user_groups (remove_from_group userId s group) = user_groups s
  ∧ messages (remove_from_group userId s group) = messages s.
Proof. unfold remove_from_group. by case_match. Qed.

(** *** What a user deletion does to the messages *)

Lemma delete_user_data_messages userId s :
  (∀ k m, messages s !! k = Some m → Message.id m = k) →
  messages (delete_user_data userId s)
  = filter (λ kv, from_or_to userId kv.2 = false) (messages s).
Proof.
  intros Hwf. unfold delete_user_data.
  set (s1 := with_user_groups _ _).
  set (s2 := foldl (remove_from_group userId) s1 _).
  assert (Hm : messages s2 = messages s).
  { subst s2. rewrite (foldl_frame _ messages); [done|].
    intros; apply remove_from_group_frame. }
  rewrite Hm.
  apply (delete_loop_scan (from_or_to userId) (delete_user_message userId)); done.
Qed.

(** ** User deletion and the messages *)

(** C2, as the code has it. A user deletion that succeeds, by an
    administrator or by the user, deletes every message whose sender or
    direct recipient is that user, the user's group messages included, and
    leaves every other message as it is. *)
Theorem C2_user_deletion_messages (s : Store) (userId : string) :
  wf_store s →
  (∀ user deleteError r,
     admin_delete_user user userId deleteError s = r → status r.2 = 200 →
     r.1 = delete_user_data userId s)
  ∧ (∀ u req signInError deleteError r,
       delete_account (Some u) req signInError deleteError s = r → status r.2 = 200 →
       AuthUser.id u = userId → r.1 = delete_user_data userId s)
  ∧ messages (delete_user_data userId s)
    = filter (λ kv, from_or_to userId kv.2 = false) (messages s)
  ∧ (∀ k m, messages s !! k = Some m →
       Message.fromUserId m = userId ∨ Message.toUserId m = Some userId →
       messages (delete_user_data userId s) !! k = None)
  ∧ (∀ k m, messages s !! k = Some m →
       Message.fromUserId m ≠ userId → Message.toUserId m ≠ Some userId →
       messages (delete_user_data userId s) !! k = Some m).
Proof.
  intros Hwf. split_and!.
  - intros user deleteError r <-. unfold admin_delete_user.
    repeat case_match; cbn [fst snd status]; done.
  - intros u req signInError deleteError r <-. unfold delete_account.
    repeat case_match; cbn [fst snd status]; try done. by intros _ ->.
  - apply delete_user_data_messages, Hwf.
  - intros k m Hm Hor. rewrite delete_user_data_messages by apply Hwf.
    apply map_lookup_filter_None. right. intros m' Hm'. simpl.
    rewrite Hm in Hm'. injection Hm' as <-. unfold from_or_to.
    destruct Hor as [H|H].
    + by rewrite (bool_decide_eq_true_2 _ H).
    + by rewrite (bool_decide_eq_true_2 _ H), orb_true_r.
  - intros k m Hm Hfrom Hto. rewrite delete_user_data_messages by apply Hwf.
    apply map_lookup_filter_Some. split; [done|]. simpl. unfold from_or_to.
    by rewrite (bool_decide_eq_false_2 _ Hfrom), (bool_decide_eq_false_2 _ Hto).
Qed.

(** *** Every handler keeps the store well formed *)

Lemma wf_empty : wf_store empty_store.
Proof. constructor; intros ? ?; cbn; by rewrite lookup_empty. Qed.

Lemma wf_with_users f s : wf_store s → wf_store (with_users f s).
Proof. intros []. by constructor. Qed.

Lemma wf_messages_insert k m s :
  Message.id m = k → wf_store s → wf_store (with_messages <[k := m]> s).
Proof.
  intros Hk []. constructor; try done. cbn. intros k' m'.
  rewrite lookup_insert_Some. intros [[<- <-]|[_ H]]; eauto.
Qed.

Lemma wf_messages_delete k s : wf_store s → wf_store (with_messages (delete k) s).
Proof.
  intros []. constructor; try done. cbn. intros k' m'.
  rewrite lookup_delete_Some. intros [_ H]; eauto.
Qed.

Lemma wf_groups_insert k g s :
  Group.id g = k → startsWith k "group_" = true →
  wf_store s → wf_store (with_groups <[k := g]> s).
Proof.
  intros Hk Hp []. constructor; try done. cbn. intros k' g'.
  rewrite lookup_insert_Some. intros [[<- <-]|[_ H]]; eauto.
Qed.

Lemma wf_groups_delete k s : wf_store s → wf_store (with_groups (delete k) s).
Proof.
  intros []. constructor; try done. cbn. intros k' g'.
  rewrite lookup_delete_Some. intros [_ H]; eauto.
Qed.

Lemma wf_conversations_insert u l s :
  NoDup l → wf_store s → wf_store (with_conversations <[u := l]> s).
Proof.
  intros Hl []. constructor; try done. cbn. intros u' l'.
  rewrite lookup_insert_Some. intros [[<- <-]|[_ H]]; eauto.
Qed.

Lemma wf_conversations_delete u s : wf_store s → wf_store (with_conversations (delete u) s).
Proof.
  intros []. constructor; try done. cbn. intros u' l'.
  rewrite lookup_delete_Some. intros [_ H]; eauto.
Qed.

Lemma wf_user_groups_insert u l s :
  NoDup l → wf_store s → wf_store (with_user_groups <[u := l]> s).
Proof.
  intros Hl []. constructor; try done. cbn. intros u' l'.
  rewrite lookup_insert_Some. intros [[<- <-]|[_ H]]; eauto.
Qed.

Lemma wf_user_groups_delete u s : wf_store s → wf_store (with_user_groups (delete u) s).
Proof.
  intros []. constructor; try done. cbn. intros u' l'.
  rewrite lookup_delete_Some. intros [_ H]; eauto.
Qed.

Lemma wf_listPeers s u : wf_store s → NoDup (listPeers s u).
Proof.
  intros Hwf. unfold listPeers. destruct (conversations s !! u) as [l|] eqn:Hl; cbn.
  - by eapply wf_conversations.
  - constructor.
Qed.

Lemma wf_listGroups s u : wf_store s → NoDup (listGroups s u).
Proof.
  intros Hwf. unfold listGroups. destruct (user_groups s !! u) as [l|] eqn:Hl; cbn.
  - by eapply wf_user_groups.
  - constructor.
Qed.

Lemma update_conversations_wf a b s : wf_store s → wf_store (update_conversations a b s).
Proof.
  intros Hwf. unfold update_conversations.
  fold (listPeers s a). fold (listPeers s b).
  destruct (includes (listPeers s a) b) eqn:Hab; cbn [negb];
    destruct (includes (listPeers s b) a) eqn:Hba; cbn [negb]; try done.
  - apply includes_false in Hba.
    apply wf_conversations_insert; [|done]. apply push_NoDup; [|done]. by apply wf_listPeers.
  - apply includes_false in Hab.
    apply wf_conversations_insert; [|done]. apply push_NoDup; [|done]. by apply wf_listPeers.
  - apply includes_false in Hab. apply includes_false in Hba.
    apply wf_conversations_insert.
    + apply push_NoDup; [|done]. by apply wf_listPeers.
    + apply wf_conversations_insert; [|done]. apply push_NoDup; [|done]. by apply wf_listPeers.
Qed.

Lemma startsWith_group rest : startsWith ("group_" +:+ rest) "group_" = true.
Proof. unfold startsWith. cbn. by destruct rest. Qed.

Lemma add_member_group_wf groupId s memberId :
  wf_store s → wf_store (add_member_group groupId s memberId).
Proof.
  intros Hwf. unfold add_member_group. fold (listGroups s memberId).
  destruct (includes (listGroups s memberId) groupId) eqn:Hin; cbn [negb]; [done|].
  apply includes_false in Hin.
  apply wf_user_groups_insert; [|done]. apply push_NoDup; [|done]. by apply wf_listGroups.
Qed.

Lemma remove_from_group_wf userId s group :
  startsWith (Group.id group) "group_" = true →
  wf_store s → wf_store (remove_from_group userId s group).
Proof.
  intros Hp Hwf. unfold remove_from_group. case_match; [|done].
  by apply wf_groups_insert.
Qed.

Lemma remove_member_group_wf groupId s memberId :
  wf_store s → wf_store (remove_member_group groupId s memberId).
Proof.
  intros Hwf. unfold remove_member_group.
  destruct (user_groups s !! memberId) as [l|] eqn:Hl; [|done].
  apply wf_user_groups_insert; [|done]. apply NoDup_filter_bool.
  by eapply wf_user_groups.
Qed.

Lemma delete_user_message_wf userId s m :
  wf_store s → wf_store (delete_user_message userId s m).
Proof.
  intros Hwf. unfold delete_user_message. case_match; [|done]. by apply wf_messages_delete.
Qed.

Lemma delete_group_message_wf groupId s m :
  wf_store s → wf_store (delete_group_message groupId s m).
Proof.
  intros Hwf. unfold delete_group_message. case_match; [|done]. by apply wf_messages_delete.
Qed.

Lemma delete_user_data_wf userId s : wf_store s → wf_store (delete_user_data userId s).
Proof.
  intros Hwf. unfold delete_user_data.
  set (s1 := with_user_groups _ _).
  assert (Hwf1 : wf_store s1).
  { by apply wf_user_groups_delete, wf_conversations_delete, wf_with_users. }
  apply (foldl_invariant _ wf_store (λ _, True)).
  - intros; by apply delete_user_message_wf.
  - by apply Forall_true.
  - apply (foldl_invariant _ wf_store (λ g, startsWith (Group.id g) "group_" = true)).
    + intros; by apply remove_from_group_wf.
    + apply Forall_forall. intros g [k Hk]%elem_of_getByPrefix.
      destruct (wf_group_key _ Hwf1 _ _ Hk) as [-> Hp]. done.
    + done.
Qed.

Lemma signup_wf req created s : wf_store s → wf_store (signup req created s).1.
Proof.
  intros Hwf. unfold signup. repeat case_match; cbn [fst]; try done.
  by apply wf_with_users.
Qed.

Lemma send_message_wf user req now s :
  wf_store s → wf_store (send_message user req now s).1.
Proof.
  intros Hwf. unfold send_message. repeat case_match; cbn [fst]; try done.
  - by apply wf_messages_insert.
  - by apply update_conversations_wf, wf_messages_insert.
Qed.

Lemma create_group_wf user req now_id rnd now s :
  wf_store s → wf_store (create_group user req now_id rnd now s).1.
Proof.
  intros Hwf. unfold create_group. repeat case_match; cbn [fst]; try done.
  apply (foldl_invariant _ wf_store (λ _, True)).
  - intros; by apply add_member_group_wf.
  - by apply Forall_true.
  - apply wf_groups_insert; [done|apply startsWith_group|done].
Qed.

Lemma admin_delete_user_wf user userId deleteError s :
  wf_store s → wf_store (admin_delete_user user userId deleteError s).1.
Proof.
  intros Hwf. unfold admin_delete_user. repeat case_match; cbn [fst]; try done.
  by apply delete_user_data_wf.
Qed.

Lemma delete_account_wf user req signInError deleteError s :
  wf_store s → wf_store (delete_account user req signInError deleteError s).1.
Proof.
  intros Hwf. unfold delete_account. repeat case_match; cbn [fst]; try done.
  by apply delete_user_data_wf.
Qed.

Lemma admin_delete_group_wf user groupId s :
  wf_store s → wf_store (admin_delete_group user groupId s).1.
Proof.
  intros Hwf. unfold admin_delete_group. repeat case_match; cbn [fst]; try done.
  apply (foldl_invariant _ wf_store (λ _, True)).
  - intros; by apply delete_group_message_wf.
  - by apply Forall_true.
  - apply (foldl_invariant _ wf_store (λ _, True)).
    + intros; by apply remove_member_group_wf.
    + by apply Forall_true.
    + by apply wf_groups_delete.
Qed.

Lemma step_wf s s' : step s s' → wf_store s → wf_store s'.
Proof.
  destruct 1; intros Hwf.
  - by apply signup_wf.
  - by apply create_group_wf.
  - by apply send_message_wf.
  - by apply admin_delete_user_wf.
  - by apply delete_account_wf.
  - by apply admin_delete_group_wf.
Qed.

(** Every store the handlers can build from the empty one is well formed. *)
Lemma reachable_wf s : reachable s → wf_store s.
Proof.
  unfold reachable. intros H.
  eapply (rtc_ind_r (λ s', wf_store s') empty_store); [apply wf_empty| |exact H].
  intros y z _ Hstep IH. by eapply step_wf.
Qed.

Lemma registered_reachable : reachable registered.
Proof.
  unfold reachable, registered, signup_of.
  repeat (eapply rtc_r; [|apply step_signup]). apply rtc_refl.
Qed.

Lemma chatted_reachable : reachable chatted.
Proof.
  unfold reachable, chatted.
  repeat (eapply rtc_r; [|apply step_send_message]).
  eapply rtc_r; [|apply step_create_group]. apply registered_reachable.
Qed.

Lemma C2_user_deletion_messages_witness :
  let r := admin_delete_user (Some admin) "u1" None chatted in
  status r.2 = 200
  ∧ messages r.1 = filter (λ kv, from_or_to "u1" kv.2 = false) (messages chatted)
  ∧ messages r.1 !! "u1:u2:2000" = None
  ∧ messages r.1 !! "u2:u1:2001" = None
  ∧ is_Some (messages r.1 !! "u3:u2:2004").
Proof.
  destruct (C2_user_deletion_messages chatted "u1" (reachable_wf _ chatted_reachable))
    as (H1 & _ & H3 & _).
  cbv zeta. split; [vm_compute; reflexivity|].
  rewrite (H1 (Some admin) None _ eq_refl) by (vm_compute; reflexivity).
  split; [exact H3|]. vm_compute. eauto.
Defined.

(** C2, as the spec has it, fails: the group message u1 has sent to the
    group is in the store before an administrator deletes u1 and is not in
    it afterwards. *)
Lemma C2_counterexample :
  let r := admin_delete_user (Some admin) "u1" None chatted in
  status r.2 = 200
  ∧ ¬ (∀ k m, messages chatted !! k = Some m →
         Message.fromUserId m = "u1" → is_Some (Message.groupId m) →
         messages r.1 !! k = Some m).
Proof.
  cbv zeta. split; [vm_compute; reflexivity|]. intros H.
  specialize (H "u1:group_1000_k3x9:2002"
                (Message.mk "u1:group_1000_k3x9:2002" "u1" None (Some "group_1000_k3x9")
                            "all" 2002)).
  assert (Hgone : messages (admin_delete_user (Some admin) "u1" None chatted).1
                    !! "u1:group_1000_k3x9:2002" = None) by (vm_compute; reflexivity).
  rewrite Hgone in H. discriminate H; [vm_compute; reflexivity|reflexivity|by eexists].
Qed.

(** *** What a group deletion does *)

Lemma remove_member_group_frame groupId s memberId :
  users (remove_member_group groupId s memberId) = users s
  ∧ conversations (remove_member_group groupId s memberId) = conversations s
  ∧ groups (remove_member_group groupId s memberId) = groups s
  ∧ messages (remove_member_group groupId s memberId) = messages s.
Proof. unfold remove_member_group. by case_match. Qed.

Lemma remove_member_groups_lookup (groupId : string) (l : list string) s (u : string) :
  user_groups (foldl (remove_member_group groupId) s l) !! u
  = if bool_decide (u ∈ l)
    then List.filter (λ id, negb (bool_decide (id = groupId))) <$> user_groups s !! u
    else user_groups s !! u.
Proof.
  revert s. induction l as [|x l IH]; intros s; cbn [foldl]; [done|].
  rewrite IH.
  assert (Hx : user_groups (remove_member_group groupId s x) !! u
               = if bool_decide (u = x)
                 then List.filter (λ id, negb (bool_decide (id = groupId))) <$> user_groups s !! u
                 else user_groups s !! u).
  { unfold remove_member_group. destruct (decide (u = x)) as [->|Hux].
    - rewrite bool_decide_eq_true_2 by done.
      destruct (user_groups s !! x) as [gs|] eqn:Hgs; cbn.
      + by rewrite lookup_insert_eq.
      + by rewrite Hgs.
    - rewrite bool_decide_eq_false_2 by done.
      destruct (user_groups s !! x); cbn; [|done]. by rewrite lookup_insert_ne. }
  rewrite Hx. clear Hx.
  destruct (decide (u = x)) as [->|Hne].
  - rewrite (bool_decide_eq_true_2 (x = x)) by done.
    rewrite (bool_decide_eq_true_2 (x ∈ x :: l)) by apply list_elem_of_here.
    case_bool_decide; [|done].
    destruct (user_groups s !! x); cbn; [|done]. by rewrite filter_bool_idemp.
  - rewrite (bool_decide_eq_false_2 (u = x)) by done.
    rewrite (bool_decide_ext (u ∈ x :: l) (u ∈ l)); [done|].
    rewrite elem_of_cons. tauto.
Qed.

Lemma admin_delete_group_ok s a groupId g :
  not_admin (Some a) = false → groups s !! groupId = Some g →
  admin_delete_group (Some a) groupId s
  = (let s1 := foldl (remove_member_group groupId) (with_groups (delete groupId) s)
                 (Group.memberIds g) in
     foldl (delete_group_message groupId) s1 (getByPrefix (messages s1)),
     json (success_body "Group deleted successfully") 200).
Proof. intros Ha Hg. unfold admin_delete_group. by rewrite Ha, Hg. Qed.

(** ** Group deletion *)

(** C5. After an administrator has deleted an existing group, the group's
    id is in no member's group index entry, no message of the group is in
    the store, every other message is, and the message listing for the
    group's id is empty, whoever asks. *)
Theorem C5_group_deletion (s : Store) (a : AuthUser.t) (groupId : string) (g : Group.t) :
  wf_store s → not_admin (Some a) = false → groups s !! groupId = Some g →
  let r := admin_delete_group (Some a) groupId s in
  status r.2 = 200
  ∧ groups r.1 !! groupId = None
  ∧ (∀ memberId, memberId ∈ Group.memberIds g → groupId ∉ listGroups r.1 memberId)
  ∧ (∀ k m, messages r.1 !! k = Some m → Message.groupId m ≠ Some groupId)
  ∧ messages r.1 = filter (λ kv, in_group groupId kv.2 = false) (messages s)
  ∧ (∀ caller, AuthUser.id caller ≠ "" →
       get_messages (Some caller) groupId r.1 = json (messages_body []) 200).
Proof.
  intros Hwf Ha Hg. cbv zeta. rewrite (admin_delete_group_ok s a groupId g Ha Hg).
  cbv zeta. cbn [fst snd status].
  set (s1 := foldl (remove_member_group groupId) (with_groups (delete groupId) s)
               (Group.memberIds g)).
  assert (Hm1 : messages s1 = messages s).
  { subst s1. rewrite (foldl_frame _ messages); [done|].
    intros; apply remove_member_group_frame. }
  assert (Hg1 : groups s1 = delete groupId (groups s)).
  { subst s1. rewrite (foldl_frame _ groups); [done|].
    intros; apply remove_member_group_frame. }
  destruct (delete_loop_frame (in_group groupId) (delete_group_message groupId)
              (λ _ _, eq_refl) (getByPrefix (messages s1)) s1) as (_ & _ & Hug & Hgr).
  assert (Hms : messages (foldl (delete_group_message groupId) s1 (getByPrefix (messages s1)))
                = filter (λ kv, in_group groupId kv.2 = false) (messages s)).
  { rewrite Hm1.
    apply (delete_loop_scan (in_group groupId) (delete_group_message groupId)); try done.
    apply Hwf. }
  assert (Hnone : ∀ k m,
    messages (foldl (delete_group_message groupId) s1 (getByPrefix (messages s1))) !! k = Some m →
    Message.groupId m ≠ Some groupId).
  { intros k m. rewrite Hms. intros [_ Hin]%map_lookup_filter_Some. cbn in Hin.
    unfold in_group in Hin. by apply bool_decide_eq_false in Hin. }
  split_and!; try done.
  - rewrite Hgr, Hg1. apply lookup_delete_eq.
  - intros memberId Hmem. unfold listGroups. rewrite Hug. subst s1.
    rewrite remove_member_groups_lookup, (bool_decide_eq_true_2 _ Hmem).
    cbn [user_groups with_groups].
    destruct (user_groups s !! memberId) as [gs|]; cbn.
    + rewrite elem_of_filter_bool. intros [_ H].
      by rewrite bool_decide_eq_true_2 in H.
    + apply not_elem_of_nil.
  - intros caller Hc. unfold get_messages. rewrite (no_user_id_false caller Hc).
    destruct (wf_group_key _ Hwf _ _ Hg) as [_ ->].
    f_equal. f_equal. unfold listForGroup. apply sort_nil_inv.
    destruct (List.filter _ _) as [|m l] eqn:Hf; [done|].
    assert (m ∈ List.filter (in_group groupId)
                  (getByPrefix (messages (foldl (delete_group_message groupId) s1
                                            (getByPrefix (messages s1))))))
      as [[k Hk]%elem_of_getByPrefix Hin]%elem_of_filter_bool
      by (rewrite Hf; apply list_elem_of_here).
    apply Hnone in Hk. unfold in_group in Hin. by apply bool_decide_eq_true in Hin.
Qed.

Lemma C5_group_deletion_witness :
  let r := admin_delete_group (Some admin) "group_1000_k3x9" chatted in
  status r.2 = 200
  ∧ groups r.1 !! "group_1000_k3x9" = None
  ∧ ("group_1000_k3x9" ∉ listGroups r.1 "u2")
  ∧ messages r.1 !! "u1:group_1000_k3x9:2002" = None
  ∧ get_messages (Some u3) "group_1000_k3x9" r.1 = json (messages_body []) 200.
Proof.
  destruct (C5_group_deletion chatted admin "group_1000_k3x9"
              (Group.mk "group_1000_k3x9" "Team" ["u1"; "u2"; "u3"] "u1" 1000)
              (reachable_wf _ chatted_reachable))
    as (H1 & H2 & H3 & _ & _ & H6); [vm_compute; reflexivity|vm_compute; reflexivity|].
  split; [exact H1|]. split; [exact H2|].
  split; [apply H3; cbn [Group.memberIds]; apply list_elem_of_further, list_elem_of_here|].
  split; [vm_compute; reflexivity|].
  apply H6. intros H; discriminate H.
Defined.

(** *** The listings *)

Lemma between_comm a b m : between a b m = between b a m.
Proof. unfold between. apply orb_comm. Qed.

Lemma between_spec a b m :
  between a b m = true
  ↔ (Message.fromUserId m = a ∧ Message.toUserId m = Some b)
    ∨ (Message.fromUserId m = b ∧ Message.toUserId m = Some a).
Proof.
  unfold between.
  by rewrite orb_true_iff, !andb_true_iff, !bool_decide_eq_true.
Qed.

Lemma ascending_sorted l : StronglySorted (key_le Message.timestamp) (sort ascending l).
Proof. by apply sort_ascending. Qed.

Lemma get_messages_direct s u targetId :
  AuthUser.id u ≠ "" → startsWith targetId "group_" = false →
  get_messages (Some u) targetId s
  = json (messages_body (listForDirect (AuthUser.id u) targetId (getByPrefix (messages s)))) 200.
Proof. intros Hu Hp. unfold get_messages. by rewrite (no_user_id_false u Hu), Hp. Qed.

Lemma get_messages_group s u targetId :
  AuthUser.id u ≠ "" → startsWith targetId "group_" = true →
  get_messages (Some u) targetId s
  = json (messages_body (listForGroup targetId (getByPrefix (messages s)))) 200.
Proof. intros Hu Hp. unfold get_messages. by rewrite (no_user_id_false u Hu), Hp. Qed.

(** ** Direct listings *)

(** C6. For two users A and B and any store, the direct messages A lists
    for B and those B lists for A are the same, in the same order: each
    stored message sent from one of the two to the other, in either
    direction, and no other; and the list ascends by timestamp. The same
    holds, as sets, for whatever order the store scans its messages in. *)
Theorem C6_direct_listing_symmetric (s : Store) (a b : AuthUser.t) :
  AuthUser.id a ≠ "" → AuthUser.id b ≠ "" →
  startsWith (AuthUser.id a) "group_" = false →
  startsWith (AuthUser.id b) "group_" = false →
  let A := AuthUser.id a in
  let B := AuthUser.id b in
  get_messages (Some a) B s = get_messages (Some b) A s
  ∧ (∃ l, get_messages (Some a) B s = json (messages_body l) 200
          ∧ StronglySorted (key_le Message.timestamp) l
          ∧ l ≡ₚ List.filter (between A B) (getByPrefix (messages s))
          ∧ (∀ m, m ∈ l ↔
               (∃ k, messages s !! k = Some m)
               ∧ ((Message.fromUserId m = A ∧ Message.toUserId m = Some B)
                  ∨ (Message.fromUserId m = B ∧ Message.toUserId m = Some A))))
  ∧ (∀ scan1 scan2, scan1 ≡ₚ scan2 →
       listForDirect A B scan1 ≡ₚ listForDirect B A scan2
       ∧ StronglySorted (key_le Message.timestamp) (listForDirect A B scan1)
       ∧ StronglySorted (key_le Message.timestamp) (listForDirect B A scan2)).
Proof.
  intros Ha Hb Hpa Hpb. cbv zeta.
  rewrite (get_messages_direct s a _ Ha Hpb), (get_messages_direct s b _ Hb Hpa).
  unfold listForDirect. split_and!.
  - do 3 f_equal. apply List.filter_ext. intros m. apply between_comm.
  - eexists. split; [reflexivity|]. split; [apply ascending_sorted|].
    split; [apply sort_Permutation|].
    intros m. by rewrite elem_of_sort, elem_of_filter_bool, elem_of_getByPrefix, between_spec.
  - intros scan1 scan2 Hscan. split_and!; try apply ascending_sorted.
    rewrite !sort_Permutation, (filter_bool_Permutation _ _ _ Hscan).
    by rewrite (List.filter_ext _ _ (between_comm _ _)).
Qed.

Lemma C6_direct_listing_symmetric_witness :
  get_messages (Some u1) (AuthUser.id u2) chatted
  = get_messages (Some u2) (AuthUser.id u1) chatted
  ∧ get_messages (Some u1) (AuthUser.id u2) chatted
    = json (messages_body [Message.mk "u1:u2:2000" "u1" (Some "u2") None "hi" 2000;
                           Message.mk "u2:u1:2001" "u2" (Some "u1") None "yo" 2001]) 200.
Proof.
  assert (Hne : ∀ c rest, String c rest ≠ "") by (intros c rest H; discriminate H).
  pose proof (C6_direct_listing_symmetric chatted u1 u2 (Hne _ _) (Hne _ _) eq_refl eq_refl)
    as [H _].
  split; [exact H|]. vm_compute. reflexivity.
Defined.

(** ** Group listings *)

(** C9. For a target id that starts with [group_], the message listing
    does not look at who asks, member or not: any two authenticated callers
    get the same list, which holds every stored message of that group, once
    each, and no other message, ascending by timestamp. *)
Theorem C9_group_listing_ignores_caller (s : Store) (x y : AuthUser.t) (g : string) :
  AuthUser.id x ≠ "" → AuthUser.id y ≠ "" → startsWith g "group_" = true →
  get_messages (Some x) g s = get_messages (Some y) g s
  ∧ get_messages (Some x) g s
    = json (messages_body (listForGroup g (getByPrefix (messages s)))) 200
  ∧ StronglySorted (key_le Message.timestamp) (listForGroup g (getByPrefix (messages s)))
  ∧ listForGroup g (getByPrefix (messages s))
    ≡ₚ List.filter (in_group g) (getByPrefix (messages s))
  ∧ (∀ m, m ∈ listForGroup g (getByPrefix (messages s))
          ↔ (∃ k, messages s !! k = Some m) ∧ Message.groupId m = Some g).
Proof.
  intros Hx Hy Hg.
  rewrite (get_messages_group s x g Hx Hg), (get_messages_group s y g Hy Hg).
  unfold listForGroup. split_and!; [done|done|apply ascending_sorted|apply sort_Permutation|].
  intros m. rewrite elem_of_sort, elem_of_filter_bool, elem_of_getByPrefix.
  unfold in_group. by rewrite bool_decide_eq_true.
Qed.

Lemma C9_group_listing_ignores_caller_witness :
  get_messages (Some u1) "group_1000_k3x9" chatted
  = get_messages (Some (AuthUser.mk "stranger" "s@example.com")) "group_1000_k3x9" chatted
  ∧ get_messages (Some (AuthUser.mk "stranger" "s@example.com")) "group_1000_k3x9" chatted
    = json (messages_body
        [Message.mk "u1:group_1000_k3x9:2002" "u1" None (Some "group_1000_k3x9") "all" 2002;
         Message.mk "u2:group_1000_k3x9:2003" "u2" None (Some "group_1000_k3x9") "ok" 2003]) 200.
Proof.
  assert (Hne : ∀ c rest, String c rest ≠ "") by (intros c rest H; discriminate H).
  pose proof (C9_group_listing_ignores_caller chatted u1
                (AuthUser.mk "stranger" "s@example.com") "group_1000_k3x9"
                (Hne _ _) (Hne _ _) eq_refl) as [H _].
  split; [exact H|]. vm_compute. reflexivity.
Defined.

(** *** What a user deletion does to the user records *)

Lemma delete_user_data_users userId s :
  users (delete_user_data userId s) = delete userId (users s).
Proof.
  unfold delete_user_data.
  destruct (delete_loop_frame (from_or_to userId) (delete_user_message userId)
              (λ _ _, eq_refl)
              (getByPrefix (messages (foldl (remove_from_group userId)
                 (with_user_groups (delete userId)
                    (with_conversations (delete userId) (with_users (delete userId) s)))
                 (getByPrefix (groups (with_user_groups (delete userId)
                    (with_conversations (delete userId) (with_users (delete userId) s))))))))
              (foldl (remove_from_group userId)
                 (with_user_groups (delete userId)
                    (with_conversations (delete userId) (with_users (delete userId) s)))
                 (getByPrefix (groups (with_user_groups (delete userId)
                    (with_conversations (delete userId) (with_users (delete userId) s)))))))
    as (-> & _).
  rewrite (foldl_frame _ users); [done|]. intros; apply remove_from_group_frame.
Qed.

(** ** The guards of the administrator's user deletion *)

(** C7. When an administrator calls the user deletion: for a target other
    than the caller that has a user record whose address is not on the
    allow-list, and whose account the identity provider deletes, the answer
    is 200 and the user's data is deleted; for the caller's own id the
    answer is 400 and the store is as before; for a target whose address is
    on the allow-list the answer is 400 and the store is as before. *)
Theorem C7_admin_user_delete_guards (s : Store) (a : AuthUser.t) (target : string) :
  not_admin (Some a) = false →
  (∀ p, target ≠ AuthUser.id a → users s !! target = Some p →
        isAdmin (Profile.email p) = false →
        admin_delete_user (Some a) target None s
        = (delete_user_data target s, json (success_body "User deleted successfully") 200)
        ∧ users (delete_user_data target s) !! target = None)
  ∧ (∀ deleteError, target = AuthUser.id a →
        admin_delete_user (Some a) target deleteError s
        = (s, json (error_body "Cannot delete your own account") 400))
  ∧ (∀ p deleteError, users s !! target = Some p → isAdmin (Profile.email p) = true →
        (admin_delete_user (Some a) target deleteError s).1 = s
        ∧ status (admin_delete_user (Some a) target deleteError s).2 = 400).
Proof.
  intros Ha. unfold admin_delete_user. rewrite Ha. split_and!.
  - intros p Hne Hp Hadm. rewrite (bool_decide_eq_false_2 _ Hne), Hp, Hadm.
    split; [done|]. rewrite delete_user_data_users. apply lookup_delete_eq.
  - intros deleteError Heq. by rewrite (bool_decide_eq_true_2 _ Heq).
  - intros p deleteError Hp Hadm. case_bool_decide; [done|]. by rewrite Hp, Hadm.
Qed.

Lemma C7_admin_user_delete_guards_witness :
  status (admin_delete_user (Some admin) "u2" None two_admins).2 = 200
  ∧ users (admin_delete_user (Some admin) "u2" None two_admins).1 !! "u2" = None
  ∧ admin_delete_user (Some admin) "a0" None two_admins
    = (two_admins, json (error_body "Cannot delete your own account") 400)
  ∧ (admin_delete_user (Some admin) "a1" None two_admins).1 = two_admins
  ∧ status (admin_delete_user (Some admin) "a1" None two_admins).2 = 400.
Proof.
  assert (Hadm : not_admin (Some admin) = false) by (vm_compute; reflexivity).
  destruct (C7_admin_user_delete_guards two_admins admin "u2" Hadm) as (H1 & _ & _).
  destruct (H1 (Profile.mk "u2" "u2@example.com" "Bo")) as [Hr Hgone];
    [intros H; discriminate H|vm_compute; reflexivity|vm_compute; reflexivity|].
  destruct (C7_admin_user_delete_guards two_admins admin "a0" Hadm) as (_ & H2 & _).
  destruct (C7_admin_user_delete_guards two_admins admin "a1" Hadm) as (_ & _ & H3).
  destruct (H3 (Profile.mk "a1" "lichengantv@gmail.com" "Twin") None) as [H3a H3b];
    [vm_compute; reflexivity|vm_compute; reflexivity|].
  rewrite Hr. cbn [fst snd status]. split; [reflexivity|]. split; [exact Hgone|].
  split; [apply H2; reflexivity|]. split; [exact H3a|exact H3b].
Defined.

(** ** Password reset *)

(** C8. The password reset as the server runs it. The handler reads
    [window.location.origin], the address of a web page, but it runs in the
    server process of the function (the file reads [Deno.env]), which has
    no page: the read throws and the handler's [catch] answers. So for
    every request with a non-empty address, whatever the identity provider
    would report, the answer is "Internal server error" with status 500 and
    not the success body the handler's two branches are written to give.
    Whether the address has an account still makes no difference: in any
    runtime two runs that differ in the provider's report have the same
    answer, and that answer is the success body exactly when the runtime
    gives an origin. *)
Theorem C8_reset_password_server_error (email : string) (origin : option string)
    (resetError1 resetError2 : option string) :
  email ≠ "" →
  reset_password (Some (Some email)) None resetError1 = internal_error
  ∧ status (reset_password (Some (Some email)) None resetError1) = 500
  ∧ reset_password (Some (Some email)) None resetError1 ≠ reset_sent
  ∧ reset_password (Some (Some email)) origin resetError1
    = reset_password (Some (Some email)) origin resetError2
  ∧ (reset_password (Some (Some email)) origin resetError1 = reset_sent ↔ is_Some origin).
Proof.
  intros He. unfold reset_password. rewrite (truthy_Some_ne email He). cbn [negb].
  split; [done|]. split; [done|]. split; [intros H; discriminate H|].
  destruct origin as [redirectTo|].
  - split; [by destruct resetError1, resetError2|].
    split; [by eexists|]. intros _. by destruct resetError1.
  - split; [done|]. split; [intros H; discriminate H|]. by intros [? ?].
Qed.

Lemma C8_reset_password_server_error_witness :
  reset_password (Some (Some "nobody@example.com")) None (Some "User not found")
  = json (error_body "Internal server error") 500
  ∧ reset_password (Some (Some "nobody@example.com")) None None
    = json (error_body "Internal server error") 500
  ∧ reset_password (Some (Some "nobody@example.com")) None (Some "User not found")
    ≠ json (success_body "If an account exists, a password reset email has been sent") 200.
Proof.
  destruct (C8_reset_password_server_error "nobody@example.com" None
              (Some "User not found") None) as (H1 & _ & H3 & H4 & _);
    [intros H; discriminate H|].
  split; [exact H1|]. split; [|exact H3]. rewrite <- H4. exact H1.
Defined.

(** ** Sending without a look at the target *)

(** C10. The send never looks the target up: for an authenticated caller
    and a body with a non-empty text and a non-empty recipient or group, in
    any store, the message is stored and the answer is 200; no request is
    answered 404; and the answer is 400 exactly when an authenticated
    caller's body lacks the text, or lacks both recipient and group. *)
Theorem C10_send_message_no_target_check (s : Store) (now : Z) :
  (∀ u r, AuthUser.id u ≠ "" → truthy (SendBody.text r) = true →
          truthy (SendBody.toUserId r) = true ∨ truthy (SendBody.groupId r) = true →
          ∃ m, (send_message (Some u) (Some r) now s).2 = json (message_body m) 200
               ∧ messages (send_message (Some u) (Some r) now s).1 !! Message.id m = Some m
               ∧ Message.fromUserId m = AuthUser.id u
               ∧ Some (Message.text m) = SendBody.text r)
  ∧ (∀ user req, status (send_message user req now s).2 ≠ 404)
  ∧ (∀ user req,
       status (send_message user req now s).2 = 400
       ↔ no_user_id user = false
         ∧ ∃ r, req = Some r
                ∧ ((truthy (SendBody.toUserId r) = false ∧ truthy (SendBody.groupId r) = false)
                   ∨ truthy (SendBody.text r) = false)).
Proof.
  split_and!.
  - intros u r Hu Htxt Htarget. unfold send_message. rewrite (no_user_id_false u Hu), Htxt.
    assert (negb (truthy (SendBody.toUserId r)) && negb (truthy (SendBody.groupId r)) = false)
      as -> by (destruct Htarget as [-> | ->]; [done|apply andb_false_r]).
    cbn [negb orb]. eexists. cbn [fst snd]. split; [reflexivity|].
    cbn [Message.id Message.fromUserId Message.text].
    split_and!; [|done|by destruct (truthy_Some _ Htxt) as (v & -> & _)].
    destruct (truthy (SendBody.groupId r)).
    + cbn [messages with_messages]. apply lookup_insert_eq.
    + destruct (update_conversations_frame (AuthUser.id u) (js_str (SendBody.toUserId r))
        (with_messages <[AuthUser.id u +:+ ":" +:+
           js_str (js_or (SendBody.groupId r) (SendBody.toUserId r)) +:+ ":" +:+ pretty now :=
           Message.mk (AuthUser.id u +:+ ":" +:+
               js_str (js_or (SendBody.groupId r) (SendBody.toUserId r)) +:+ ":" +:+ pretty now)
             (AuthUser.id u) (js_or (SendBody.toUserId r) None) (js_or (SendBody.groupId r) None)
             (js_str (SendBody.text r)) now]> s)) as (_ & _ & _ & ->).
      cbn [messages with_messages]. apply lookup_insert_eq.
  - intros user req. unfold send_message. repeat case_match; cbn [snd status]; done.
  - intros user req. unfold send_message.
    destruct user as [u|]; [|cbn; split; [done|by intros [? _]]].
    destruct (no_user_id (Some u)) eqn:Hu; [cbn; split; [done|by intros [? _]]|].
    destruct req as [r|]; [|cbn; split; [done|by intros (_ & ? & ? & _)]].
    destruct (truthy (SendBody.toUserId r)) eqn:Hto, (truthy (SendBody.groupId r)) eqn:Hg,
      (truthy (SendBody.text r)) eqn:Htxt; cbn [negb andb orb snd status];
      (split;
       [intros H; first [discriminate H|split; [done|]; exists r; split; [done|]; tauto]
       |intros (_ & r' & [= <-] & H); first [done|destruct H as [[? ?]|?]; congruence]]).
Qed.

Lemma C10_send_message_no_target_check_witness :
  let r := send_message (Some u1) (direct "nobody" "hi") 1000 empty_store in
  users empty_store !! "nobody" = None
  ∧ ∃ m, r.2 = json (message_body m) 200 ∧ messages r.1 !! Message.id m = Some m.
Proof.
  destruct (C10_send_message_no_target_check empty_store 1000) as (H & _).
  destruct (H u1 (SendBody.mk (Some "nobody") None (Some "hi")))
    as (m & H1 & H2 & _); [intros E; discriminate E|reflexivity|by left|].
  split; [reflexivity|]. exists m. split; [exact H1|exact H2].
Defined.

(** * Further properties of the handlers *)

(** ** Who may call what *)

(** X1. A request whose token resolves to no user id is answered 401 by
    every handler behind the bearer token, and the handlers that write
    leave the store as it is. *)
Theorem unauthenticated_is_refused (user : option AuthUser.t) (s : Store) :
  no_user_id user = true →
  (∀ req now, send_message user req now s = (s, unauthorized))
  ∧ (∀ req now_id rnd now, create_group user req now_id rnd now s = (s, unauthorized))
  ∧ (∀ req signInError deleteError,
       delete_account user req signInError deleteError s = (s, unauthorized))
  ∧ (∀ trim req updateError,
       update_profile trim user req updateError s = (s, refused "Unauthorized" 401))
  ∧ (∀ targetId, get_messages user targetId s = unauthorized)
  ∧ get_conversations user s = unauthorized
  ∧ (∀ userId, get_user user userId s = unauthorized)
  ∧ get_users user s = refused "Unauthorized" 401
  ∧ admin_check user = refused "Unauthorized" 401.
Proof.
  intros Hu.
  unfold send_message, create_group, delete_account, update_profile, get_messages,
    get_conversations, get_user, get_users, admin_check.
  destruct user as [u|]; [rewrite Hu|]; by split_and!.
Qed.

Lemma unauthenticated_is_refused_witness :
  send_message None (direct "u2" "hi") 1000 chatted = (chatted, unauthorized)
  ∧ get_messages (Some (AuthUser.mk "" "x@example.com")) "u2" chatted = unauthorized.
Proof.
  destruct (unauthenticated_is_refused None chatted eq_refl) as (H1 & _).
  destruct (unauthenticated_is_refused (Some (AuthUser.mk "" "x@example.com")) chatted eq_refl)
    as (_ & _ & _ & _ & H5 & _).
  split; [apply H1|apply H5].
Defined.

(** X2. A caller who is not an administrator, signed in or not, is answered
    403 by every administrator handler, and the two deletions leave the
    store as it is. *)
Theorem non_admin_is_refused (user : option AuthUser.t) (s : Store) :
  not_admin user = true →
  (∀ userId deleteError, admin_delete_user user userId deleteError s = (s, admin_only))
  ∧ (∀ groupId, admin_delete_group user groupId s = (s, admin_only))
  ∧ (∀ authUsers, admin_users user authUsers s = refused "Unauthorized - Admin only" 403)
  ∧ admin_stats user s = refused "Unauthorized - Admin only" 403
  ∧ admin_groups user s = refused "Unauthorized - Admin only" 403.
Proof.
  intros Hu. unfold admin_delete_user, admin_delete_group, admin_users, admin_stats, admin_groups.
  rewrite Hu. by destruct user.
Qed.

Lemma non_admin_is_refused_witness :
  admin_delete_user (Some u1) "u2" None chatted = (chatted, admin_only)
  ∧ admin_delete_group (Some u1) "group_1000_k3x9" chatted = (chatted, admin_only)
  ∧ admin_stats (Some u1) chatted = refused "Unauthorized - Admin only" 403.
Proof.
  assert (Hu : not_admin (Some u1) = true) by (vm_compute; reflexivity).
  destruct (non_admin_is_refused (Some u1) chatted Hu) as (H1 & H2 & _ & H4 & _).
  split; [apply H1|]. split; [apply H2|exact H4].
Defined.

(** ** Sending *)

Lemma send_message_writes (user : option AuthUser.t) (req : option SendBody.t)
    (now : Z) (s : Store) :
  let r := send_message user req now s in
  users r.1 = users s ∧ user_groups r.1 = user_groups s ∧ groups r.1 = groups s
  ∧ (status r.2 ≠ 200 → r.1 = s)
  ∧ (∀ m, r.2 = json (message_body m) 200 →
       messages r.1 = <[Message.id m := m]> (messages s)
       ∧ (truthy (Message.groupId m) = true → conversations r.1 = conversations s)
       ∧ (∀ x, x ≠ Message.fromUserId m → Message.toUserId m ≠ Some x →
               conversations r.1 !! x = conversations s !! x)).
Proof.
  cbv zeta. unfold send_message.
  destruct user as [u|]; [|by split_and!].
  destruct (no_user_id (Some u)); [by split_and!|].
  destruct req as [[to g txt]|]; [|by split_and!]. cbv zeta.
  cbn [SendBody.toUserId SendBody.groupId SendBody.text].
  destruct (_ || _) eqn:Hv; [by split_and!|].
  apply orb_false_iff in Hv as [Hv Htxt]. apply negb_false_iff in Htxt.
  destruct (truthy g) eqn:Hg; cbn [fst snd].
  - split_and!; try done. intros m [= <-]. cbn [Message.id Message.groupId].
    unfold js_or. by rewrite Hg.
  - cbn [negb] in Hv. rewrite andb_true_r in Hv. apply negb_false_iff in Hv.
    destruct (truthy_Some _ Hv) as (B & -> & _). cbn [js_str].
    assert (Hjg : js_or g None = None) by (unfold js_or; by rewrite Hg).
    assert (Hjt : js_or (Some B) None = Some B) by (unfold js_or; by rewrite Hv).
    rewrite Hjg, Hjt.
    match goal with |- context [update_conversations ?a ?b ?s0] =>
      destruct (update_conversations_frame a b s0) as (-> & -> & -> & ->);
      pose proof (update_conversations_other a b s0) as Hother end.
    split_and!; try done. intros m [= <-].
    cbn [Message.id Message.groupId Message.fromUserId Message.toUserId].
    split_and!; [done|done|].
    intros x Hx Hx'. rewrite Hother; [done|done|]. intros ->. done.
Qed.

(** X3. A send writes next to nothing: it never touches the user records,
    the groups or the group index; refused, it leaves the store as it is;
    accepted, it puts the answered message under its id and leaves every
    other message alone, changes no conversation entry but the sender's and
    the recipient's, and none at all when the message names a group. *)
Theorem send_message_only_appends (user : option AuthUser.t) (req : option SendBody.t)
    (now : Z) (s : Store) :
  let r := send_message user req now s in
  users r.1 = users s ∧ user_groups r.1 = user_groups s ∧ groups r.1 = groups s
  ∧ (status r.2 ≠ 200 → r.1 = s)
  ∧ (∀ m, r.2 = json (message_body m) 200 →
       messages r.1 = <[Message.id m := m]> (messages s)
       ∧ (truthy (Message.groupId m) = true → conversations r.1 = conversations s)
       ∧ (∀ x, x ≠ Message.fromUserId m → Message.toUserId m ≠ Some x →
               conversations r.1 !! x = conversations s !! x)).
Proof. apply send_message_writes. Qed.

(** X4. The message id is made of sender, target and clock value only: a
    second send by the same sender to the same target at the same clock
    value replaces the first message, which is gone as if it had never been
    sent, and the number of stored messages does not grow. *)
Theorem same_instant_send_overwrites (u : AuthUser.t) (toUserId groupId : option string)
    (text1 text2 : string) (now : Z) (s : Store) :
  AuthUser.id u ≠ "" → text1 ≠ "" → text2 ≠ "" →
  truthy toUserId = true ∨ truthy groupId = true →
  let s1 := (send_message (Some u) (Some (SendBody.mk toUserId groupId (Some text1))) now s).1 in
  let r2 := send_message (Some u) (Some (SendBody.mk toUserId groupId (Some text2))) now s1 in
  ∃ m2, r2.2 = json (message_body m2) 200
        ∧ Message.text m2 = text2
        ∧ messages r2.1 = <[Message.id m2 := m2]> (messages s)
        ∧ messages r2.1
          = messages (send_message (Some u)
                        (Some (SendBody.mk toUserId groupId (Some text2))) now s).1
        ∧ size (messages r2.1) = size (messages s1).
Proof.
  intros Hu Ht1 Ht2 Htarget. cbv zeta.
  destruct (send_message_writes (Some u)
              (Some (SendBody.mk toUserId groupId (Some text1))) now s) as (_ & _ & _ & _ & H1).
  set (s1 := (send_message (Some u) (Some (SendBody.mk toUserId groupId (Some text1))) now s).1)
    in *.
  destruct (send_message_writes (Some u)
              (Some (SendBody.mk toUserId groupId (Some text2))) now s1) as (_ & _ & _ & _ & H2).
  assert (Hr1 : ∃ m1, (send_message (Some u) (Some (SendBody.mk toUserId groupId (Some text1)))
                         now s).2 = json (message_body m1) 200
                      ∧ Message.id m1 = AuthUser.id u +:+ ":" +:+
                          js_str (js_or groupId toUserId) +:+ ":" +:+ pretty now).
  { unfold send_message. rewrite (no_user_id_false u Hu). cbn [SendBody.toUserId
      SendBody.groupId SendBody.text]. rewrite (truthy_Some_ne text1 Ht1).
    assert (negb (truthy toUserId) && negb (truthy groupId) = false) as ->
      by (destruct Htarget as [-> | ->]; [done|apply andb_false_r]).
    cbn [negb orb snd]. eexists. split; reflexivity. }
  assert (Hr2 : ∃ m2, (send_message (Some u) (Some (SendBody.mk toUserId groupId (Some text2)))
                         now s1).2 = json (message_body m2) 200
                      ∧ Message.id m2 = AuthUser.id u +:+ ":" +:+
                          js_str (js_or groupId toUserId) +:+ ":" +:+ pretty now
                      ∧ Message.text m2 = text2).
  { unfold send_message. rewrite (no_user_id_false u Hu). cbn [SendBody.toUserId
      SendBody.groupId SendBody.text]. rewrite (truthy_Some_ne text2 Ht2).
    assert (negb (truthy toUserId) && negb (truthy groupId) = false) as ->
      by (destruct Htarget as [-> | ->]; [done|apply andb_false_r]).
    cbn [negb orb snd]. eexists. split_and!; reflexivity. }
  destruct Hr1 as (m1 & Hr1 & Hid1). destruct Hr2 as (m2 & Hr2 & Hid2 & Htext2).
  destruct (H1 m1 Hr1) as (Hm1 & _). destruct (H2 m2 Hr2) as (Hm2 & _).
  exists m2. split; [done|]. split; [done|].
  assert (Hms : messages (send_message (Some u)
                  (Some (SendBody.mk toUserId groupId (Some text2))) now s1).1
                = <[Message.id m2 := m2]> (messages s)).
  { rewrite Hm2. fold s1 in Hm1. rewrite Hm1, Hid1, Hid2. apply insert_insert_eq. }
  split; [done|]. split.
  - rewrite Hms.
    destruct (send_message_writes (Some u)
                (Some (SendBody.mk toUserId groupId (Some text2))) now s)
      as (_ & _ & _ & _ & H3).
    assert (Hr3 : ∃ m3, (send_message (Some u)
                           (Some (SendBody.mk toUserId groupId (Some text2))) now s).2
                        = json (message_body m3) 200 ∧ m3 = m2).
    { revert Hr2. unfold send_message. rewrite (no_user_id_false u Hu).
      cbn [SendBody.toUserId SendBody.groupId SendBody.text].
      rewrite (truthy_Some_ne text2 Ht2).
      assert (negb (truthy toUserId) && negb (truthy groupId) = false) as ->
        by (destruct Htarget as [-> | ->]; [done|apply andb_false_r]).
      cbn [negb orb snd]. intros [= <-]. eexists. split; reflexivity. }
    destruct Hr3 as (m3 & Hr3 & ->). by destruct (H3 m2 Hr3) as (-> & _).
  - rewrite Hm2. apply map_size_insert_Some. exists m1. fold s1 in Hm1.
    rewrite Hm1, Hid1, Hid2. apply lookup_insert_eq.
Qed.

Lemma same_instant_send_overwrites_witness :
  let s1 := (send_message (Some u1) (Some (SendBody.mk (Some "u2") None (Some "first"))) 5
               registered).1 in
  let r2 := send_message (Some u1) (Some (SendBody.mk (Some "u2") None (Some "second"))) 5 s1 in
  size (messages s1) = 1%nat
  ∧ ∃ m2, r2.2 = json (message_body m2) 200 ∧ Message.text m2 = "second"
          ∧ size (messages r2.1) = size (messages s1).
Proof.
  destruct (same_instant_send_overwrites u1 (Some "u2") None "first" "second" 5 registered)
    as (m2 & H1 & H2 & _ & _ & H5);
    [intros H; discriminate H|intros H; discriminate H|intros H; discriminate H|by left|].
  split; [vm_compute; reflexivity|]. exists m2. split; [exact H1|]. split; [exact H2|exact H5].
Defined.

(** *** The message id *)

Lemma colon_free_app s1 s2 :
  colon_free (s1 +:+ s2) = colon_free s1 && colon_free s2.
Proof.
  induction s1 as [|c s1 IH]; [done|].
  change (String c s1 +:+ s2) with (String c (s1 +:+ s2)). cbn [colon_free].
  by rewrite IH, andb_assoc.
Qed.

Lemma colon_free_pretty_N_go x s :
  colon_free s = true → colon_free (pretty_N_go x s) = true.
Proof.
  revert s. induction (N.lt_wf_0 x) as [x _ IH]; intros s Hs.
  destruct (decide (x = 0)%N) as [->|Hx]; [by rewrite pretty_N_go_0|].
  rewrite pretty_N_go_step by lia. apply IH.
  - apply N.div_lt; lia.
  - cbn. rewrite Hs, andb_true_r. unfold pretty_N_char. by repeat case_match.
Qed.

Lemma colon_free_pretty (n : Z) : colon_free (pretty n) = true.
Proof.
  destruct n as [|p|p]; [done| |].
  - unfold pretty, pretty_Z, pretty, pretty_positive, pretty, pretty_N.
    case_decide; [done|]. by apply colon_free_pretty_N_go.
  - unfold pretty, pretty_Z. rewrite colon_free_app. cbn [colon_free Ascii.eqb].
    unfold pretty, pretty_positive, pretty, pretty_N.
    case_decide; [done|]. by apply colon_free_pretty_N_go.
Qed.

(** A string is split at its last colon in one way only. *)
Lemma last_colon_split t1 t2 p1 p2 :
  colon_free p1 = true → colon_free p2 = true →
  t1 +:+ ":" +:+ p1 = t2 +:+ ":" +:+ p2 → t1 = t2 ∧ p1 = p2.
Proof.
  assert (Hcolon : ∀ t p, colon_free (t +:+ String (Ascii.ascii_of_N 58) p) = false).
  { intros t p. rewrite colon_free_app. cbn [colon_free].
    change (Ascii.eqb (Ascii.ascii_of_N 58) (Ascii.ascii_of_N 58)) with true.
    apply andb_false_r. }
  change ":" with (String (Ascii.ascii_of_N 58) "").
  change (String (Ascii.ascii_of_N 58) "" +:+ p1) with (String (Ascii.ascii_of_N 58) p1).
  change (String (Ascii.ascii_of_N 58) "" +:+ p2) with (String (Ascii.ascii_of_N 58) p2).
  intros Hp1 Hp2. revert t2. induction t1 as [|c t1 IH]; intros [|c' t2] Heq.
  - change (String (Ascii.ascii_of_N 58) p1 = String (Ascii.ascii_of_N 58) p2) in Heq.
    by injection Heq.
  - change (String (Ascii.ascii_of_N 58) p1
            = String c' (t2 +:+ String (Ascii.ascii_of_N 58) p2)) in Heq.
    injection Heq as _ Hp. rewrite Hp, Hcolon in Hp1. discriminate.
  - change (String c (t1 +:+ String (Ascii.ascii_of_N 58) p1)
            = String (Ascii.ascii_of_N 58) p2) in Heq.
    injection Heq as _ Hp. rewrite <- Hp, Hcolon in Hp2. discriminate.
  - change (String c (t1 +:+ String (Ascii.ascii_of_N 58) p1)
            = String c' (t2 +:+ String (Ascii.ascii_of_N 58) p2)) in Heq.
    injection Heq as -> Heq. destruct (IH _ Heq) as [-> ->]. done.
Qed.

(** X5. The messages of one sender do not overwrite each other unless they
    go to the same target at the same clock value: two sends of one sender
    that are answered with the same message id have the same recipient or
    group and the same clock value. *)
Theorem message_id_determines_target_and_time (u : AuthUser.t) (r1 r2 : SendBody.t)
    (now1 now2 : Z) (s1 s2 : Store) (m1 m2 : Message.t) :
  (send_message (Some u) (Some r1) now1 s1).2 = json (message_body m1) 200 →
  (send_message (Some u) (Some r2) now2 s2).2 = json (message_body m2) 200 →
  Message.id m1 = Message.id m2 →
  js_or (SendBody.groupId r1) (SendBody.toUserId r1)
  = js_or (SendBody.groupId r2) (SendBody.toUserId r2)
  ∧ now1 = now2 ∧ Message.timestamp m1 = Message.timestamp m2.
Proof.
  assert (Hshape : ∀ r now s m,
    (send_message (Some u) (Some r) now s).2 = json (message_body m) 200 →
    ∃ t, js_or (SendBody.groupId r) (SendBody.toUserId r) = Some t
         ∧ Message.id m = AuthUser.id u +:+ ":" +:+ t +:+ ":" +:+ pretty now
         ∧ Message.timestamp m = now).
  { intros r now s m. unfold send_message.
    destruct (no_user_id (Some u)); [discriminate|]. cbv zeta.
    destruct (_ || _) eqn:Hv; [discriminate|]. cbn [snd]. intros [= <-].
    apply orb_false_iff in Hv as [Hv _]. cbn [Message.id Message.timestamp].
    unfold js_or. destruct (truthy (SendBody.groupId r)) eqn:Hg.
    - destruct (truthy_Some _ Hg) as (t & -> & _). by exists t.
    - cbn [negb] in Hv. rewrite andb_true_r in Hv. apply negb_false_iff in Hv.
      destruct (truthy_Some _ Hv) as (t & -> & _). by exists t. }
  intros H1 H2 Hid.
  destruct (Hshape _ _ _ _ H1) as (t1 & -> & Hid1 & Hts1).
  destruct (Hshape _ _ _ _ H2) as (t2 & -> & Hid2 & Hts2).
  rewrite Hid1, Hid2 in Hid. apply (inj (String.app _)), (inj (String.app _)) in Hid.
  apply last_colon_split in Hid as [-> Hp]; [|apply colon_free_pretty..].
  apply (inj pretty) in Hp. subst. done.
Qed.

Lemma message_id_determines_target_and_time_witness :
  js_or None (Some "u2") = js_or None (Some "u2") ∧ 7 = 7.
Proof.
  destruct (message_id_determines_target_and_time u1
              (SendBody.mk (Some "u2") None (Some "hi")) (SendBody.mk (Some "u2") None (Some "yo"))
              7 7 chatted registered
              (Message.mk "u1:u2:7" "u1" (Some "u2") None "hi" 7)
              (Message.mk "u1:u2:7" "u1" (Some "u2") None "yo" 7))
    as (H1 & H2 & _); [vm_compute; reflexivity|vm_compute; reflexivity|reflexivity|].
  split; [exact H1|exact H2].
Defined.

(** ** Creating a group *)

Lemma listGroups_insert k l s u :
  listGroups (with_user_groups <[k := l]> s) u = if decide (k = u) then l else listGroups s u.
Proof.
  unfold listGroups. cbn [user_groups with_user_groups]. rewrite lookup_insert.
  by case_decide.
Qed.

Lemma add_member_group_listGroups groupId s memberId u :
  listGroups (add_member_group groupId s memberId) u
  = if decide (memberId = u)
    then (if includes (listGroups s u) groupId then listGroups s u
          else push (listGroups s u) groupId)
    else listGroups s u.
Proof.
  unfold add_member_group. fold (listGroups s memberId).
  destruct (decide (memberId = u)) as [->|Hne].
  - destruct (includes (listGroups s u) groupId); cbn [negb]; [done|].
    rewrite listGroups_insert. by case_decide.
  - destruct (includes (listGroups s memberId) groupId); cbn [negb]; [done|].
    rewrite listGroups_insert. by case_decide.
Qed.

Lemma add_member_groups_listGroups (groupId : string) (l : list string) s (u : string) :
  listGroups (foldl (add_member_group groupId) s l) u
  = if bool_decide (u ∈ l)
    then (if includes (listGroups s u) groupId then listGroups s u
          else push (listGroups s u) groupId)
    else listGroups s u.
Proof.
  revert s. induction l as [|x l IH]; intros s; cbn [foldl]; [done|].
  rewrite IH, !add_member_group_listGroups.
  destruct (decide (x = u)) as [->|Hne].
  - rewrite (bool_decide_eq_true_2 (u ∈ u :: l)) by apply list_elem_of_here.
    destruct (includes (listGroups s u) groupId) eqn:Hin.
    + rewrite Hin. by case_bool_decide.
    + assert (includes (push (listGroups s u) groupId) groupId = true) as ->.
      { apply includes_true. unfold push. set_solver. }
      by case_bool_decide.
  - rewrite (bool_decide_ext (u ∈ x :: l) (u ∈ l)); [done|].
    rewrite elem_of_cons. split; [intros [->|?]; done|by right].
Qed.

Lemma add_member_groups_lookup_other (groupId : string) (l : list string) s (u : string) :
  u ∉ l → user_groups (foldl (add_member_group groupId) s l) !! u = user_groups s !! u.
Proof.
  revert s. induction l as [|x l IH]; intros s Hu; cbn [foldl]; [done|].
  apply not_elem_of_cons in Hu as [Hx Hu]. rewrite IH by done.
  unfold add_member_group. destruct (negb _); [|done].
  cbn [user_groups with_user_groups]. by rewrite lookup_insert_ne.
Qed.

(** X6. A created group is entered in the group index of every member, the
    creator included; a member's entry that has the id already is left as
    it is, who is not a member keeps the entry they had, and the user
    records, the conversation index and the messages are not touched. *)
Theorem create_group_indexes_members (s : Store) (u : AuthUser.t) (name : option string)
    (M : list string) (now_id : Z) (rnd : string) (now : Z) :
  AuthUser.id u ≠ "" → truthy name = true →
  let groupId := "group_" +:+ pretty now_id +:+ "_" +:+ rnd in
  let r := create_group (Some u) (Some (CreateGroupBody.mk name (Some M))) now_id rnd now s in
  (∀ memberId, memberId = AuthUser.id u ∨ memberId ∈ M →
     groupId ∈ listGroups r.1 memberId
     ∧ listGroups r.1 memberId
       = (if includes (listGroups s memberId) groupId then listGroups s memberId
          else push (listGroups s memberId) groupId))
  ∧ (∀ x, x ≠ AuthUser.id u → x ∉ M → user_groups r.1 !! x = user_groups s !! x)
  ∧ users r.1 = users s ∧ conversations r.1 = conversations s ∧ messages r.1 = messages s
  ∧ (∀ k, k ≠ groupId → groups r.1 !! k = groups s !! k).
Proof.
  intros Hu Hname. cbv zeta. rewrite (create_group_ok s u name M now_id rnd now Hu Hname).
  cbv zeta. cbn [fst Group.id Group.memberIds].
  set (groupId := "group_" +:+ pretty now_id +:+ "_" +:+ rnd).
  assert (Hmem : ∀ x, x ∈ allMemberIds (AuthUser.id u) M ↔ x = AuthUser.id u ∨ x ∈ M).
  { intros x. unfold allMemberIds. rewrite elem_of_cons, elem_of_filter_bool.
    destruct (decide (x = AuthUser.id u)) as [->|Hne]; [split; intros _; by left|].
    rewrite bool_decide_eq_false_2 by done. cbn [negb]. tauto. }
  split_and!.
  - intros memberId Hm%Hmem. rewrite add_member_groups_listGroups.
    rewrite (bool_decide_eq_true_2 _ Hm).
    change (listGroups (with_groups _ s) memberId) with (listGroups s memberId).
    split; [|done]. destruct (includes (listGroups s memberId) groupId) eqn:Hin.
    + by apply includes_true.
    + unfold push. rewrite elem_of_app, list_elem_of_singleton. by right.
  - intros x Hx HxM. rewrite add_member_groups_lookup_other; [done|].
    rewrite Hmem. tauto.
  - rewrite (foldl_frame _ users); [done|]. intros; apply add_member_group_frame.
  - rewrite (foldl_frame _ conversations); [done|]. intros; apply add_member_group_frame.
  - rewrite (foldl_frame _ messages); [done|]. intros; apply add_member_group_frame.
  - intros k Hk. rewrite (foldl_frame _ groups); [|intros; apply add_member_group_frame].
    cbn [groups with_groups]. by rewrite lookup_insert_ne.
Qed.

Lemma create_group_indexes_members_witness :
  let r := create_group (Some u1) team 1000 "k3x9" 1000 registered in
  "group_1000_k3x9" ∈ listGroups r.1 "u1"
  ∧ "group_1000_k3x9" ∈ listGroups r.1 "u3"
  ∧ user_groups r.1 !! "a0" = None.
Proof.
  destruct (create_group_indexes_members registered u1 (Some "Team") ["u2"; "u3"]
              1000 "k3x9" 1000) as (H1 & H2 & _);
    [intros H; discriminate H|reflexivity|].
  split; [apply H1; by left|].
  split; [apply H1; right; apply list_elem_of_further, list_elem_of_here|].
  rewrite H2; [reflexivity|intros H; discriminate H|].
  rewrite !elem_of_cons, elem_of_nil. intros [H|[H|[]]]; discriminate H.
Defined.

(** X7. What create-group refuses and what it lets through: an
    authenticated request is answered 400 exactly when its parsed body has
    no name, an empty name, or no member array; whatever is not answered
    200 leaves the store as it is; and an empty member array is let
    through and gives a group whose only member is the creator. *)
Theorem create_group_validation (user : option AuthUser.t) (req : option CreateGroupBody.t)
    (now_id : Z) (rnd : string) (now : Z) (s : Store) :
  let r := create_group user req now_id rnd now s in
  (status r.2 = 400
   ↔ no_user_id user = false
     ∧ ∃ b, req = Some b
            ∧ (truthy (CreateGroupBody.name b) = false ∨ CreateGroupBody.memberIds b = None))
  ∧ (status r.2 ≠ 200 → r.1 = s)
  ∧ (∀ b, no_user_id user = false → req = Some b → truthy (CreateGroupBody.name b) = true →
          CreateGroupBody.memberIds b = Some [] →
          ∃ g u, user = Some u ∧ r.2 = json (group_body g) 200
                 ∧ Group.memberIds g = [AuthUser.id u]).
Proof.
  cbv zeta. unfold create_group.
  destruct user as [u|]; [|split_and!; [split; [done|by intros [? _]]|done|done]].
  destruct (no_user_id (Some u)) eqn:Hu;
    [split_and!; [split; [done|by intros [? _]]|done|done]|].
  destruct req as [[name memberIds]|];
    [|split_and!; [split; [done|by intros (_ & ? & ? & _)]|done|done]].
  cbn [CreateGroupBody.name CreateGroupBody.memberIds].
  destruct memberIds as [M|].
  - destruct (truthy name) eqn:Hname; cbn [negb fst snd status].
    + split_and!.
      * split; [done|]. intros (_ & b & [= <-] & [H|H]); cbn in H; congruence.
      * done.
      * intros b _ [= <-]. cbn. intros _ [= ->]. by exists
          (Group.mk ("group_" +:+ pretty now_id +:+ "_" +:+ rnd) (js_str name)
             (allMemberIds (AuthUser.id u) []) (AuthUser.id u) now), u.
    + split_and!; [|done|].
      * split; [|done]. intros _. split; [done|]. eexists. split; [done|]. by left.
      * intros b _ [= <-]. cbn. congruence.
  - cbn [fst snd status]. split_and!; [|done|].
    + split; [|done]. intros _. split; [done|]. eexists. split; [done|]. by right.
    + intros b _ [= <-]. cbn. congruence.
Qed.

(** ** The conversation list *)

Lemma StronglySorted_key_neg {A} (key : A → Z) (l : list A) :
  StronglySorted (key_le (λ a, - key a)) l → StronglySorted (key_ge key) l.
Proof.
  induction 1 as [|x l Hl IH Hx]; constructor; [done|].
  eapply Forall_impl; [exact Hx|]. unfold key_le, key_ge. intros; lia.
Qed.

Lemma sort_descending {A} (cmp : A → A → Z) (key : A → Z) (l : list A) :
  (∀ a b, cmp a b = key b - key a) → StronglySorted (key_ge key) (sort cmp l).
Proof.
  intros Hcmp. apply StronglySorted_key_neg, sort_ascending. intros a b. rewrite Hcmp. lia.
Qed.

(** The message a conversation entry shows is one of the conversation's
    newest. *)
Lemma latest_of_descending (l : list Message.t) :
  match sort descending l with
  | [] => l = []
  | m :: _ => m ∈ l ∧ ∀ m', m' ∈ l → Message.timestamp m' ≤ Message.timestamp m
  end.
Proof.
  pose proof (sort_descending descending Message.timestamp l (λ _ _, eq_refl)) as Hs.
  pose proof (sort_Permutation descending l) as Hp.
  destruct (sort descending l) as [|m l'].
  - by apply Permutation_nil_l in Hp.
  - split; [rewrite <- Hp; apply list_elem_of_here|].
    intros m'. rewrite <- Hp. apply StronglySorted_inv in Hs as [_ Hall].
    rewrite elem_of_cons. intros [->|Hin]; [done|].
    rewrite Forall_forall in Hall. by apply Hall.
Qed.

Lemma get_conversations_ok u s :
  AuthUser.id u ≠ "" →
  get_conversations (Some u) s
  = json (conversations_body (sort by_recency
            (omap (dm_entry (AuthUser.id u) s) (listPeers s (AuthUser.id u))
             ++ omap (group_entry s) (listGroups s (AuthUser.id u)))%list)) 200.
Proof. intros Hu. unfold get_conversations. by rewrite (no_user_id_false u Hu). Qed.

Lemma conversation_list_spec (u : AuthUser.t) (s : Store) :
  AuthUser.id u ≠ "" →
  ∃ l, get_conversations (Some u) s = json (conversations_body l) 200
    ∧ StronglySorted (key_ge ConvEntry.timestamp) l
    ∧ (∀ id name email text ts, ConvEntry.dm id name email text ts ∈ l ↔
         id ∈ listPeers s (AuthUser.id u)
         ∧ (∃ p, users s !! id = Some p ∧ Profile.name p = name ∧ Profile.email p = email)
         ∧ text = latest_text (sort descending
                    (List.filter (between (AuthUser.id u) id) (getByPrefix (messages s))))
         ∧ ts = latest_timestamp (sort descending
                    (List.filter (between (AuthUser.id u) id) (getByPrefix (messages s)))))
    ∧ (∀ id name count text ts, ConvEntry.group id name count text ts ∈ l ↔
         id ∈ listGroups s (AuthUser.id u)
         ∧ (∃ g, groups s !! id = Some g ∧ Group.name g = name
                 ∧ length (Group.memberIds g) = count)
         ∧ text = latest_text (sort descending
                    (List.filter (in_group id) (getByPrefix (messages s))))
         ∧ ts = latest_timestamp (sort descending
                    (List.filter (in_group id) (getByPrefix (messages s)))))
    ∧ (∀ l' : list Message.t,
         match sort descending l' with
         | [] => l' = []
                 ∧ latest_text (sort descending l') = ""
                 ∧ latest_timestamp (sort descending l') = 0
         | m :: _ => m ∈ l' ∧ latest_text (sort descending l') = Message.text m
                     ∧ latest_timestamp (sort descending l') = Message.timestamp m
                     ∧ ∀ m', m' ∈ l' → Message.timestamp m' ≤ Message.timestamp m
         end).
Proof.
  intros Hu. eexists. split; [by apply get_conversations_ok|].
  split; [by apply sort_descending|]. split_and!.
  - intros id name email text ts. rewrite elem_of_sort, elem_of_app, !list_elem_of_omap.
    split.
    + intros [(x & Hx & He)|(g & Hg & He)].
      * unfold dm_entry in He. destruct (users s !! x) as [p|] eqn:Hp; [|done].
        injection He as <- <- <- <- <-. split; [done|]. split; [|done]. by exists p.
      * unfold group_entry in He. by destruct (groups s !! g).
    + intros (Hid & (p & Hp & <- & <-) & -> & ->). left. exists id. split; [done|].
      unfold dm_entry. by rewrite Hp.
  - intros id name count text ts. rewrite elem_of_sort, elem_of_app, !list_elem_of_omap.
    split.
    + intros [(x & Hx & He)|(g & Hg & He)].
      * unfold dm_entry in He. by destruct (users s !! x).
      * unfold group_entry in He. destruct (groups s !! g) as [gd|] eqn:Hgd; [|done].
        injection He as <- <- <- <- <-. split; [done|]. split; [|done]. by exists gd.
    + intros (Hid & (g & Hg & <- & <-) & -> & ->). right. exists id. split; [done|].
      unfold group_entry. by rewrite Hg.
  - intros l'. pose proof (latest_of_descending l') as H.
    destruct (sort descending l') as [|m rest]; [done|]. destruct H as [H1 H2]. done.
Qed.

(** X8. The conversation list of a caller is ordered by timestamp, newest
    first. Its direct entries are the peers of the caller's index entry
    that have a user record, with the name and address of that record; its
    group entries are the groups of the caller's group index that exist,
    with their member count. Each entry shows the text and timestamp of a
    newest message of its conversation, or the empty text and 0 when the
    conversation has no message. *)
Theorem conversation_list_contents (u : AuthUser.t) (s : Store) :
  AuthUser.id u ≠ "" →
  ∃ l, get_conversations (Some u) s = json (conversations_body l) 200
    ∧ StronglySorted (key_ge ConvEntry.timestamp) l
    ∧ (∀ id name email text ts, ConvEntry.dm id name email text ts ∈ l ↔
         id ∈ listPeers s (AuthUser.id u)
         ∧ (∃ p, users s !! id = Some p ∧ Profile.name p = name ∧ Profile.email p = email)
         ∧ text = latest_text (sort descending
                    (List.filter (between (AuthUser.id u) id) (getByPrefix (messages s))))
         ∧ ts = latest_timestamp (sort descending
                    (List.filter (between (AuthUser.id u) id) (getByPrefix (messages s)))))
    ∧ (∀ id name count text ts, ConvEntry.group id name count text ts ∈ l ↔
         id ∈ listGroups s (AuthUser.id u)
         ∧ (∃ g, groups s !! id = Some g ∧ Group.name g = name
                 ∧ length (Group.memberIds g) = count)
         ∧ text = latest_text (sort descending
                    (List.filter (in_group id) (getByPrefix (messages s))))
         ∧ ts = latest_timestamp (sort descending
                    (List.filter (in_group id) (getByPrefix (messages s)))))
    ∧ (∀ l' : list Message.t,
         match sort descending l' with
         | [] => l' = []
                 ∧ latest_text (sort descending l') = ""
                 ∧ latest_timestamp (sort descending l') = 0
         | m :: _ => m ∈ l' ∧ latest_text (sort descending l') = Message.text m
                     ∧ latest_timestamp (sort descending l') = Message.timestamp m
                     ∧ ∀ m', m' ∈ l' → Message.timestamp m' ≤ Message.timestamp m
         end).
Proof. apply conversation_list_spec. Qed.

Lemma conversation_list_contents_witness :
  ∃ l, get_conversations (Some u2) chatted = json (conversations_body l) 200
       ∧ StronglySorted (key_ge ConvEntry.timestamp) l
       ∧ ConvEntry.dm "u3" "Cy" "u3@example.com" "psst" 2004 ∈ l.
Proof.
  destruct (conversation_list_contents u2 chatted) as (l & H1 & H2 & H3 & _);
    [intros H; discriminate H|].
  exists l. split; [exact H1|]. split; [exact H2|].
  apply H3. split; [vm_compute; apply list_elem_of_further, list_elem_of_here|].
  split.
  { exists (Profile.mk "u3" "u3@example.com" "Cy").
    split; [vm_compute; reflexivity|]. split; reflexivity. }
  split; vm_compute; reflexivity.
Defined.

(** X9. After create-group, the conversation list of every member, the
    creator included, has an entry for the group, with the group's name and
    the number of its members; the entry shows the empty text and timestamp
    0 as long as no stored message names the group. *)
Theorem created_group_is_listed (s : Store) (u member : AuthUser.t) (name : option string)
    (M : list string) (now_id : Z) (rnd : string) (now : Z) :
  AuthUser.id u ≠ "" → truthy name = true → AuthUser.id member ≠ "" →
  AuthUser.id member = AuthUser.id u ∨ AuthUser.id member ∈ M →
  let groupId := "group_" +:+ pretty now_id +:+ "_" +:+ rnd in
  let r := create_group (Some u) (Some (CreateGroupBody.mk name (Some M))) now_id rnd now s in
  ∃ l text ts,
    get_conversations (Some member) r.1 = json (conversations_body l) 200
    ∧ ConvEntry.group groupId (js_str name) (length (allMemberIds (AuthUser.id u) M)) text ts ∈ l
    ∧ ((∀ k m, messages s !! k = Some m → Message.groupId m ≠ Some groupId) →
       text = "" ∧ ts = 0).
Proof.
  intros Hu Hname Hmember Hin. cbv zeta.
  set (groupId := "group_" +:+ pretty now_id +:+ "_" +:+ rnd).
  destruct (conversation_list_spec member
    (create_group (Some u) (Some (CreateGroupBody.mk name (Some M))) now_id rnd now s).1 Hmember)
    as (l & Hl & _ & _ & Hgroups & _).
  rewrite (create_group_ok s u name M now_id rnd now Hu Hname) in *.
  cbv zeta in *. cbn [fst Group.id Group.memberIds] in *. fold groupId in Hgroups, Hl |- *.
  set (s' := foldl (add_member_group groupId) _ _) in *.
  exists l,
    (latest_text (sort descending
       (List.filter (in_group groupId) (getByPrefix (messages s'))))),
    (latest_timestamp (sort descending
       (List.filter (in_group groupId) (getByPrefix (messages s'))))).
  split; [exact Hl|].
  assert (Hms : messages s' = messages s).
  { subst s'. rewrite (foldl_frame _ messages); [done|]. intros; apply add_member_group_frame. }
  assert (Hgs : groups s' !! groupId
                = Some (Group.mk groupId (js_str name) (allMemberIds (AuthUser.id u) M)
                          (AuthUser.id u) now)).
  { subst s'. rewrite (foldl_frame _ groups); [|intros; apply add_member_group_frame].
    cbn [groups with_groups]. apply lookup_insert_eq. }
  split.
  - apply Hgroups. split_and!; [|by eexists|reflexivity|reflexivity].
    subst s'. rewrite add_member_groups_listGroups.
    assert (AuthUser.id member ∈ allMemberIds (AuthUser.id u) M) as Hm.
    { unfold allMemberIds. rewrite elem_of_cons, elem_of_filter_bool.
      destruct (decide (AuthUser.id member = AuthUser.id u)) as [?|Hne]; [by left|].
      right. rewrite bool_decide_eq_false_2 by done. destruct Hin; done. }
    rewrite (bool_decide_eq_true_2 _ Hm).
    destruct (includes _ groupId) eqn:Hinc; [by apply includes_true|].
    unfold push. rewrite elem_of_app, list_elem_of_singleton. by right.
  - intros Hnone. rewrite Hms.
    assert (List.filter (in_group groupId) (getByPrefix (messages s)) = []) as ->; [|done].
    destruct (List.filter _ _) as [|m rest] eqn:Hf; [done|].
    assert (m ∈ List.filter (in_group groupId) (getByPrefix (messages s)))
      as [[k Hk]%elem_of_getByPrefix Hg]%elem_of_filter_bool
      by (rewrite Hf; apply list_elem_of_here).
    apply Hnone in Hk. unfold in_group in Hg. by apply bool_decide_eq_true in Hg.
Qed.

Lemma created_group_is_listed_witness :
  let r := create_group (Some u1) team 1000 "k3x9" 1000 registered in
  ∃ l, get_conversations (Some u2) r.1 = json (conversations_body l) 200
       ∧ ConvEntry.group "group_1000_k3x9" "Team" 3 "" 0 ∈ l.
Proof.
  destruct (created_group_is_listed registered u1 u2 (Some "Team") ["u2"; "u3"] 1000 "k3x9" 1000)
    as (l & text & ts & H1 & H2 & H3);
    [intros H; discriminate H|reflexivity|intros H; discriminate H
    |right; apply list_elem_of_here|].
  destruct H3 as [-> ->].
  { intros k m. vm_compute. discriminate. }
  exists l. split; [exact H1|exact H2].
Defined.

(** ** The cascade of a user deletion *)

Lemma filter_ne_id (x : string) (l : list string) :
  x ∉ l → List.filter (λ id, negb (bool_decide (id = x))) l = l.
Proof.
  induction l as [|y l IH]; [done|]. intros [Hy Hl]%not_elem_of_cons. cbn.
  rewrite bool_decide_eq_false_2 by done. cbn. by rewrite IH.
Qed.

Lemma without_member_id userId g : userId ∉ Group.memberIds g → without_member userId g = g.
Proof. intros H. unfold without_member. rewrite filter_ne_id by done. by destruct g. Qed.

Lemma without_member_gone userId g : userId ∉ Group.memberIds (without_member userId g).
Proof.
  unfold without_member. cbn. rewrite elem_of_filter_bool. intros [_ H].
  by rewrite bool_decide_eq_true_2 in H.
Qed.

Lemma remove_from_group_lookup userId s g k :
  groups (remove_from_group userId s g) !! k
  = if decide (Group.id g = k) then
      (if includes (Group.memberIds g) userId then Some (without_member userId g)
       else groups s !! k)
    else groups s !! k.
Proof.
  unfold remove_from_group. destruct (includes (Group.memberIds g) userId).
  - cbn [groups with_groups Group.id]. rewrite lookup_insert. by case_decide.
  - by case_decide.
Qed.

Lemma remove_from_groups_lookup userId (l : list Group.t) s k :
  NoDup (Group.id <$> l) →
  groups (foldl (remove_from_group userId) s l) !! k
  = match List.find (λ g, bool_decide (Group.id g = k)) l with
    | Some g => if includes (Group.memberIds g) userId then Some (without_member userId g)
                else groups s !! k
    | None => groups s !! k
    end.
Proof.
  revert s. induction l as [|g l IH]; intros s Hnd; [done|].
  rewrite fmap_cons in Hnd. apply NoDup_cons in Hnd as [Hg Hnd].
  cbn [foldl List.find]. rewrite IH by done. rewrite remove_from_group_lookup.
  destruct (decide (Group.id g = k)) as [<-|Hne].
  - rewrite bool_decide_eq_true_2 by done.
    destruct (List.find _ l) as [g'|] eqn:Hfind; [|done].
    apply find_some in Hfind as [Hin Hid]. apply bool_decide_eq_true in Hid.
    destruct Hg. rewrite <- Hid. apply list_elem_of_fmap. exists g'.
    split; [done|]. by apply list_elem_of_In.
  - rewrite bool_decide_eq_false_2 by done. done.
Qed.

(** The scan of a keyspace whose values carry their key has no two values
    of the same key. *)
Lemma getByPrefix_keys {V} (key : V → string) (m : gmap string V) :
  (∀ k v, m !! k = Some v → key v = k) →
  key <$> getByPrefix m = (map_to_list m).*1.
Proof.
  intros Hkey. unfold getByPrefix. rewrite <- list_fmap_compose.
  apply list_fmap_ext. intros i [k v] Hkv%list_elem_of_lookup_2%elem_of_map_to_list. cbn.
  by apply Hkey.
Qed.

Lemma delete_user_data_frame userId s :
  users (delete_user_data userId s) = delete userId (users s)
  ∧ conversations (delete_user_data userId s) = delete userId (conversations s)
  ∧ user_groups (delete_user_data userId s) = delete userId (user_groups s).
Proof.
  unfold delete_user_data.
  match goal with |- context [foldl (delete_user_message userId) ?s0 ?l] =>
    destruct (delete_loop_frame (from_or_to userId) (delete_user_message userId)
                (λ _ _, eq_refl) l s0) as (-> & -> & -> & _) end.
  rewrite (foldl_frame _ users), (foldl_frame _ conversations), (foldl_frame _ user_groups);
    try (intros; apply remove_from_group_frame). done.
Qed.

Lemma delete_user_data_groups userId s :
  wf_store s → groups (delete_user_data userId s) = without_member userId <$> groups s.
Proof.
  intros Hwf. unfold delete_user_data.
  match goal with |- context [foldl (delete_user_message userId) ?s0 ?l] =>
    destruct (delete_loop_frame (from_or_to userId) (delete_user_message userId)
                (λ _ _, eq_refl) l s0) as (_ & _ & _ & ->) end.
  apply map_eq. intros k. cbn [groups with_user_groups with_conversations with_users].
  rewrite remove_from_groups_lookup.
  - cbn [groups with_user_groups with_conversations with_users]. rewrite lookup_fmap.
    destruct (List.find _ _) as [g|] eqn:Hfind.
    + apply find_some in Hfind as [[k' Hk']%list_elem_of_In%elem_of_getByPrefix Hid].
      apply bool_decide_eq_true in Hid.
      destruct (wf_group_key _ Hwf _ _ Hk') as [Hkey _]. rewrite Hid in Hkey. subst k'.
      rewrite Hk'. cbn. destruct (includes _ _) eqn:Hinc; [done|].
      apply includes_false in Hinc. by rewrite without_member_id.
    + destruct (groups s !! k) as [g|] eqn:Hg; [|done]. exfalso.
      destruct (wf_group_key _ Hwf _ _ Hg) as [Hkey _].
      assert (bool_decide (Group.id g = k) = false) as Hf.
      { apply (find_none _ _ Hfind g). apply list_elem_of_In, elem_of_getByPrefix. eauto. }
      by apply bool_decide_eq_false in Hf.
  - cbn [groups with_user_groups with_conversations with_users].
    rewrite (getByPrefix_keys Group.id).
    + apply NoDup_fst_map_to_list.
    + intros k' g Hg. by destruct (wf_group_key _ Hwf _ _ Hg).
Qed.

(** X10. What the user deletion does besides deleting messages: the user's
    record, conversation index entry and group index entry are deleted;
    every group stays, with the user filtered out of its member list and
    nothing else changed, also when this leaves it without members or
    without its creator; and no other user's record or index entry is
    touched, so the conversation index entries of the user's peers keep
    the deleted id. *)
Theorem user_deletion_cascade (s : Store) (userId : string) :
  wf_store s →
  let s' := delete_user_data userId s in
  users s' = delete userId (users s)
  ∧ conversations s' = delete userId (conversations s)
  ∧ user_groups s' = delete userId (user_groups s)
  ∧ groups s' = without_member userId <$> groups s
  ∧ (∀ k g, groups s' !! k = Some g → userId ∉ Group.memberIds g)
  ∧ (∀ k g, groups s !! k = Some g →
       ∃ g', groups s' !! k = Some g'
             ∧ Group.memberIds g'
               = List.filter (λ id, negb (bool_decide (id = userId))) (Group.memberIds g)
             ∧ Group.name g' = Group.name g ∧ Group.createdBy g' = Group.createdBy g)
  ∧ (∀ x, x ≠ userId → listPeers s' x = listPeers s x).
Proof.
  intros Hwf. cbv zeta. destruct (delete_user_data_frame userId s) as (Hu & Hc & Hug).
  pose proof (delete_user_data_groups userId s Hwf) as Hg.
  split_and!; try done.
  - intros k g. rewrite Hg, lookup_fmap. destruct (groups s !! k); [|done].
    intros [= <-]. apply without_member_gone.
  - intros k g Hk. rewrite Hg, lookup_fmap, Hk. by eexists.
  - intros x Hx. unfold listPeers. by rewrite Hc, lookup_delete_ne.
Qed.

Lemma user_deletion_cascade_witness :
  let s' := delete_user_data "u1" chatted in
  users s' !! "u1" = None
  ∧ (∀ k g, groups s' !! k = Some g → "u1" ∉ Group.memberIds g)
  ∧ listPeers s' "u2" = ["u1"; "u3"].
Proof.
  destruct (user_deletion_cascade chatted "u1" (reachable_wf _ chatted_reachable))
    as (H1 & _ & _ & _ & H5 & _ & H7).
  cbv zeta. split; [rewrite H1; apply lookup_delete_eq|]. split; [exact H5|].
  rewrite H7; [vm_compute; reflexivity|intros H; discriminate H].
Defined.

(** X11. A deleted user is not shown any more: for every store in which
    [userId] has no user record, as after that user's deletion, no caller's
    conversation list has a direct entry for [userId], even when the
    caller's index entry still names it, and the user lookup answers 404. *)
Theorem missing_user_is_not_listed (s : Store) (caller : AuthUser.t) (userId : string) :
  AuthUser.id caller ≠ "" → users s !! userId = None →
  (∃ l, get_conversations (Some caller) s = json (conversations_body l) 200
        ∧ ∀ name email text ts, ConvEntry.dm userId name email text ts ∉ l)
  ∧ get_user (Some caller) userId s = json (error_body "User not found") 404.
Proof.
  intros Hc Hnone. split.
  - destruct (conversation_list_spec caller s Hc) as (l & Hl & _ & Hdm & _).
    exists l. split; [done|]. intros name email text ts [_ [(p & Hp & _) _]]%Hdm. congruence.
  - unfold get_user. by rewrite (no_user_id_false caller Hc), Hnone.
Qed.

Lemma missing_user_is_not_listed_witness :
  "u1" ∈ listPeers (delete_user_data "u1" chatted) "u2"
  ∧ get_user (Some u2) "u1" (delete_user_data "u1" chatted)
    = json (error_body "User not found") 404.
Proof.
  destruct (missing_user_is_not_listed (delete_user_data "u1" chatted) u2 "u1") as [_ H];
    [intros H; discriminate H|vm_compute; reflexivity|].
  split; [vm_compute; apply list_elem_of_here|exact H].
Defined.

(** ** The writes of a group deletion *)


(** X12. Besides the group's messages, an administrator's group deletion
    writes the group record and the group index entries of the group's
    members only: user records, conversation index and the other groups
    are as before; a member's entry loses the group's id and keeps every
    other id; a member without an entry gets none; who is not a member
    keeps the entry they had. *)
Theorem group_deletion_frame (s : Store) (a : AuthUser.t) (groupId : string) (g : Group.t) :
  not_admin (Some a) = false → groups s !! groupId = Some g →
  let s' := (admin_delete_group (Some a) groupId s).1 in
  users s' = users s ∧ conversations s' = conversations s
  ∧ groups s' = delete groupId (groups s)
  ∧ (∀ u, u ∈ Group.memberIds g →
       user_groups s' !! u
       = List.filter (λ id, negb (bool_decide (id = groupId))) <$> user_groups s !! u)
  ∧ (∀ u, u ∉ Group.memberIds g → user_groups s' !! u = user_groups s !! u)
  ∧ (∀ u x, x ≠ groupId → x ∈ listGroups s' u ↔ x ∈ listGroups s u).
Proof.
  intros Ha Hg. cbv zeta. rewrite (admin_delete_group_ok s a groupId g Ha Hg).
  cbv zeta. cbn [fst].
  set (s1 := foldl (remove_member_group groupId) (with_groups (delete groupId) s)
               (Group.memberIds g)).
  destruct (delete_loop_frame (in_group groupId) (delete_group_message groupId)
              (λ _ _, eq_refl) (getByPrefix (messages s1)) s1) as (-> & -> & Hug & ->).
  assert (Hlook : ∀ u, user_groups s1 !! u
            = if bool_decide (u ∈ Group.memberIds g)
              then List.filter (λ id, negb (bool_decide (id = groupId))) <$> user_groups s !! u
              else user_groups s !! u).
  { intros u. subst s1. by rewrite remove_member_groups_lookup. }
  split_and!.
  - subst s1. rewrite (foldl_frame _ users); [done|]. intros; apply remove_member_group_frame.
  - subst s1. rewrite (foldl_frame _ conversations); [done|].
    intros; apply remove_member_group_frame.
  - subst s1. rewrite (foldl_frame _ groups); [done|]. intros; apply remove_member_group_frame.
  - intros u Hu. by rewrite Hug, Hlook, (bool_decide_eq_true_2 _ Hu).
  - intros u Hu. by rewrite Hug, Hlook, (bool_decide_eq_false_2 _ Hu).
  - intros u x Hx. unfold listGroups. rewrite Hug, Hlook. case_bool_decide; [|done].
    destruct (user_groups s !! u) as [l|]; cbn; [|done].
    rewrite elem_of_filter_bool, (bool_decide_eq_false_2 _ Hx). cbn. tauto.
Qed.

Lemma group_deletion_frame_witness :
  let s' := (admin_delete_group (Some admin) "group_1000_k3x9" chatted).1 in
  users s' = users chatted ∧ conversations s' = conversations chatted
  ∧ user_groups s' !! "a0" = None.
Proof.
  destruct (group_deletion_frame chatted admin "group_1000_k3x9"
              (Group.mk "group_1000_k3x9" "Team" ["u1"; "u2"; "u3"] "u1" 1000))
    as (H1 & H2 & _ & _ & H5 & _); [vm_compute; reflexivity|vm_compute; reflexivity|].
  split; [exact H1|]. split; [exact H2|].
  rewrite H5; [vm_compute; reflexivity|]. cbn [Group.memberIds].
  rewrite !elem_of_cons, elem_of_nil. intros [H|[H|[H|[]]]]; discriminate H.
Defined.

(** ** Deleting what is not there *)



(** Closes the cases of a handler's guards once the handler has been
    evaluated on each. *)
Ltac guard_cases :=
  repeat match goal with
         | |- _ ∧ _ => split
         | |- _ ↔ _ => split
         | |- ∀ _, _ => intro
         | H : _ ∧ _ |- _ => destruct H
         | H : ∃ _, _ |- _ => destruct H
         | H : _ ∨ _ |- _ => destruct H
         end;
  simplify_eq/=; try done; try congruence; eauto 6.

(** ** The self-service account deletion *)

(** X14. The account deletion goes through exactly when the caller is
    authenticated, the body parses and has a non-empty password, the
    sign-in with it is not refused and the identity provider deletes the
    account; then it makes the cascade for the caller's id. It asks neither
    for a user record nor whether the caller is an administrator. Every
    other request is answered 400, 401 or 500 and writes nothing. *)
Theorem account_deletion_guards (user : option AuthUser.t) (req : option (option string))
    (signInError : bool) (deleteError : option string) (s : Store) :
  let r := delete_account user req signInError deleteError s in
  (status r.2 = 200
   ↔ no_user_id user = false ∧ (∃ password, req = Some password ∧ truthy password = true)
     ∧ signInError = false ∧ deleteError = None)
  ∧ (status r.2 = 200 → ∃ u, user = Some u ∧ r.1 = delete_user_data (AuthUser.id u) s)
  ∧ (status r.2 ≠ 200 →
       r.1 = s ∧ (status r.2 = 400 ∨ status r.2 = 401 ∨ status r.2 = 500))
  ∧ (no_user_id user = false → req = Some None ∨ req = Some (Some "") →
       r.2 = json (error_body "Password is required to delete account") 400)
  ∧ (no_user_id user = false → (∃ password, req = Some password ∧ truthy password = true) →
       signInError = true → r.2 = json (error_body "Password is incorrect") 400).
Proof.
  cbv zeta. unfold delete_account.
  destruct user as [u|]; [destruct (no_user_id (Some u)) eqn:Hu|];
    [| destruct req as [password|]; [destruct (truthy password) eqn:Hp|] |];
    destruct signInError, deleteError; cbn [negb fst snd status];
    guard_cases.
Qed.

(** ** Signing up and looking users up *)

(** X15. A sign-up the identity provider accepts stores the profile with
    the new id, the address and the name, and writes nothing else; the
    user lookup for that id then answers that profile. A sign-up the
    provider refuses is answered 400 with the provider's message, and a
    parsed body that lacks the address, the password or the name is
    answered 400 before the provider is asked; neither writes. *)
Theorem signup_then_lookup (s : Store) (email password name : option string)
    (created : string + string) (caller : AuthUser.t) :
  let r := signup (Some (SignupBody.mk email password name)) created s in
  (truthy email = true → truthy password = true → truthy name = true →
   ∀ id, created = inr id →
     r.2 = json (user_body (Profile.mk id (js_str email) (js_str name))) 200
     ∧ users r.1 = <[id := Profile.mk id (js_str email) (js_str name)]> (users s)
     ∧ (AuthUser.id caller ≠ "" →
        get_user (Some caller) id r.1
        = json (user_body (Profile.mk id (js_str email) (js_str name))) 200))
  ∧ (truthy email = true → truthy password = true → truthy name = true →
     ∀ message, created = inl message → r = (s, json (error_body message) 400))
  ∧ (truthy email = false ∨ truthy password = false ∨ truthy name = false →
     r = (s, json (error_body "Email, password, and name are required") 400))
  ∧ conversations r.1 = conversations s ∧ user_groups r.1 = user_groups s
  ∧ groups r.1 = groups s ∧ messages r.1 = messages s.
Proof.
  cbv zeta. unfold signup. cbn [SignupBody.email SignupBody.password SignupBody.name].
  destruct (truthy email), (truthy password), (truthy name), created as [msg|id];
    cbn [negb orb fst snd]; try by guard_cases.
  split_and!; try done; [|by intros [?|[?|?]]].
  intros _ _ _ id' Hid. injection Hid as <-. split_and!; [done|done|].
  intros Hc. unfold get_user. rewrite (no_user_id_false caller Hc).
  cbn [users with_users]. by rewrite lookup_insert_eq.
Qed.

Lemma map_profile_id (l : list Profile.t) :
  map (λ u', Profile.mk (Profile.id u') (Profile.email u') (Profile.name u')) l = l.
Proof. induction l as [|[] l IH]; [done|]. cbn. by rewrite IH. Qed.

(** X16. The user list holds every stored profile but the caller's own: a
    profile is listed exactly when it is stored and its id is not the
    caller's, administrators and users the caller has never written to
    included. *)
Theorem user_list_excludes_caller (caller : AuthUser.t) (s : Store) :
  AuthUser.id caller ≠ "" →
  ∃ l, get_users (Some caller) s = replied l
       ∧ l = List.filter (λ u', negb (bool_decide (Profile.id u' = AuthUser.id caller)))
               (getByPrefix (users s))
       ∧ (∀ p, p ∈ l ↔ (∃ k, users s !! k = Some p) ∧ Profile.id p ≠ AuthUser.id caller)
       ∧ (length l ≤ size (users s))%nat.
Proof.
  intros Hc. unfold get_users. rewrite (no_user_id_false caller Hc), map_profile_id.
  eexists. split; [reflexivity|]. split; [reflexivity|]. split.
  - intros p. rewrite elem_of_filter_bool, elem_of_getByPrefix, negb_true_iff.
    by rewrite bool_decide_eq_false.
  - etrans; [apply List.filter_length_le|].
    unfold getByPrefix. by rewrite length_fmap, length_map_to_list.
Qed.

Lemma user_list_excludes_caller_witness :
  ∃ l, get_users (Some u1) chatted = replied l
       ∧ Profile.mk "u2" "u2@example.com" "Bo" ∈ l
       ∧ Profile.mk "u1" "u1@example.com" "Al" ∉ l.
Proof.
  destruct (user_list_excludes_caller u1 chatted) as (l & H1 & _ & H3 & _);
    [intros H; discriminate H|].
  exists l. split; [exact H1|]. split.
  - apply H3. split; [exists "u2"; vm_compute; reflexivity|intros H; discriminate H].
  - intros [_ H]%H3. by apply H.
Defined.

(** ** Every stored message has a target *)

Lemma truthy_js_or_None x : truthy (js_or x None) = truthy x.
Proof. unfold js_or. by destruct (truthy x) eqn:Hx. Qed.

Lemma targets_ok_subset s s' :
  (∀ k m, messages s' !! k = Some m → messages s !! k = Some m) →
  targets_ok s → targets_ok s'.
Proof. intros Hsub Hs k m Hk. eapply Hs, Hsub, Hk. Qed.

Lemma delete_loop_subset (P : Message.t → bool) f l s k m :
  (∀ s m, f s m = if P m then with_messages (delete (Message.id m)) s else s) →
  messages (foldl f s l) !! k = Some m → messages s !! k = Some m.
Proof.
  intros Hf. rewrite (delete_loop_lookup P f Hf). by destruct (existsb _ l).
Qed.

Lemma delete_user_data_targets userId s : targets_ok s → targets_ok (delete_user_data userId s).
Proof.
  apply targets_ok_subset. intros k m. unfold delete_user_data. intros Hk.
  apply (delete_loop_subset (from_or_to userId) (delete_user_message userId)) in Hk; [|done].
  rewrite (foldl_frame _ messages) in Hk; [done|]. intros; apply remove_from_group_frame.
Qed.

Lemma step_targets_ok s s' : step s s' → targets_ok s → targets_ok s'.
Proof.
  destruct 1 as [req created s|user req now_id rnd now s|user req now s
                 |user userId deleteError s|user req signInError deleteError s
                 |user groupId s]; intros Hs.
  - unfold signup. by repeat case_match.
  - unfold create_group. repeat case_match; try done. cbn [fst].
    intros k m. rewrite (foldl_frame _ messages); [apply Hs|].
    intros; apply add_member_group_frame.
  - destruct (send_message_writes user req now s) as (_ & _ & _ & Hrefused & Hsent).
    destruct (decide (status (send_message user req now s).2 = 200)) as [H200|Hne];
      [|by rewrite Hrefused].
    assert (∃ m, (send_message user req now s).2 = json (message_body m) 200
                 ∧ (truthy (Message.toUserId m) = true ∨ truthy (Message.groupId m) = true))
      as (m & Hm & Hok).
    { revert H200. unfold send_message. destruct user as [u|]; [|discriminate].
      destruct (no_user_id (Some u)); [discriminate|]. destruct req as [r|]; [|discriminate].
      cbv zeta. destruct (_ || _) eqn:Hv; [discriminate|]. intros _. cbn [snd].
      eexists. split; [reflexivity|]. cbn [Message.toUserId Message.groupId].
      rewrite !truthy_js_or_None. apply orb_false_iff in Hv as [Hv _].
      apply andb_false_iff in Hv as [Hv|Hv]; apply negb_false_iff in Hv; tauto. }
    destruct (Hsent m Hm) as (Hms & _). intros k m'. rewrite Hms, lookup_insert_Some.
    intros [[_ <-]|[_ Hk]]; [done|by eapply Hs].
  - unfold admin_delete_user. repeat case_match; try done. by apply delete_user_data_targets.
  - unfold delete_account. repeat case_match; try done. by apply delete_user_data_targets.
  - unfold admin_delete_group. repeat case_match; try done. cbn [fst].
    revert Hs. apply targets_ok_subset. intros k m Hk.
    apply (delete_loop_subset (in_group groupId) (delete_group_message groupId)) in Hk; [|done].
    rewrite (foldl_frame _ messages) in Hk; [done|]. intros; apply remove_member_group_frame.
Qed.

Lemma reachable_targets_ok s : reachable s → targets_ok s.
Proof.
  unfold reachable. intros H.
  eapply (rtc_ind_r (λ s', targets_ok s') empty_store); [|intros y z _ Hstep IH|exact H].
  - intros k m. cbn. by rewrite lookup_empty.
  - by eapply step_targets_ok.
Qed.

Lemma length_getByPrefix {V} (m : gmap string V) : length (getByPrefix m) = size m.
Proof. unfold getByPrefix. by rewrite length_fmap, length_map_to_list. Qed.

Lemma filter_cover_length {A} (P Q : A → bool) (l : list A) :
  (∀ x, x ∈ l → P x = true ∨ Q x = true) →
  (length l ≤ length (List.filter P l) + length (List.filter Q l))%nat.
Proof.
  induction l as [|x l IH]; intros Hl; [done|]. cbn.
  assert (length l ≤ length (List.filter P l) + length (List.filter Q l))%nat as IH'
    by (apply IH; intros y Hy; apply Hl; by right).
  destruct (Hl x (list_elem_of_here _ _)) as [-> | ->]; destruct (P x), (Q x); cbn; lia.
Qed.

(** ** Statistics *)

(** X17. The administrator's statistics count the stored records: users,
    messages and groups are the sizes of their keyspaces; the direct and the
    group count are each at most the message count; and in every store the
    handlers can build, each message is counted as direct or as group, so
    the two counts add up to at least the message count (a message sent
    with both a recipient and a group is counted twice). *)
Theorem admin_stats_counts (s : Store) (a : AuthUser.t) :
  not_admin (Some a) = false →
  ∃ st, admin_stats (Some a) s = replied st
        ∧ Stats.totalUsers st = size (users s)
        ∧ Stats.totalMessages st = size (messages s)
        ∧ Stats.totalGroups st = size (groups s)
        ∧ (Stats.directMessages st ≤ Stats.totalMessages st)%nat
        ∧ (Stats.groupMessages st ≤ Stats.totalMessages st)%nat
        ∧ (reachable s →
           (Stats.totalMessages st ≤ Stats.directMessages st + Stats.groupMessages st)%nat).
Proof.
  intros Ha. unfold admin_stats. rewrite Ha. eexists. split; [reflexivity|].
  cbn [Stats.totalUsers Stats.totalMessages Stats.totalGroups Stats.directMessages
       Stats.groupMessages].
  rewrite !length_getByPrefix. split_and!; try done.
  - rewrite <- length_getByPrefix. apply List.filter_length_le.
  - rewrite <- length_getByPrefix. apply List.filter_length_le.
  - intros Hr%reachable_targets_ok. rewrite <- length_getByPrefix.
    apply filter_cover_length. intros m [k Hk]%elem_of_getByPrefix. by eapply Hr.
Qed.

Lemma admin_stats_counts_witness :
  ∃ st, admin_stats (Some admin) chatted = replied st
        ∧ Stats.totalMessages st = size (messages chatted)
        ∧ (Stats.totalMessages st ≤ Stats.directMessages st + Stats.groupMessages st)%nat.
Proof.
  destruct (admin_stats_counts chatted admin) as (st & H1 & _ & H3 & _ & _ & _ & H7);
    [vm_compute; reflexivity|].
  exists st. split; [exact H1|]. split; [exact H3|]. apply H7, chatted_reachable.
Defined.

(** ** Members have their groups in their index *)

Lemma remove_member_groups_keep (groupId : string) (l : list string) s (u x : string) :
  x ≠ groupId →
  x ∈ listGroups (foldl (remove_member_group groupId) s l) u ↔ x ∈ listGroups s u.
Proof.
  intros Hx. unfold listGroups. rewrite remove_member_groups_lookup. case_bool_decide; [|done].
  destruct (user_groups s !! u) as [gs|]; cbn; [|done].
  rewrite elem_of_filter_bool, (bool_decide_eq_false_2 _ Hx). cbn. tauto.
Qed.

Lemma create_group_members_indexed user req now_id rnd now s :
  members_indexed s → members_indexed (create_group user req now_id rnd now s).1.
Proof.
  intros Hs. unfold create_group. repeat case_match; try done. cbn [fst].
  match goal with |- members_indexed (foldl (add_member_group ?gid) ?s0 ?l) =>
    set (groupId := gid); set (members := l) end.
  intros k g u. rewrite (foldl_frame _ groups); [|intros; apply add_member_group_frame].
  cbn [groups with_groups]. rewrite add_member_groups_listGroups.
  change (listGroups (with_groups _ s) u) with (listGroups s u).
  rewrite lookup_insert_Some. intros [[<- <-]|[Hne Hk]] Hu.
  - cbn [Group.memberIds] in Hu. fold members in Hu. rewrite (bool_decide_eq_true_2 _ Hu).
    destruct (includes (listGroups s u) groupId) eqn:Hin; [by apply includes_true|].
    unfold push. rewrite elem_of_app, list_elem_of_singleton. by right.
  - pose proof (Hs k g u Hk Hu) as Hin. case_bool_decide; [|done].
    destruct (includes (listGroups s u) groupId); [done|].
    unfold push. rewrite elem_of_app. by left.
Qed.

Lemma delete_user_data_members_indexed userId s :
  wf_store s → members_indexed s → members_indexed (delete_user_data userId s).
Proof.
  intros Hwf Hs k g' u. rewrite (delete_user_data_groups userId s Hwf), lookup_fmap.
  destruct (groups s !! k) as [g|] eqn:Hg; [|done]. intros [= <-].
  unfold without_member. cbn [Group.memberIds]. rewrite elem_of_filter_bool.
  intros [Hu Hne]. apply negb_true_iff, bool_decide_eq_false in Hne.
  unfold listGroups. destruct (delete_user_data_frame userId s) as (_ & _ & ->).
  rewrite lookup_delete_ne by done. by apply (Hs k g u).
Qed.

Lemma admin_delete_group_members_indexed user groupId s :
  members_indexed s → members_indexed (admin_delete_group user groupId s).1.
Proof.
  intros Hs. unfold admin_delete_group.
  destruct user as [a|]; [|done]. destruct (not_admin (Some a)); [done|].
  destruct (groups s !! groupId) as [gd|] eqn:Hgd; [|done]. cbn [fst].
  match goal with |- members_indexed (foldl _ ?s1 ?l) =>
    destruct (delete_loop_frame (in_group groupId) (delete_group_message groupId)
                (λ _ _, eq_refl) l s1) as (_ & _ & Hug & Hgr) end.
  intros k g u. rewrite Hgr. unfold listGroups at 1. rewrite Hug.
  fold (listGroups (foldl (remove_member_group groupId) (with_groups (delete groupId) s)
                      (Group.memberIds gd)) u).
  rewrite (foldl_frame _ groups); [|intros; apply remove_member_group_frame].
  cbn [groups with_groups]. rewrite lookup_delete_Some. intros [Hne Hk] Hu.
  apply remove_member_groups_keep; [done|]. by apply (Hs k g u).
Qed.

Lemma step_members_indexed s s' :
  step s s' → wf_store s → members_indexed s → members_indexed s'.
Proof.
  destruct 1 as [req created s|user req now_id rnd now s|user req now s
                 |user userId deleteError s|user req signInError deleteError s
                 |user groupId s]; intros Hwf Hs.
  - unfold signup. by repeat case_match.
  - by apply create_group_members_indexed.
  - destruct (send_message_writes user req now s) as (_ & Hug & Hgr & _).
    intros k g u. unfold listGroups. rewrite Hug, Hgr. apply Hs.
  - unfold admin_delete_user. repeat case_match; try done.
    by apply delete_user_data_members_indexed.
  - unfold delete_account. repeat case_match; try done.
    by apply delete_user_data_members_indexed.
  - by apply admin_delete_group_members_indexed.
Qed.

Lemma reachable_members_indexed s : reachable s → members_indexed s.
Proof.
  unfold reachable. intros H.
  eapply (rtc_ind_r (λ s', members_indexed s') empty_store); [|intros y z Hy Hstep IH|exact H].
  - intros k g u. cbn. by rewrite lookup_empty.
  - eapply step_members_indexed; [done| |done]. by apply reachable_wf.
Qed.

(** X18. In every store the handlers can build, each member of each stored
    group has the group's id in their group index entry; so the
    conversation list of every member of a group has an entry for the group,
    with its name and its current number of members. *)
Theorem members_see_their_groups (s : Store) :
  reachable s →
  members_indexed s
  ∧ (∀ groupId g (u : AuthUser.t),
       groups s !! groupId = Some g → AuthUser.id u ∈ Group.memberIds g →
       AuthUser.id u ≠ "" →
       ∃ l text ts,
         get_conversations (Some u) s = json (conversations_body l) 200
         ∧ ConvEntry.group groupId (Group.name g) (length (Group.memberIds g)) text ts ∈ l).
Proof.
  intros Hr. pose proof (reachable_members_indexed s Hr) as Hs. split; [done|].
  intros groupId g u Hg Hu Hid.
  destruct (conversation_list_spec u s Hid) as (l & Hl & _ & _ & Hgroups & _).
  exists l. do 2 eexists. split; [exact Hl|]. apply Hgroups.
  split_and!; [by eapply Hs|by eexists|reflexivity|reflexivity].
Qed.

Lemma members_see_their_groups_witness :
  ∃ l text ts,
    get_conversations (Some u3) chatted = json (conversations_body l) 200
    ∧ ConvEntry.group "group_1000_k3x9" "Team" 3 text ts ∈ l.
Proof.
  destruct (members_see_their_groups chatted chatted_reachable) as [_ H].
  apply (H "group_1000_k3x9" (Group.mk "group_1000_k3x9" "Team" ["u1"; "u2"; "u3"] "u1" 1000) u3).
  - vm_compute. reflexivity.
  - cbn. apply list_elem_of_further, list_elem_of_further, list_elem_of_here.
  - intros E; discriminate E.
Defined.

(** ** The administrator's lists *)

(** X19. The group audit list has one row per stored group, with the
    group's id, name, member count and creation time; the row's message
    count is the number of messages the message listing returns for the
    group's id; and the creator is shown by the name of its user record,
    or as "Unknown" when that record is gone or its name is empty. *)
Theorem admin_group_rows (s : Store) (a : AuthUser.t) :
  not_admin (Some a) = false →
  ∃ rows, admin_groups (Some a) s = replied rows
    ∧ length rows = size (groups s)
    ∧ (∀ row, row ∈ rows ↔ ∃ k g, groups s !! k = Some g ∧ row = group_row s g)
    ∧ (∀ g, GroupRow.id (group_row s g) = Group.id g
            ∧ GroupRow.name (group_row s g) = Group.name g
            ∧ GroupRow.memberCount (group_row s g) = length (Group.memberIds g)
            ∧ GroupRow.createdAt (group_row s g) = Group.createdAt g
            ∧ GroupRow.messageCount (group_row s g)
              = length (listForGroup (Group.id g) (getByPrefix (messages s))))
    ∧ (∀ g (caller : AuthUser.t), AuthUser.id caller ≠ "" →
         startsWith (Group.id g) "group_" = true →
         ∃ l, get_messages (Some caller) (Group.id g) s = json (messages_body l) 200
              ∧ length l = GroupRow.messageCount (group_row s g))
    ∧ (∀ g, users s !! Group.createdBy g = None →
            GroupRow.createdBy (group_row s g) = "Unknown")
    ∧ (∀ g p, users s !! Group.createdBy g = Some p →
              GroupRow.createdBy (group_row s g)
              = if String.eqb (Profile.name p) "" then "Unknown" else Profile.name p).
Proof.
  intros Ha. unfold admin_groups. rewrite Ha. eexists. split; [reflexivity|].
  assert (Hcount : ∀ g, GroupRow.messageCount (group_row s g)
            = length (listForGroup (Group.id g) (getByPrefix (messages s)))).
  { intros g. unfold group_row, listForGroup. cbn [GroupRow.messageCount].
    by rewrite (Permutation_length (sort_Permutation ascending _)). }
  split_and!.
  - by rewrite length_map, length_getByPrefix.
  - intros row. rewrite list_elem_of_In, in_map_iff. split.
    + intros (g & <- & [k Hk]%list_elem_of_In%elem_of_getByPrefix). eauto.
    + intros (k & g & Hk & ->). exists g. split; [done|].
      apply list_elem_of_In, elem_of_getByPrefix. eauto.
  - intros g. split_and!; try done.
  - intros g caller Hc Hp. rewrite (get_messages_group s caller _ Hc Hp).
    eexists. split; [reflexivity|]. by rewrite Hcount.
  - intros g Hnone. unfold group_row, creator_name. cbn [GroupRow.createdBy].
    by rewrite Hnone.
  - intros g p Hp. unfold group_row, creator_name. cbn [GroupRow.createdBy].
    rewrite Hp. cbn. unfold js_or. cbn. by destruct (String.eqb (Profile.name p) "").
Qed.

Lemma admin_group_rows_witness :
  ∃ rows, admin_groups (Some admin) (delete_user_data "u1" chatted) = replied rows
          ∧ length rows = size (groups (delete_user_data "u1" chatted))
          ∧ rows = [GroupRow.mk "group_1000_k3x9" "Team" 2 "Unknown" 1000 1].
Proof.
  destruct (admin_group_rows (delete_user_data "u1" chatted) admin) as (rows & H1 & H2 & _);
    [vm_compute; reflexivity|].
  exists rows. split; [exact H1|]. split; [exact H2|].
  assert (admin_groups (Some admin) (delete_user_data "u1" chatted)
          = replied [GroupRow.mk "group_1000_k3x9" "Team" 2 "Unknown" 1000 1]) as H
    by (vm_compute; reflexivity).
  rewrite H in H1. by injection H1.
Defined.

(** X20. The user audit list has one row per stored profile, in the order
    of the scan, with the profile's id, name and address; the row is
    flagged administrator exactly when the address is on the allow-list;
    it carries the dates of the first record of the provider's list that
    has the profile's id, and no dates when the provider gives no list or
    the list has no such record. *)
Theorem admin_user_rows (s : Store) (a : AuthUser.t) (authUsers : option (list AuthRecord.t)) :
  not_admin (Some a) = false →
  ∃ rows, admin_users (Some a) authUsers s = replied rows
    ∧ length rows = size (users s)
    ∧ UserRow.id <$> rows = Profile.id <$> getByPrefix (users s)
    ∧ (∀ row, row ∈ rows →
         ∃ k p, users s !! k = Some p
           ∧ UserRow.id row = Profile.id p ∧ UserRow.name row = Profile.name p
           ∧ UserRow.email row = Profile.email p
           ∧ UserRow.isAdmin row = isAdmin (Profile.email p)
           ∧ (authUsers = None → UserRow.createdAt row = None ∧ UserRow.lastSignIn row = None)
           ∧ (∀ l, authUsers = Some l →
                (∀ au, au ∈ l → AuthRecord.id au ≠ Profile.id p) →
                UserRow.createdAt row = None ∧ UserRow.lastSignIn row = None)
           ∧ (∀ l1 au l2, authUsers = Some (l1 ++ au :: l2)%list →
                (∀ au', au' ∈ l1 → AuthRecord.id au' ≠ Profile.id p) →
                AuthRecord.id au = Profile.id p →
                UserRow.createdAt row = AuthRecord.created_at au
                ∧ UserRow.lastSignIn row = AuthRecord.last_sign_in_at au)).
Proof.
  intros Ha. unfold admin_users. rewrite Ha. eexists. split; [reflexivity|]. split_and!.
  - by rewrite length_map, length_getByPrefix.
  - change (map ?f ?l) with (f <$> l). rewrite <- list_fmap_compose. done.
  - intros row. rewrite list_elem_of_In, in_map_iff.
    intros (p & <- & [k Hk]%list_elem_of_In%elem_of_getByPrefix).
    exists k, p. cbn [UserRow.id UserRow.name UserRow.email UserRow.isAdmin
                      UserRow.createdAt UserRow.lastSignIn].
    split_and!; try done.
    + by intros ->.
    + intros l -> Hnone.
      assert (List.find (λ au, bool_decide (AuthRecord.id au = Profile.id p)) l = None) as ->;
        [|done].
      induction l as [|au l IH]; [done|]. cbn.
      rewrite bool_decide_eq_false_2 by (apply Hnone, list_elem_of_here).
      apply IH. intros au' Hau'. apply Hnone. by right.
    + intros l1 au l2 -> Hnone Hid.
      assert (List.find (λ au, bool_decide (AuthRecord.id au = Profile.id p))
                (l1 ++ au :: l2) = Some au) as ->; [|done].
      induction l1 as [|au' l1 IH]; cbn.
      * by rewrite bool_decide_eq_true_2.
      * rewrite bool_decide_eq_false_2 by (apply Hnone, list_elem_of_here).
        apply IH. intros au'' Hau''. apply Hnone. by right.
Qed.

Lemma admin_user_rows_witness :
  ∃ rows, admin_users (Some admin)
            (Some [AuthRecord.mk "u1" (Some "2024-01-01") None]) registered = replied rows
          ∧ UserRow.mk "a0" "Root" "LichengAntv@gmail.com" None None true ∈ rows
          ∧ UserRow.mk "u1" "Al" "u1@example.com" (Some "2024-01-01") None false ∈ rows.
Proof.
  destruct (admin_user_rows registered admin (Some [AuthRecord.mk "u1" (Some "2024-01-01") None]))
    as (rows & H & _); [vm_compute; reflexivity|].
  exists rows. split; [exact H|]. injection H as <-. vm_compute.
  split; [apply list_elem_of_further|]; repeat constructor.
Defined.

(** ** Changing the display name *)

(** X21. For an authenticated caller and a parsed body, whatever function
    [trim] is: a name that is missing, empty or empty once trimmed is
    answered 400, and so is an error of the identity provider, and neither
    writes; otherwise the answer carries the trimmed name, and the store
    changes in one place at most: the name of the caller's user record,
    whose id and address stay; a caller without a user record gets none.
    The conversation index, the group index, the groups and the messages
    are never touched, so the three store invariants are kept. *)
Theorem profile_update_effect (trim : string → string) (u : AuthUser.t)
    (name updateError : option string) (s : Store) :
  AuthUser.id u ≠ "" →
  let r := update_profile trim (Some u) (Some name) updateError s in
  (truthy name = false ∨ trim (js_str name) = "" →
     r = (s, refused "Name is required" 400))
  ∧ (truthy name = true → trim (js_str name) ≠ "" → ∀ message, updateError = Some message →
     r = (s, refused message 400))
  ∧ (truthy name = true → trim (js_str name) ≠ "" → updateError = None →
     r.2 = replied (trim (js_str name))
     ∧ (∀ p, users s !! AuthUser.id u = Some p →
          users r.1 = <[AuthUser.id u :=
                         Profile.mk (Profile.id p) (Profile.email p) (trim (js_str name))]>
                        (users s)
          ∧ ∀ caller, AuthUser.id caller ≠ "" →
              get_user (Some caller) (AuthUser.id u) r.1
              = json (user_body (Profile.mk (Profile.id p) (Profile.email p)
                                            (trim (js_str name)))) 200)
     ∧ (users s !! AuthUser.id u = None → r.1 = s))
  ∧ conversations r.1 = conversations s ∧ user_groups r.1 = user_groups s
  ∧ groups r.1 = groups s ∧ messages r.1 = messages s
  ∧ (wf_store s → wf_store r.1)
  ∧ (members_indexed s → members_indexed r.1)
  ∧ (targets_ok s → targets_ok r.1).
Proof.
  intros Hu. cbv zeta. unfold update_profile. rewrite (no_user_id_false u Hu).
  destruct (truthy name) eqn:Hname; cbn [negb orb]; [|by guard_cases].
  destruct (String.eqb_spec (trim (js_str name)) "") as [Hempty|Hne]; [by guard_cases|].
  destruct updateError as [message|]; [by guard_cases|]. cbn [fst snd].
  destruct (users s !! AuthUser.id u) as [p|] eqn:Hp; [|by guard_cases].
  assert (Hget : ∀ caller, AuthUser.id caller ≠ "" →
    get_user (Some caller) (AuthUser.id u)
      (with_users <[AuthUser.id u :=
         Profile.mk (Profile.id p) (Profile.email p) (trim (js_str name))]> s)
    = json (user_body (Profile.mk (Profile.id p) (Profile.email p) (trim (js_str name)))) 200).
  { intros caller Hc. unfold get_user. rewrite (no_user_id_false caller Hc).
    cbn [users with_users]. by rewrite lookup_insert_eq. }
  pose proof (wf_with_users <[AuthUser.id u :=
    Profile.mk (Profile.id p) (Profile.email p) (trim (js_str name))]> s) as Hwf.
  guard_cases.
Qed.

Lemma profile_update_effect_witness :
  let r := update_profile trim_spaces (Some u1) (Some (Some "  Alan ")) None chatted in
  r.2 = replied "Alan"
  ∧ get_user (Some u2) "u1" r.1 = json (user_body (Profile.mk "u1" "u1@example.com" "Alan")) 200.
Proof.
  destruct (profile_update_effect trim_spaces u1 (Some "  Alan ") None chatted)
    as (_ & _ & H & _); [intros E; discriminate E|].
  destruct H as (H1 & H2 & _); [reflexivity|intros E; vm_compute in E; discriminate E|reflexivity|].
  split; [exact H1|].
  destruct (H2 (Profile.mk "u1" "u1@example.com" "Al")) as [_ H3]; [vm_compute; reflexivity|].
  apply (H3 u2). intros E; discriminate E.
Defined.

(** ** The group dialog *)

Lemma selection_after_snoc (clicks : list string) (c : string) :
  selection_after (clicks ++ [c]) = handleToggleUser c (selection_after clicks).
Proof. unfold selection_after. by rewrite foldl_app. Qed.

Lemma handleToggleUser_elem (x y : string) (prev : list string) :
  y ∈ handleToggleUser x prev ↔ (if decide (y = x) then x ∉ prev else y ∈ prev).
Proof.
  unfold handleToggleUser, includes.
  destruct (decide (x ∈ prev)) as [Hin|Hin].
  - rewrite bool_decide_eq_true_2 by done.
    rewrite elem_of_filter_bool, negb_true_iff, bool_decide_eq_false.
    destruct (decide (y = x)) as [->|Hne]; tauto.
  - rewrite bool_decide_eq_false_2 by done.
    rewrite elem_of_app, list_elem_of_singleton.
    destruct (decide (y = x)) as [->|Hne]; tauto.
Qed.

Lemma handleToggleUser_NoDup (x : string) (prev : list string) :
  NoDup prev → NoDup (handleToggleUser x prev).
Proof.
  intros Hnd. unfold handleToggleUser, includes.
  destruct (decide (x ∈ prev)) as [Hin|Hin].
  - rewrite bool_decide_eq_true_2 by done. by apply NoDup_filter_bool.
  - rewrite bool_decide_eq_false_2 by done. by apply push_NoDup.
Qed.

Lemma selection_after_NoDup (clicks : list string) : NoDup (selection_after clicks).
Proof.
  induction clicks as [|c clicks IH] using rev_ind; [constructor|].
  rewrite selection_after_snoc. by apply handleToggleUser_NoDup.
Qed.

Lemma selection_after_elem (clicks : list string) (x : string) :
  x ∈ selection_after clicks
  ↔ Nat.odd (length (List.filter (λ c, bool_decide (c = x)) clicks)) = true.
Proof.
  induction clicks as [|c clicks IH] using rev_ind.
  - cbn. split; [by intros ?%elem_of_nil|done].
  - rewrite selection_after_snoc, handleToggleUser_elem, List.filter_app, length_app.
    cbn [List.filter]. destruct (decide (x = c)) as [->|Hne].
    + rewrite bool_decide_eq_true_2 by done. cbn [length].
      rewrite Nat.add_1_r, Nat.odd_succ, <- Nat.negb_odd, IH.
      destruct (Nat.odd _); cbn; split; congruence.
    + rewrite bool_decide_eq_false_2 by congruence. cbn [length].
      by rewrite Nat.add_0_r.
Qed.

(** X22. In the group dialog, whatever users are clicked and in whatever
    order, no user is selected twice; a user is selected exactly when
    clicked an odd number of times; clicking a user twice in a row changes
    nothing when the user was not selected; and the form is refused with
    'Please select at least one member', no request being sent, exactly when
    every user was clicked an even number of times. A request carries the
    name as typed and the selection. *)
Theorem group_dialog_selection (clicks : list string) (groupName : string) :
  let clicked x := length (List.filter (λ c, bool_decide (c = x)) clicks) in
  NoDup (selection_after clicks)
  ∧ (∀ x, x ∈ selection_after clicks ↔ Nat.odd (clicked x) = true)
  ∧ (∀ x, x ∉ selection_after clicks →
          selection_after (clicks ++ [x; x]) = selection_after clicks)
  ∧ (handleCreateGroup groupName (selection_after clicks)
       = inl "Please select at least one member"
     ↔ ∀ x, Nat.odd (clicked x) = false)
  ∧ (∀ body, handleCreateGroup groupName (selection_after clicks) = inr body →
       body = CreateGroupBody.mk (Some groupName) (Some (selection_after clicks))
       ∧ selection_after clicks ≠ []).
Proof.
  cbv zeta. split; [apply selection_after_NoDup|]. split; [apply selection_after_elem|].
  split; [|split].
  - intros x Hx. change [x; x] with ([x] ++ [x])%list.
    rewrite app_assoc, !selection_after_snoc.
    unfold handleToggleUser at 2, includes. rewrite bool_decide_eq_false_2 by done.
    unfold handleToggleUser, includes.
    rewrite bool_decide_eq_true_2 by (apply elem_of_app; right; by apply list_elem_of_singleton).
    rewrite List.filter_app. cbn [List.filter]. rewrite bool_decide_eq_true_2 by done.
    cbn [negb]. rewrite app_nil_r.
    clear -Hx.
    induction (selection_after clicks) as [|y l IH]; [done|].
    apply not_elem_of_cons in Hx as [Hne Hx]. cbn [List.filter].
    rewrite bool_decide_eq_false_2 by congruence. cbn [negb]. f_equal. by apply IH.
  - unfold handleCreateGroup. split.
    + destruct (selection_after clicks) as [|y l] eqn:Hsel; [|intros H; discriminate H].
      intros _ x. destruct (Nat.odd _) eqn:Hodd; [|done].
      apply selection_after_elem in Hodd. rewrite Hsel in Hodd. by apply elem_of_nil in Hodd.
    + intros Heven. destruct (selection_after clicks) as [|y l] eqn:Hsel; [done|].
      assert (Hy : y ∈ selection_after clicks) by (rewrite Hsel; left).
      apply selection_after_elem in Hy. by rewrite Heven in Hy.
  - intros body. unfold handleCreateGroup.
    destruct (selection_after clicks) as [|y l]; [intros H; discriminate H|].
    cbn. intros [= <-]. done.
Qed.

Lemma selection_after_clicked (clicks : list string) (x : string) :
  x ∈ selection_after clicks → x ∈ clicks.
Proof.
  intros H%selection_after_elem.
  destruct (List.filter (λ c, bool_decide (c = x)) clicks) as [|y l] eqn:Hf;
    [discriminate H|].
  assert (Hy : y ∈ List.filter (λ c, bool_decide (c = x)) clicks) by (rewrite Hf; left).
  apply elem_of_filter_bool in Hy as [Hy Hyx]. apply bool_decide_eq_true in Hyx. by subst.
Qed.

(** X23. A group made with the dialog. When the users clicked are users of
    the list the dialog shows (the answer of GET /users to the creator) and
    the form sends a request, create-group refuses it with status 400
    exactly when the name typed is empty, the store unchanged; else it
    stores a group whose members are the creator followed by the selection
    as it stands, none of them twice, at least two of them, under the name
    as typed. *)
Theorem dialog_group_members (s : Store) (u : AuthUser.t) (shown : list Profile.t)
    (clicks : list string) (groupName : string) (body : CreateGroupBody.t)
    (now_id : Z) (rnd : string) (now : Z) :
  AuthUser.id u ≠ "" →
  get_users (Some u) s = replied shown →
  (∀ c, c ∈ clicks → c ∈ map Profile.id shown) →
  handleCreateGroup groupName (selection_after clicks) = inr body →
  let r := create_group (Some u) (Some body) now_id rnd now s in
  (groupName = "" →
     r = (s, json (error_body "Group name and members are required") 400))
  ∧ (groupName ≠ "" →
     ∃ g, r.2 = json (group_body g) 200
          ∧ groups r.1 !! Group.id g = Some g
          ∧ Group.name g = groupName
          ∧ Group.createdBy g = AuthUser.id u
          ∧ Group.memberIds g = AuthUser.id u :: selection_after clicks
          ∧ NoDup (Group.memberIds g)
          ∧ (2 ≤ length (Group.memberIds g))%nat).
Proof.
  intros Hu Hshown Hclicks Hbody. cbv zeta.
  assert (Hsel : ∀ x, x ∈ selection_after clicks → x ≠ AuthUser.id u).
  { intros x Hx%selection_after_clicked%Hclicks. revert Hshown. unfold get_users.
    rewrite (no_user_id_false u Hu), map_profile_id. intros [= <-].
    apply list_elem_of_fmap in Hx as (p & -> & Hp).
    apply elem_of_filter_bool in Hp as [_ Hp]. apply negb_true_iff in Hp.
    by apply bool_decide_eq_false in Hp. }
  assert (Hnot : AuthUser.id u ∉ selection_after clicks) by (intros H; by apply (Hsel _ H)).
  unfold handleCreateGroup in Hbody.
  destruct (selection_after clicks) as [|y l] eqn:Hl; [discriminate Hbody|].
  cbn in Hbody. injection Hbody as <-. rewrite <- Hl in *. split.
  - intros ->. unfold create_group. by rewrite (no_user_id_false u Hu).
  - intros Hname.
    rewrite (create_group_ok s u (Some groupName) (selection_after clicks) now_id rnd now Hu
               (truthy_Some_ne groupName Hname)).
    cbv zeta. cbn [fst snd Group.id Group.memberIds]. unfold allMemberIds.
    rewrite (filter_ne_id _ _ Hnot). eexists. split; [reflexivity|].
    cbn [Group.id Group.name Group.createdBy Group.memberIds js_str].
    split.
    { rewrite (foldl_frame _ groups); [|intros s0 x; apply add_member_group_frame].
      cbn [groups with_groups]. by rewrite lookup_insert_eq. }
    split; [done|]. split; [done|]. split; [done|]. split.
    + constructor; [done|apply selection_after_NoDup].
    + rewrite Hl. cbn [length]. lia.
Qed.

Lemma dialog_group_members_witness :
  let r := create_group (Some u1)
             (Some (CreateGroupBody.mk (Some "team") (Some ["u3"; "u2"]))) 5 "abc" 6 registered in
  ("team" = "" → r = (registered, json (error_body "Group name and members are required") 400))
  ∧ ("team" ≠ "" →
     ∃ g, r.2 = json (group_body g) 200
          ∧ groups r.1 !! Group.id g = Some g
          ∧ Group.name g = "team"
          ∧ Group.createdBy g = "u1"
          ∧ Group.memberIds g = "u1" :: selection_after ["u2"; "u3"; "u2"; "u2"]
          ∧ NoDup (Group.memberIds g)
          ∧ (2 ≤ length (Group.memberIds g))%nat).
Proof.
  refine (dialog_group_members registered u1
            [Profile.mk "u3" "u3@example.com" "Cy"; Profile.mk "u2" "u2@example.com" "Bo";
             Profile.mk "a0" "LichengAntv@gmail.com" "Root"]
            ["u2"; "u3"; "u2"; "u2"] "team" _ 5 "abc" 6 _ _ _ _).
  - intros H; discriminate H.
  - vm_compute; reflexivity.
  - intros c Hc. apply list_elem_of_In in Hc. apply list_elem_of_In. cbn in *. tauto.
  - vm_compute; reflexivity.
Defined.

(** ** The account settings screen *)

Lemma passwordStrength_strength (c : N) (p : list N) :
  Strength.strength (passwordStrength (c :: p))
  = (Nat.b2n (6 <=? length (c :: p)) + Nat.b2n (10 <=? length (c :: p))
     + Nat.b2n (existsb is_lower (c :: p) && existsb is_upper (c :: p))
     + Nat.b2n (existsb is_digit (c :: p))
     + Nat.b2n (existsb (λ c, negb (is_lower c || is_upper c || is_digit c)) (c :: p)))%nat.
Proof.
  unfold passwordStrength. cbv zeta.
  destruct (6 <=? length (c :: p))%nat, (10 <=? length (c :: p))%nat,
    (existsb is_lower (c :: p) && existsb is_upper (c :: p)),
    (existsb is_digit (c :: p)),
    (existsb (λ c, negb (is_lower c || is_upper c || is_digit c)) (c :: p)); reflexivity.
Qed.

Lemma passwordStrength_label (p : list N) :
  Strength.label (passwordStrength p)
  = match p with
    | [] => ""
    | _ =>
      let n := Strength.strength (passwordStrength p) in
      if (n <=? 2)%nat then "Weak" else if (n <=? 3)%nat then "Fair"
      else if (n <=? 4)%nat then "Good" else "Strong"
    end.
Proof.
  destruct p as [|c p]; [done|]. cbv zeta. unfold passwordStrength. cbv zeta.
  destruct (6 <=? length (c :: p))%nat, (10 <=? length (c :: p))%nat,
    (existsb is_lower (c :: p) && existsb is_upper (c :: p)),
    (existsb is_digit (c :: p)),
    (existsb (λ c, negb (is_lower c || is_upper c || is_digit c)) (c :: p)); reflexivity.
Qed.

Lemma b2n_le_1 (b : bool) : (Nat.b2n b ≤ 1)%nat.
Proof. destruct b; cbn; lia. Qed.

Lemma b2n_mono (a b : bool) : (a = true → b = true) → (Nat.b2n a ≤ Nat.b2n b)%nat.
Proof. destruct a, b; cbn; intros H; first [lia | by specialize (H eq_refl)]. Qed.

Lemma existsb_lower_only (f : N → bool) (p : list N) :
  (∀ c, is_lower c = true → f c = false) → Forall (λ c, is_lower c = true) p →
  existsb f p = false.
Proof.
  intros Hf Hp. induction Hp as [|c p Hc Hp IH]; [done|].
  cbn. by rewrite (Hf c Hc), IH.
Qed.

(** X24. The strength meter of the settings screen. The strength is at
    most 5; the label is empty exactly for the empty password and 'Strong'
    exactly when the password has ten code units or more, a lower-case and
    an upper-case letter, a digit and another character; a password shorter
    than six is never 'Good' or 'Strong'; a password of lower-case letters
    only is 'Weak' whatever its length; and typing on never lowers the
    strength. *)
Theorem password_strength_meter (p q : list N) :
  let m := passwordStrength p in
  (Strength.strength m ≤ 5)%nat
  ∧ (Strength.label m = "" ↔ p = [])
  ∧ (Strength.label m = "Strong"
     ↔ (10 ≤ length p)%nat ∧ existsb is_lower p = true ∧ existsb is_upper p = true
       ∧ existsb is_digit p = true
       ∧ existsb (λ c, negb (is_lower c || is_upper c || is_digit c)) p = true)
  ∧ ((length p < 6)%nat → Strength.label m ≠ "Good" ∧ Strength.label m ≠ "Strong")
  ∧ (p ≠ [] → Forall (λ c, is_lower c = true) p → Strength.label m = "Weak")
  ∧ (Strength.strength m ≤ Strength.strength (passwordStrength (p ++ q)))%nat.
Proof.
  cbv zeta. destruct p as [|c p].
  { cbn [passwordStrength Strength.strength Strength.label length existsb].
    split; [lia|]. split; [done|]. split; [split; [intros H; discriminate H|lia]|].
    split; [by split|]. split; [done|lia]. }
  rewrite passwordStrength_label, passwordStrength_strength. cbv zeta.
  set (l := (c :: p)).
  split; [|split; [|split; [|split; [|split]]]].
  - pose proof (b2n_le_1 (6 <=? length l)%nat). pose proof (b2n_le_1 (10 <=? length l)%nat).
    pose proof (b2n_le_1 (existsb is_lower l && existsb is_upper l)).
    pose proof (b2n_le_1 (existsb is_digit l)).
    pose proof (b2n_le_1 (existsb (λ c, negb (is_lower c || is_upper c || is_digit c)) l)).
    lia.
  - subst l. split; [|intros H; discriminate H].
    repeat case_match; intros Hs; discriminate Hs.
  - clearbody l.
    destruct (6 <=? length l)%nat eqn:H6, (10 <=? length l)%nat eqn:H10,
      (existsb is_lower l), (existsb is_upper l), (existsb is_digit l),
      (existsb (λ c, negb (is_lower c || is_upper c || is_digit c)) l);
      cbn; first [apply Nat.leb_le in H10 | apply Nat.leb_gt in H10];
      first [apply Nat.leb_le in H6 | apply Nat.leb_gt in H6];
      (split; [intros Hs; first [discriminate Hs | lia | by split_and!]
              |intros (Hlen & Hlo & Hup & Hdi & Hot); first [done | lia]]).
  - intros Hlen.
    assert ((6 <=? length l)%nat = false) as -> by (apply Nat.leb_gt; lia).
    assert ((10 <=? length l)%nat = false) as -> by (apply Nat.leb_gt; lia).
    destruct (existsb is_lower l && existsb is_upper l), (existsb is_digit l),
      (existsb (λ c, negb (is_lower c || is_upper c || is_digit c)) l);
      cbn; split; intros H; discriminate H.
  - intros _ Hlow.
    rewrite (existsb_lower_only is_upper l), (existsb_lower_only is_digit l),
      (existsb_lower_only (λ c, negb (is_lower c || is_upper c || is_digit c)) l); try done.
    + rewrite andb_false_r. by destruct (6 <=? length l)%nat, (10 <=? length l)%nat.
    + intros c' Hc. by rewrite Hc.
    + intros c' [H1%N.leb_le H2%N.leb_le]%andb_true_iff.
      apply andb_false_iff. rewrite !N.leb_gt. lia.
    + intros c' [H1%N.leb_le H2%N.leb_le]%andb_true_iff.
      apply andb_false_iff. rewrite !N.leb_gt. lia.
  - subst l. rewrite <- app_comm_cons, passwordStrength_strength, app_comm_cons.
    set (l := (c :: p)).
    repeat apply Nat.add_le_mono; apply b2n_mono.
    + rewrite !Nat.leb_le, length_app. lia.
    + rewrite !Nat.leb_le, length_app. lia.
    + rewrite !andb_true_iff, !existsb_app, !orb_true_iff. tauto.
    + rewrite existsb_app, orb_true_iff. tauto.
    + rewrite existsb_app, orb_true_iff. tauto.
Qed.

(** X25. What the settings forms send passes the field checks of the
    handlers. A password change the form sends has the new password typed
    twice alike, of six code units or more (so of strength 1 at least) and
    other than the current one, and the handler answers it by the outcome
    of the sign-in and of the provider's update alone. That the new
    password differs from the current one is a rule of the form only: the
    handler accepts a request where they are the same. An account deletion
    the form sends is never answered 'Password is required to delete
    account'. *)
Theorem settings_forms_pass_validation (u : AuthUser.t)
    (currentPassword newPassword confirmPassword : list N) (body : PasswordBody.t)
    (signInError : bool) (updateError : option string) :
  AuthUser.id u ≠ "" →
  handleChangePassword currentPassword newPassword confirmPassword = inr body →
  body = PasswordBody.mk (Some currentPassword) (Some newPassword)
  ∧ newPassword = confirmPassword ∧ currentPassword ≠ newPassword
  ∧ (6 ≤ length newPassword)%nat
  ∧ (1 ≤ Strength.strength (passwordStrength newPassword))%nat
  ∧ change_password (Some u) (Some body) signInError updateError
    = (if signInError then refused "Current password is incorrect" 400
       else match updateError with
            | Some message => refused message 400
            | None => replied "Password updated successfully"
            end)
  ∧ handleChangePassword newPassword newPassword newPassword
    = inl "New password must be different from current password"
  ∧ change_password (Some u) (Some (PasswordBody.mk (Some newPassword) (Some newPassword)))
      signInError updateError
    = change_password (Some u) (Some body) signInError updateError
  ∧ (∀ deletePassword password s deleteError,
       handleDeleteAccount deletePassword = inr password →
       deletePassword ≠ ""
       ∧ delete_account (Some u) (Some password) signInError deleteError s
         = if signInError then (s, json (error_body "Password is incorrect") 400)
           else match deleteError with
                | Some message => (s, json (error_body message) 400)
                | None => (delete_user_data (AuthUser.id u) s,
                           json (success_body "Account deleted successfully") 200)
                end).
Proof.
  intros Hu Hform. unfold handleChangePassword in *.
  destruct currentPassword as [|c0 cur]; [discriminate Hform|].
  destruct newPassword as [|n0 new]; [discriminate Hform|].
  destruct confirmPassword as [|f0 conf]; [discriminate Hform|].
  cbn [no_password orb] in *.
  destruct (decide (n0 :: new = f0 :: conf)) as [Heq|Hne];
    [rewrite (bool_decide_eq_true_2 _ Heq) in Hform
    |rewrite (bool_decide_eq_false_2 _ Hne) in Hform; discriminate Hform].
  cbn [negb] in Hform. rewrite bool_decide_eq_true_2 by done. cbn [negb].
  destruct (length (n0 :: new) <? 6)%nat eqn:Hlen; [discriminate Hform|].
  apply Nat.ltb_ge in Hlen.
  destruct (decide (c0 :: cur = n0 :: new)) as [Hsame|Hdiff];
    [rewrite (bool_decide_eq_true_2 _ Hsame) in Hform; discriminate Hform
    |rewrite (bool_decide_eq_false_2 _ Hdiff) in Hform].
  injection Hform as <-.
  assert (Hlenb : (length (n0 :: new) <? 6)%nat = false) by by apply Nat.ltb_ge.
  split; [done|]. split; [done|]. split; [done|]. split; [done|]. split.
  { rewrite passwordStrength_strength.
    assert ((6 <=? length (n0 :: new))%nat = true) as -> by by apply Nat.leb_le.
    cbn [Nat.b2n]. lia. }
  unfold change_password. rewrite (no_user_id_false u Hu).
  cbn [PasswordBody.currentPassword PasswordBody.newPassword no_password orb default
       from_option id].
  rewrite Hlenb. split; [done|]. split; [done|]. split; [done|].
  intros deletePassword password s deleteError. unfold handleDeleteAccount, delete_account.
  rewrite (no_user_id_false u Hu).
  destruct (truthy (Some deletePassword)) eqn:Htr; [|intros H; discriminate H].
  cbn [negb]. intros [= <-]. rewrite Htr. cbn [negb]. split; [|done].
  by destruct (truthy_Some _ Htr) as (v & [= <-] & Hv).
Qed.

Lemma settings_forms_pass_validation_witness :
  change_password (Some u1)
    (Some (PasswordBody.mk (Some [115; 101; 99; 114; 101; 116]%N)
                           (Some [83; 51; 99; 114; 101; 116; 33]%N))) false None
  = replied "Password updated successfully"
  ∧ handleChangePassword [83; 51; 99; 114; 101; 116; 33]%N [83; 51; 99; 114; 101; 116; 33]%N
      [83; 51; 99; 114; 101; 116; 33]%N
    = inl "New password must be different from current password".
Proof.
  destruct (settings_forms_pass_validation u1 [115; 101; 99; 114; 101; 116]%N
              [83; 51; 99; 114; 101; 116; 33]%N [83; 51; 99; 114; 101; 116; 33]%N
              (PasswordBody.mk (Some [115; 101; 99; 114; 101; 116]%N)
                               (Some [83; 51; 99; 114; 101; 116; 33]%N)) false None)
    as (_ & _ & _ & _ & _ & H1 & H2 & _).
  - intros H; discriminate H.
  - vm_compute; reflexivity.
  - split; [exact H1|exact H2].
Defined.

(** ** The chat window *)

(** X26. What the chat window sends, and that it shows up. With no send
    under way and a text that is not blank, the window sends the text as
    typed, surrounding blanks included, to the group id in a group chat and
    to the user id in a direct chat, never both; the handler stores it as a
    message of the caller at the handler's clock, and when the chat type
    agrees with the id's prefix the next poll of the window lists that
    message. A direct chat with a user whose id starts with 'group_' is
    stored as a direct message but polled as a group, so the message is not
    listed. While a send is under way nothing is sent. *)
Theorem chat_window_send_round_trip (trim : string → string) (chatType : ChatType)
    (targetId newMessage : string) (u : AuthUser.t) (now : Z) (s : Store)
    (body : SendBody.t) :
  trim "" = "" → AuthUser.id u ≠ "" → targetId ≠ "" →
  sendMessage trim chatType targetId newMessage false = Some body →
  let r := send_message (Some u) (Some body) now s in
  sendMessage trim chatType targetId newMessage true = None
  ∧ ∃ m, r.2 = json (message_body m) 200
         ∧ messages r.1 !! Message.id m = Some m
         ∧ Message.text m = newMessage ∧ Message.fromUserId m = AuthUser.id u
         ∧ Message.timestamp m = now
         ∧ (chatType = group_chat →
              Message.groupId m = Some targetId ∧ Message.toUserId m = None)
         ∧ (chatType = dm_chat →
              Message.toUserId m = Some targetId ∧ Message.groupId m = None)
         ∧ ((chatType = group_chat ↔ startsWith targetId "group_" = true) →
              ∃ l, get_messages (Some u) targetId r.1 = json (messages_body l) 200 ∧ m ∈ l)
         ∧ (chatType = dm_chat → startsWith targetId "group_" = true →
              ∃ l, get_messages (Some u) targetId r.1 = json (messages_body l) 200
                   ∧ (m ∉ l)).
Proof.
  intros Htrim Hu Ht Hsend. cbv zeta. unfold sendMessage in *.
  rewrite orb_true_r. split; [done|]. rewrite orb_false_r in Hsend.
  destruct (String.eqb_spec (trim newMessage) "") as [Hblank|Hblank]; [discriminate Hsend|].
  assert (Htext : newMessage ≠ "") by (intros ->; by apply Hblank).
  cbv zeta in Hsend. injection Hsend as <-.
  pose proof (send_message_writes (Some u)
    (Some match chatType with
          | group_chat => SendBody.mk None (Some targetId) (Some newMessage)
          | dm_chat => SendBody.mk (Some targetId) None (Some newMessage)
          end) now s) as Hw.
  cbv zeta in Hw. destruct Hw as (_ & _ & _ & _ & Hw).
  revert Hw. unfold send_message. rewrite (no_user_id_false u Hu).
  destruct chatType; cbv zeta;
    cbn [SendBody.toUserId SendBody.groupId SendBody.text];
    unfold js_or; rewrite !(truthy_Some_ne _ Ht), (truthy_Some_ne _ Htext);
    cbn [truthy negb andb orb js_str fst snd]; intros Hw;
    (eexists; split; [reflexivity|]);
    destruct (Hw _ eq_refl) as (Hm & _); clear Hw;
    cbn [Message.id Message.text Message.fromUserId Message.timestamp Message.groupId
         Message.toUserId] in *.
  - (* a direct chat *)
    set (m := Message.mk _ _ _ _ _ _) in *.
    assert (Hin : m ∈ getByPrefix (<[Message.id m := m]> (messages s))).
    { apply elem_of_getByPrefix. exists (Message.id m). apply lookup_insert_eq. }
    split; [rewrite Hm; apply lookup_insert_eq|].
    split; [done|]. split; [done|]. split; [done|].
    split; [intros H; discriminate H|]. split; [done|]. split.
    + intros Hiff. destruct (startsWith targetId "group_") eqn:Hp;
        [by destruct Hiff as [_ Hiff]; specialize (Hiff eq_refl)|].
      rewrite (get_messages_direct _ u targetId Hu Hp), Hm. eexists. split; [reflexivity|].
      unfold listForDirect. rewrite elem_of_sort. apply elem_of_filter_bool.
      split; [exact Hin|].
      unfold between. subst m. cbn [Message.fromUserId Message.toUserId].
      rewrite (bool_decide_eq_true_2 (AuthUser.id u = AuthUser.id u)) by done.
      by rewrite (bool_decide_eq_true_2 (Some targetId = Some targetId)) by done.
    + intros _ Hp. rewrite (get_messages_group _ u targetId Hu Hp).
      eexists. split; [reflexivity|].
      unfold listForGroup. rewrite elem_of_sort. intros [_ Hg]%elem_of_filter_bool.
      unfold in_group in Hg. subst m. cbn [Message.groupId] in Hg.
      by apply bool_decide_eq_true in Hg.
  - (* a group chat *)
    set (m := Message.mk _ _ _ _ _ _) in *.
    assert (Hin : m ∈ getByPrefix (<[Message.id m := m]> (messages s))).
    { apply elem_of_getByPrefix. exists (Message.id m). apply lookup_insert_eq. }
    split; [rewrite Hm; apply lookup_insert_eq|].
    split; [done|]. split; [done|]. split; [done|].
    split; [done|]. split; [intros H; discriminate H|]. split.
    + intros [Hiff _]. rewrite (get_messages_group _ u targetId Hu (Hiff eq_refl)), Hm.
      eexists. split; [reflexivity|].
      unfold listForGroup. rewrite elem_of_sort. apply elem_of_filter_bool.
      split; [exact Hin|].
      unfold in_group. subst m. cbn [Message.groupId]. by rewrite bool_decide_eq_true_2.
    + intros H; discriminate H.
Qed.

Lemma chat_window_send_round_trip_witness :
  let r := send_message (Some u1) (Some (SendBody.mk (Some "u2") None (Some " hi "))) 1000
             registered in
  ∃ m, r.2 = json (message_body m) 200 ∧ Message.text m = " hi "
       ∧ ∃ l, get_messages (Some u1) "u2" r.1 = json (messages_body l) 200 ∧ m ∈ l.
Proof.
  destruct (chat_window_send_round_trip trim_spaces dm_chat "u2" " hi " u1 1000 registered
              (SendBody.mk (Some "u2") None (Some " hi ")))
    as (_ & m & H1 & _ & H2 & _ & _ & _ & _ & H3 & _).
  - vm_compute; reflexivity.
  - intros H; discriminate H.
  - intros H; discriminate H.
  - vm_compute; reflexivity.
  - exists m. split; [exact H1|]. split; [exact H2|]. apply H3.
    split; intros H; [discriminate H|vm_compute in H; discriminate H].
Defined.

(** ** The application's screens *)

(** X27. Which screen the application shows once a user has logged in with
    a token, an id and a name that are not empty. The chat list comes
    first. The admin panel is shown exactly when the admin check at login
    answered true, and the settings exactly when the session had an
    address; in the other case the screen opened is blank. A chat selected
    with an id and a name that are not empty shows the list and the window,
    and going back clears the chat. A name update to the empty name blanks
    the settings. Logging out shows the login page with the token, id, name
    and address cleared, whatever the state; and in no state is the admin
    panel shown without a token and the admin flag. *)
Theorem app_routing (token id name : string) (isAdmin : bool) (sessionEmail : option string)
    (st : App.State) :
  token ≠ "" → id ≠ "" → name ≠ "" →
  let st1 := App.handleLogin token id name isAdmin sessionEmail st in
  App.render st1 = App.ChatListAlone
  ∧ App.render (App.handleOpenAdmin st1)
    = (if isAdmin then App.AdminPanel else App.Nothing)
  ∧ App.render (App.handleOpenSettings st1)
    = (if truthy sessionEmail then App.AccountSettings else App.Nothing)
  ∧ (∀ cid cname type, cid ≠ "" → cname ≠ "" →
       App.render (App.handleSelectChat cid cname type st1) = App.ChatListAndWindow
       ∧ App.handleBackToList (App.handleSelectChat cid cname type st1)
         = App.mkState App.chatList (App.auth st1) App.no_chat
       ∧ App.render (App.handleBackToList (App.handleSelectChat cid cname type st1))
         = App.ChatListAlone)
  ∧ (∀ newName,
       App.render (App.handleNameUpdate newName (App.handleOpenSettings st1))
       = (if truthy sessionEmail && truthy (Some newName) then App.AccountSettings
          else App.Nothing))
  ∧ (∀ st', App.render (App.handleLogout st') = App.LoginPage
            ∧ App.auth (App.handleLogout st') = App.signed_out
            ∧ App.render (App.handleOpenAdmin (App.handleLogout st')) = App.Nothing
            ∧ App.render (App.handleOpenSettings (App.handleLogout st')) = App.Nothing)
  ∧ (∀ st', App.render st' = App.AdminPanel →
            App.screen st' = App.admin ∧ App.isAdmin (App.auth st') = true
            ∧ truthy (App.accessToken (App.auth st')) = true).
Proof.
  intros Htoken Hid Hname. cbv zeta.
  unfold App.handleLogin, App.handleOpenAdmin, App.handleOpenSettings, App.handleSelectChat,
    App.handleBackToList, App.handleNameUpdate, App.handleLogout, App.render.
  cbv zeta.
  cbn [App.screen App.auth App.chat App.accessToken App.userId App.userName App.userEmail
       App.isAdmin App.targetId App.targetName App.chatType App.signed_out App.no_chat].
  rewrite !(truthy_Some_ne _ Htoken), !(truthy_Some_ne _ Hid), !(truthy_Some_ne _ Hname).
  cbn [andb]. split; [done|]. split; [done|]. split.
  { unfold js_or. destruct (truthy sessionEmail) eqn:He; [by rewrite He|done]. }
  split.
  { intros cid cname type Hcid Hcname.
    by rewrite (truthy_Some_ne _ Hcid), (truthy_Some_ne _ Hcname). }
  split.
  { intros newName. unfold js_or.
    destruct (truthy sessionEmail) eqn:He; [rewrite He|]; cbn [andb truthy String.eqb negb];
      [|by rewrite andb_false_r].
    by destruct (negb (String.eqb newName "")). }
  split; [done|].
  intros [scr [tok uid nm em adm] ch]. cbn.
  destruct scr; try (intros H; discriminate H);
    repeat match goal with
           | |- context [truthy ?x] => destruct (truthy x)
           end; destruct adm; cbn; try (intros H; discriminate H); try done.
  all: destruct (App.chatType ch); intros H; discriminate H.
Qed.

Lemma app_routing_witness :
  App.render (App.handleOpenAdmin (App.handleLogin "t" "u1" "Al" false None App.initial))
  = App.Nothing
  ∧ App.render (App.handleOpenSettings (App.handleLogin "t" "u1" "Al" false None App.initial))
    = App.Nothing.
Proof.
  destruct (app_routing "t" "u1" "Al" false None App.initial) as (_ & H1 & H2 & _);
    [intros H; discriminate H..|].
  split; [exact H1|exact H2].
Defined.

(** X28. The admin panel and the admin guard agree. For a user who logs in
    with a token and a name that are not empty, the application shows the
    admin panel exactly when the user's address, in lower case, is an
    administrator address; then no administrator handler answers the user
    403, and otherwise the screen is blank and the handlers answer 403.
    When the admin check cannot be reached the panel is not shown, whoever
    the user is. *)
Theorem admin_panel_matches_admin_guard (u : AuthUser.t) (token name : string)
    (sessionEmail : option string) (st : App.State) (s : Store) :
  AuthUser.id u ≠ "" → token ≠ "" → name ≠ "" →
  let login response :=
    App.handleLogin token (AuthUser.id u) name (checkIsAdmin response) sessionEmail st in
  let panel := App.render (App.handleOpenAdmin (login (Some (admin_check (Some u))))) in
  (panel = App.AdminPanel ↔ isAdmin (AuthUser.email u) = true)
  ∧ (panel = App.AdminPanel →
       not_admin (Some u) = false
       ∧ (∃ stats, admin_stats (Some u) s = replied stats)
       ∧ (∃ rows, admin_groups (Some u) s = replied rows)
       ∧ (∀ groupId, status (admin_delete_group (Some u) groupId s).2 ≠ 403)
       ∧ (∀ userId deleteError,
            status (admin_delete_user (Some u) userId deleteError s).2 ≠ 403))
  ∧ (panel ≠ App.AdminPanel →
       panel = App.Nothing
       ∧ admin_stats (Some u) s = refused "Unauthorized - Admin only" 403
       ∧ (∀ groupId, admin_delete_group (Some u) groupId s = (s, admin_only)))
  ∧ App.render (App.handleOpenAdmin (login None)) = App.Nothing
  ∧ App.render (App.handleOpenAdmin (login (Some (admin_check None)))) = App.Nothing.
Proof.
  intros Hu Htoken Hname. cbv zeta.
  unfold App.handleLogin, App.handleOpenAdmin, App.render, admin_check, checkIsAdmin.
  cbv zeta. rewrite (no_user_id_false u Hu).
  cbn [App.screen App.auth App.accessToken App.isAdmin].
  rewrite (truthy_Some_ne _ Htoken). cbn [andb]. rewrite orb_false_r.
  unfold admin_stats, admin_groups, admin_delete_group, admin_delete_user, not_admin.
  rewrite (no_user_id_false u Hu). cbn [orb].
  destruct (isAdmin (AuthUser.email u)) eqn:Hadm; cbn [negb].
  - split; [done|]. split; [|split; [done|by split]].
    intros _. split; [done|]. split; [by eexists|]. split; [by eexists|]. split.
    + intros groupId. destruct (groups s !! groupId); cbv zeta; cbn [snd status]; lia.
    + intros userId deleteError. destruct (bool_decide _); [cbn [snd status]; lia|].
      destruct (users s !! userId) as [p|]; [|cbn [snd status]; lia].
      destruct (isAdmin (Profile.email p)); [cbn [snd status]; lia|].
      destruct deleteError; cbn [snd status]; lia.
  - split; [split; intros H; discriminate H|]. split; [intros H; discriminate H|].
    split; [done|by split].
Qed.

Lemma admin_panel_matches_admin_guard_witness :
  App.render (App.handleOpenAdmin
    (App.handleLogin "t" "a0" "Root" (checkIsAdmin (Some (admin_check (Some admin)))) None
       App.initial)) = App.AdminPanel
  ∧ ∃ stats, admin_stats (Some admin) chatted = replied stats.
Proof.
  destruct (admin_panel_matches_admin_guard admin "t" "Root" None App.initial chatted)
    as (H1 & H2 & _); [intros H; discriminate H..|].
  assert (Hp : App.render (App.handleOpenAdmin
    (App.handleLogin "t" "a0" "Root" (checkIsAdmin (Some (admin_check (Some admin)))) None
       App.initial)) = App.AdminPanel) by (apply H1; vm_compute; reflexivity).
  split; [exact Hp|]. destruct (H2 Hp) as (_ & H3 & _). exact H3.
Defined.

(** X29. A name changed through the settings form. When the form sends a
    request, the name it sends is the trimmed one, not empty and other than
    the name the screen was opened with; with [trim] leaving that trimmed
    name as it is, the handler answers it with that same name unless the
    identity provider reports an error, stores it in the caller's user
    record, and the application, told the answer's name, keeps showing the
    settings under the new name. *)
Theorem profile_form_round_trip (trim : string → string) (u : AuthUser.t)
    (name userName : string) (body : option string) (s : Store) (st : App.State) :
  trim (trim name) = trim name → AuthUser.id u ≠ "" →
  handleUpdateProfile trim name userName = inr body →
  let r := update_profile trim (Some u) (Some body) None s in
  body = Some (trim name) ∧ trim name ≠ "" ∧ trim name ≠ userName
  ∧ r.2 = replied (trim name)
  ∧ (∀ p, users s !! AuthUser.id u = Some p →
       users r.1 !! AuthUser.id u
       = Some (Profile.mk (Profile.id p) (Profile.email p) (trim name)))
  ∧ (∀ message, update_profile trim (Some u) (Some body) (Some message) s
                = (s, refused message 400))
  ∧ (App.render st = App.AccountSettings →
       App.render (App.handleNameUpdate (trim name) st) = App.AccountSettings
       ∧ App.userName (App.auth (App.handleNameUpdate (trim name) st)) = Some (trim name)).
Proof.
  intros Htrim Hu Hform. cbv zeta. unfold handleUpdateProfile in Hform.
  destruct (truthy (Some name)); [|discriminate Hform]. cbn [negb orb] in Hform.
  destruct (String.eqb_spec (trim name) "") as [|Hne]; [discriminate Hform|].
  destruct (String.eqb_spec (trim name) userName) as [|Hchg]; [discriminate Hform|].
  injection Hform as <-. split; [done|]. split; [done|]. split; [done|].
  unfold update_profile. rewrite (no_user_id_false u Hu), (truthy_Some_ne _ Hne).
  cbn [negb orb js_str]. rewrite Htrim.
  destruct (String.eqb_spec (trim name) "") as [|_]; [done|].
  split; [done|]. split.
  { intros p ->. cbn [fst users with_users]. by rewrite lookup_insert_eq. }
  split; [done|].
  destruct st as [scr [tok uid nm em adm] ch].
  unfold App.render, App.handleNameUpdate.
  cbn [App.screen App.auth App.chat App.accessToken App.userId App.userName App.userEmail
       App.isAdmin].
  rewrite (truthy_Some_ne _ Hne).
  destruct scr; try (intros H; discriminate H);
    repeat match goal with
           | |- context [truthy ?x] => destruct (truthy x)
           end; destruct adm; cbn [andb]; try (intros H; discriminate H); try done.
  all: destruct (App.chatType ch); intros H; discriminate H.
Qed.

Lemma profile_form_round_trip_witness :
  let r := update_profile trim_spaces (Some u1) (Some (Some "Alan")) None chatted in
  r.2 = replied "Alan"
  ∧ users r.1 !! "u1" = Some (Profile.mk "u1" "u1@example.com" "Alan").
Proof.
  destruct (profile_form_round_trip trim_spaces u1 "  Alan " "Al" (Some "Alan") chatted
              App.initial) as (_ & _ & _ & H1 & H2 & _).
  - vm_compute; reflexivity.
  - intros H; discriminate H.
  - vm_compute; reflexivity.
  - split; [exact H1|]. apply (H2 (Profile.mk "u1" "u1@example.com" "Al")).
    vm_compute; reflexivity.
Defined.
